(** * Cost-attribution engine of bq-cost-monitor, embedded in Rocq

    Shallow embedding of [src/queries/cost_query.sql]. The file holds three
    revisions of the query; the definitions follow the last revision (the
    [WITH job_stats AS ...] block ending in [user_daily_stats]), except the
    sub-bucket merge of [cache_hit_percentage], which follows the main
    [SELECT] of the second revision.

    SQL values are modelled as follows:
    - a nullable column of type [T] is an [option T] ([None] is [NULL]);
    - a BOOL expression evaluates to [option bool] (three-valued logic);
    - INT64 columns are [Z]; the FLOAT64 results of [/] are modelled as
      exact rationals [Q], and [round_binary64] gives their binary64
      rounding where a statement depends on it (the shares of
      [attribute_f64]);
    - an expression that can raise (division by zero) evaluates in the
      [result] error monad. *)

From Stdlib Require Import ZArith QArith Qround Qabs Qpower List String Ascii Bool Lia.
From Stdlib Require Floats.SpecFloat.
From Stdlib Require Import Permutation Sorted Lqa.
Import ListNotations.
Open Scope Z_scope.

(* ------------------------------------------------------------------ *)
(** ** SQL evaluation helpers *)

Module Sql.

(** Evaluation of an expression that may raise a runtime error. *)
Inductive result (A : Type) : Type :=
| Ok (a : A)
| Err (msg : string).
Arguments Ok {A} a.
Arguments Err {A} msg.

Definition bind {A B} (r : result A) (k : A -> result B) : result B :=
  match r with
  | Ok a => k a
  | Err m => Err m
  end.

Notation "x <- r ;; k" := (bind r (fun x => k))
  (at level 61, r at next level, right associativity).

(** [mapM]: evaluate an expression on every row, failing on the first error. *)
Fixpoint mapM {A B} (f : A -> result B) (xs : list A) : result (list B) :=
  match xs with
  | [] => Ok []
  | x :: xs' => y <- f x ;; ys <- mapM f xs' ;; Ok (y :: ys)
  end.

(** [a = b] on nullable values: [NULL] when either side is [NULL]. *)
Definition eq_str (a b : option string) : option bool :=
  match a, b with
  | Some x, Some y => Some (String.eqb x y)
  | _, _ => None
  end.

(** Three-valued [AND]. *)
Definition and3 (a b : option bool) : option bool :=
  match a, b with
  | Some false, _ => Some false
  | _, Some false => Some false
  | Some true, b' => b'
  | None, _ => None
  end.

(** A [WHERE] or [JOIN ... ON] keeps a row only when its condition is TRUE. *)
Definition is_true3 (b : option bool) : bool :=
  match b with Some true => true | _ => false end.

(** [NULLIF(x, 0)]. *)
Definition nullif0 (x : Z) : option Z := if Z.eqb x 0 then None else Some x.

(** [x / y] (FLOAT64 division): [NULL] if an operand is [NULL], a
    "division by zero" error if [y] is zero. *)
Definition div (x : option Q) (y : option Z) : result (option Q) :=
  match x, y with
  | Some a, Some b =>
      if Z.eqb b 0 then Err "division by zero"%string
      else Ok (Some (a / inject_Z b)%Q)
  | _, _ => Ok None
  end.

(** FLOAT64 arithmetic is IEEE binary64, round to nearest, ties to even.
    [round_binary64 x] is the binary64 value nearest to the rational [x]:
    53 significant bits, with the subnormal spacing [2 ^ -1074] below
    [2 ^ -1022]. Overflow to infinity is not represented; the quotients
    of INT64 values rounded here stay below [2 ^ 63]. *)
Definition p2 (e : Z) : Q := ((2 # 1) ^ e)%Q.

(** The nearest integer, ties to the even one. *)
Definition round_half_even (y : Q) : Z :=
  let f := Qfloor y in
  match ((y - inject_Z f) ?= (1 # 2))%Q with
  | Lt => f
  | Gt => f + 1
  | Eq => if Z.even f then f else f + 1
  end.

(** [floor(log2 x)] for [x > 0]. *)
Definition f64_exponent (x : Q) : Z :=
  let e0 := Z.log2 (Qnum x) - Z.log2 (Zpos (Qden x)) in
  if Qle_bool (p2 e0) x then e0 else e0 - 1.

Definition f64_round_pos (x : Q) : Q :=
  let q := p2 (Z.max (f64_exponent x - 52) (-1074)) in
  (inject_Z (round_half_even (x / q)) * q)%Q.

Definition round_binary64 (x : Q) : Q :=
  match (x ?= 0)%Q with
  | Eq => 0%Q
  | Gt => f64_round_pos x
  | Lt => (- f64_round_pos (- x))%Q
  end.

(** [CAST(z AS FLOAT64)] *)
Definition f64_of_int (z : Z) : Q := round_binary64 (inject_Z z).


(** The value of a finite binary64 number of the Standard Library's IEEE
    model [SpecFloat] ([None] for infinities and NaN). *)
Definition spec_float_value (f : SpecFloat.spec_float) : option Q :=
  match f with
  | SpecFloat.S754_zero _ => Some 0%Q
  | SpecFloat.S754_finite s m e => Some ((if s then -1 else 1) * inject_Z (Zpos m) * p2 e)%Q
  | _ => None
  end.

(** [round_binary64] agrees with [SpecFloat]'s binary64 division of two
    converted integers. *)
Definition f64_div_agrees (a b : Z) : bool :=
  match spec_float_value
          (SpecFloat.SFdiv 53 1024 (SpecFloat.binary_normalize 53 1024 a 0 false)
                                   (SpecFloat.binary_normalize 53 1024 b 0 false)) with
  | Some q => Qeq_bool q (round_binary64 (f64_of_int a / f64_of_int b))
  | None => false
  end.

(** [ROUND(x, 2)]: rounds halfway cases away from zero. *)
Definition round_half_away (y : Q) : Z :=
  if Qle_bool 0 y then Qfloor (y + (1 # 2))%Q
  else - Qfloor (- y + (1 # 2))%Q.

Definition round2 (x : Q) : Q := (inject_Z (round_half_away (x * 100)) / 100)%Q.

(** [POWER(1024, 4)]. *)
Definition tib : Z := 1024 ^ 4.

(** [SUM] over a list of numbers. *)
Fixpoint sumQ (xs : list Q) : Q :=
  match xs with
  | [] => 0%Q
  | x :: xs' => (x + sumQ xs')%Q
  end.

Fixpoint sumZ (xs : list Z) : Z :=
  match xs with
  | [] => 0
  | x :: xs' => x + sumZ xs'
  end.

End Sql.

Import Sql.

(* ------------------------------------------------------------------ *)
(** ** Input rows: [INFORMATION_SCHEMA.JOBS] *)

(** An element of [referenced_tables] or the [destination_table]: a STRUCT
    whose three fields are nullable. *)
Record table_ref := {
  ref_project_id : option string;
  ref_dataset_id : option string;
  ref_table_id : option string
}.

(** One job row, restricted to the columns the query reads. The
    [creation_time] is a UTC timestamp in seconds. *)
Record job := {
  project_id : string;
  user_email : option string;
  job_id : string;
  creation_time : Z;
  total_bytes_processed : Z;
  total_bytes_billed : Z;
  total_slot_ms : Z;
  has_error_result : bool;   (* [error_result IS NOT NULL] *)
  cache_hit : bool;
  destination_table : option table_ref;
  referenced_tables : list table_ref
}.

(* ------------------------------------------------------------------ *)
(** ** [LIKE] patterns and the service-account column of [job_stats] *)

(** [s LIKE p]: [%] matches any sequence of characters, [_] exactly one,
    every other character itself. *)
Fixpoint like_list (p s : list ascii) : bool :=
  match p with
  | [] => match s with [] => true | _ :: _ => false end
  | c :: p' =>
      if Ascii.eqb c "%"%char then
        (fix any (t : list ascii) : bool :=
           like_list p' t || match t with [] => false | _ :: t' => any t' end) s
      else if Ascii.eqb c "_"%char then
        match s with [] => false | _ :: s' => like_list p' s' end
      else
        match s with [] => false | d :: s' => Ascii.eqb c d && like_list p' s' end
  end.

(** [LIKE] on a nullable string: [NULL LIKE p] is [NULL]. *)
Definition sql_like (s : option string) (p : string) : option bool :=
  match s with
  | Some x => Some (like_list (list_ascii_of_string p) (list_ascii_of_string x))
  | None => None
  end.

(** [CASE WHEN user_email LIKE '%.gserviceaccount.com' THEN user_email
          WHEN user_email LIKE 'service-%' THEN user_email ELSE NULL END] *)
Definition service_account_of (user_email : option string) : option string :=
  if is_true3 (sql_like user_email "%.gserviceaccount.com") then user_email
  else if is_true3 (sql_like user_email "service-%") then user_email
  else None.

(** JavaScript truthiness of a string value ([null], [undefined], [""] are
    falsy). *)
Definition js_truthy (v : option string) : bool :=
  match v with Some s => negb (String.eqb s "") | None => false end.

(** [item.service_account || item.user_email || 'Unknown'] in the dashboard
    ([tables.js], [updateQueriesTable]): the actor key shown for a row. *)
Definition actor_key (service_account user_email : option string) : string :=
  if js_truthy service_account then
    match service_account with Some s => s | None => "" end
  else if js_truthy user_email then
    match user_email with Some s => s | None => "" end
  else "Unknown".

(** Plain-string suffix and prefix tests, used to state the rule. *)
Definition ends_with (suffix s : string) : bool :=
  let n := String.length s in
  let m := String.length suffix in
  (m <=? n)%nat && String.eqb (substring (n - m) m s) suffix.

Definition starts_with (prefix s : string) : bool := String.prefix prefix s.

(* ------------------------------------------------------------------ *)
(** ** [job_stats]: derived columns of every job *)

(** An element of [referenced_tables_detail]: the three ids, all non-null. *)
Record table_detail := {
  td_project_id : string;
  td_dataset_id : string;
  td_table_id : string
}.

(** [CONCAT(project_id, '.', dataset_id, '.', table_id)] *)
Definition full_table_name (t : table_detail) : string :=
  td_project_id t ++ "." ++ td_dataset_id t ++ "." ++ td_table_id t.

(** [CONCAT(table_project, '.', table_dataset)] *)
Definition dataset_name (t : table_detail) : string :=
  td_project_id t ++ "." ++ td_dataset_id t.

(** [ARRAY(SELECT AS STRUCT ... FROM UNNEST(referenced_tables) AS ref_table
    WHERE ref_table.project_id IS NOT NULL AND ref_table.dataset_id IS NOT NULL
    AND ref_table.table_id IS NOT NULL)] *)
Definition detail_of (r : table_ref) : list table_detail :=
  match ref_project_id r, ref_dataset_id r, ref_table_id r with
  | Some p, Some d, Some t => [ {| td_project_id := p; td_dataset_id := d; td_table_id := t |} ]
  | _, _, _ => []
  end.

Definition referenced_tables_detail (j : job) : list table_detail :=
  flat_map detail_of (referenced_tables j).

(** Field access on a nullable STRUCT: [NULL.field] is [NULL]. *)
Definition dest_dataset_id (j : job) : option string :=
  match destination_table j with Some d => ref_dataset_id d | None => None end.

Definition dest_table_id (j : job) : option string :=
  match destination_table j with Some d => ref_table_id d | None => None end.

(** [(destination_table IS NOT NULL AND
      ARRAY_LENGTH(ARRAY(SELECT 1 FROM UNNEST(referenced_tables) AS ref
        WHERE ref.table_id = destination_table.table_id
        AND ref.dataset_id = destination_table.dataset_id)) > 0)] *)
Definition is_table_rebuild (j : job) : option bool :=
  and3 (Some (match destination_table j with Some _ => true | None => false end))
       (Some (Nat.ltb 0 (List.length (filter (fun r =>
                 is_true3 (and3 (eq_str (ref_table_id r) (dest_table_id j))
                                (eq_str (ref_dataset_id r) (dest_dataset_id j))))
               (referenced_tables j))))).

(* ------------------------------------------------------------------ *)
(** ** The per-record rows of [table_costs]

    [FROM job_stats js, UNNEST(js.referenced_tables_detail) AS table_detail
     WHERE ARRAY_LENGTH(js.referenced_tables_detail) > 0]: one row per pair
    of a job and an element of its [referenced_tables_detail]. Each row
    carries the arguments of the aggregates of [table_costs]. *)
Record attribution := {
  at_table : table_detail;
  at_is_rebuild : option bool;      (* argument of LOGICAL_OR *)
  at_bytes_processed : option Q;    (* argument of SUM *)
  at_bytes_billed : option Q        (* argument of SUM *)
}.

Definition attribution_row (j : job) (td : table_detail) : result attribution :=
  let n := Some (Z.of_nat (List.length (referenced_tables_detail j))) in
  bp <- div (Some (inject_Z (total_bytes_processed j))) n ;;
  bb <- div (Some (inject_Z (total_bytes_billed j))) n ;;
  Ok {| at_table := td;
        at_is_rebuild :=
          and3 (is_table_rebuild j)
               (and3 (eq_str (dest_dataset_id j) (Some (td_dataset_id td)))
                     (eq_str (dest_table_id j) (Some (td_table_id td))));
        at_bytes_processed := bp;
        at_bytes_billed := bb |}.

Definition attribute (j : job) : result (list attribution) :=
  if Nat.ltb 0 (List.length (referenced_tables_detail j))
  then mapM (attribution_row j) (referenced_tables_detail j)
  else Ok [].




(* ------------------------------------------------------------------ *)
(** ** Grouping and nullable aggregates *)

(** [GROUP BY]: the groups of [xs] under [key], in order of first
    occurrence; [NULL] keys are grouped together, so keys compare with a
    plain boolean equality. *)
Fixpoint add_to_groups {K A} (eqb : K -> K -> bool) (k : K) (x : A)
    (gs : list (K * list A)) : list (K * list A) :=
  match gs with
  | [] => [(k, [x])]
  | (k', xs) :: gs' =>
      if eqb k k' then (k', xs ++ [x]) :: gs'
      else (k', xs) :: add_to_groups eqb k x gs'
  end.

Definition group_by {K A} (eqb : K -> K -> bool) (key : A -> K) (xs : list A)
    : list (K * list A) :=
  fold_left (fun gs x => add_to_groups eqb (key x) x gs) xs [].

(** The distinct keys of [xs] in order of first occurrence: the keys of
    the groups of [group_by]. *)
Definition keys_first {K A} (eqb : K -> K -> bool) (key : A -> K) (xs : list A) : list K :=
  fold_left (fun ks x => if existsb (eqb (key x)) ks then ks else ks ++ [key x]) xs [].

Definition somes {A} (xs : list (option A)) : list A :=
  flat_map (fun o => match o with Some x => [x] | None => [] end) xs.

(** [SUM] of a nullable column: [NULL] when every input is [NULL]. *)
Definition sum_opt (xs : list (option Q)) : option Q :=
  match somes xs with [] => None | ys => Some (sumQ ys) end.

(** [LOGICAL_OR]: [NULL] when every input is [NULL]. *)
Definition logical_or (xs : list (option bool)) : option bool :=
  match somes xs with [] => None | ys => Some (existsb (fun b => b) ys) end.

(** [CASE WHEN b THEN 1 ELSE 0 END] *)
Definition case01 (b : option bool) : Z := if is_true3 b then 1 else 0.

Definition opt_eqb {A} (eqb : A -> A -> bool) (a b : option A) : bool :=
  match a, b with
  | Some x, Some y => eqb x y
  | None, None => true
  | _, _ => false
  end.

(** [ROUND(x / POWER(1024, 4) * @cost_per_terabyte, 2)] *)
Definition cost_usd (cost_per_terabyte : Q) (bytes : option Q) : option Q :=
  option_map (fun b => round2 (b / inject_Z tib * cost_per_terabyte)%Q) bytes.

(* ------------------------------------------------------------------ *)
(** ** Aggregation keys *)

(** [FORMAT_TIMESTAMP('%Y-%m-%d', creation_time)], represented by the UTC
    day number (the formatted string determines it and is determined by it). *)
Definition date_of (j : job) : Z := creation_time j / 86400.

(** [EXTRACT(HOUR FROM creation_time)] *)
Definition hour_of_day (j : job) : Z := (creation_time j mod 86400) / 3600.

(** [EXTRACT(DAYOFWEEK FROM creation_time)]: 1 is Sunday; day 0 of the
    epoch was a Thursday. *)
Definition day_of_week (j : job) : Z := (date_of j + 4) mod 7 + 1.

(** The grouping columns [date, project_id, user_email, service_account]. *)
Record akey := {
  k_date : Z;
  k_project_id : string;
  k_user_email : option string;
  k_service_account : option string
}.

Definition akey_of (j : job) : akey :=
  {| k_date := date_of j; k_project_id := project_id j;
     k_user_email := user_email j;
     k_service_account := service_account_of (user_email j) |}.

(** Equality of [GROUP BY] keys ([NULL]s group together). *)
Definition akey_eqb (a b : akey) : bool :=
  Z.eqb (k_date a) (k_date b) && String.eqb (k_project_id a) (k_project_id b)
  && opt_eqb String.eqb (k_user_email a) (k_user_email b)
  && opt_eqb String.eqb (k_service_account a) (k_service_account b).

(** The join condition of every rollup onto [user_daily_base]:
    [x.date = udb.date AND x.project_id = udb.project_id
     AND x.user_email = udb.user_email
     AND (x.service_account = udb.service_account
          OR (x.service_account IS NULL AND udb.service_account IS NULL))]. *)
Definition akey_join (a b : akey) : bool :=
  Z.eqb (k_date a) (k_date b) && String.eqb (k_project_id a) (k_project_id b)
  && is_true3 (eq_str (k_user_email a) (k_user_email b))
  && opt_eqb String.eqb (k_service_account a) (k_service_account b).

Definition table_detail_eqb (a b : table_detail) : bool :=
  String.eqb (td_project_id a) (td_project_id b)
  && String.eqb (td_dataset_id a) (td_dataset_id b)
  && String.eqb (td_table_id a) (td_table_id b).

(* ------------------------------------------------------------------ *)
(** ** [table_costs] and [dataset_costs] *)

Record table_cost := {
  tc_key : akey;
  tc_table : table_detail;
  tc_query_count : Z;
  tc_is_rebuild_operation : option bool;
  tc_bytes_processed : option Q;
  tc_bytes_billed : option Q;
  tc_table_cost_usd : option Q
}.

(** The [FROM ... UNNEST ... WHERE] rows of all jobs. *)
Definition table_cost_rows (jobs : list job) : result (list (job * attribution)) :=
  rss <- mapM (fun j => rs <- attribute j ;; Ok (map (fun a => (j, a)) rs)) jobs ;;
  Ok (List.concat rss).

(** [GROUP BY date, project_id, user_email, service_account, table_name,
    table_project, table_dataset, table_id]. *)
Definition table_costs (cost_per_terabyte : Q) (jobs : list job)
    : result (list table_cost) :=
  rows <- table_cost_rows jobs ;;
  Ok (map (fun '((k, td), g) =>
        let bb := sum_opt (map (fun '(_, a) => at_bytes_billed a) g) in
        {| tc_key := k; tc_table := td;
           tc_query_count := Z.of_nat (List.length g);
           tc_is_rebuild_operation := logical_or (map (fun '(_, a) => at_is_rebuild a) g);
           tc_bytes_processed := sum_opt (map (fun '(_, a) => at_bytes_processed a) g);
           tc_bytes_billed := bb;
           tc_table_cost_usd := cost_usd cost_per_terabyte bb |})
      (group_by (fun '(k1, t1) '(k2, t2) => akey_eqb k1 k2 && table_detail_eqb t1 t2)
                (fun '(j, a) => (akey_of j, at_table a)) rows)).

Record dataset_cost := {
  dc_key : akey;
  dc_dataset : string;
  dc_query_count : Z;
  dc_bytes_processed : option Q;
  dc_bytes_billed : option Q;
  dc_dataset_cost_usd : option Q;
  dc_rebuild_operations : Z
}.

(** [GROUP BY tc.date, tc.project_id, tc.user_email, tc.service_account,
    dataset]: the dataset cost is [SUM(tc.table_cost_usd)]. *)
Definition dataset_costs (tcs : list table_cost) : list dataset_cost :=
  map (fun '((k, ds), g) =>
        {| dc_key := k; dc_dataset := ds;
           dc_query_count := sumZ (map tc_query_count g);
           dc_bytes_processed := sum_opt (map tc_bytes_processed g);
           dc_bytes_billed := sum_opt (map tc_bytes_billed g);
           dc_dataset_cost_usd := sum_opt (map tc_table_cost_usd g);
           dc_rebuild_operations := sumZ (map (fun tc => case01 (tc_is_rebuild_operation tc)) g) |})
    (group_by (fun '(k1, d1) '(k2, d2) => akey_eqb k1 k2 && String.eqb d1 d2)
              (fun tc => (tc_key tc, dataset_name (tc_table tc))) tcs).

(* ------------------------------------------------------------------ *)
(** ** [ORDER BY] *)

(** SQL fixes the order of an [ORDER BY] only up to ties: the engine may
    return any permutation of the rows that is sorted by the ordering. A
    [sorter] satisfying [valid_sorter] is one such choice; the query is
    modelled for every one. [le a b] means "[a] may come before [b]". *)
Definition sorter := forall A : Type, (A -> A -> bool) -> list A -> list A.

Definition valid_sorter (o : sorter) : Prop :=
  (forall A (le : A -> A -> bool) xs, Permutation (o A le xs) xs) /\
  (forall A (le : A -> A -> bool) xs,
      (forall a b, le a b = true \/ le b a = true) ->
      Sorted (fun a b => le a b = true) (o A le xs)).

Definition ob_sort (o : sorter) {A} (le : A -> A -> bool) (xs : list A) : list A :=
  o A le xs.

(** [ORDER BY x DESC] on a nullable FLOAT64 ([NULL]s last). *)
Definition desc_opt (x y : option Q) : bool :=
  match x, y with
  | Some a, Some b => Qle_bool b a
  | _, None => true
  | None, Some _ => false
  end.

(** [ORDER BY f ASC] on a non-null INT64. *)
Definition asc_Z {A} (f : A -> Z) (a b : A) : bool := Z.leb (f a) (f b).

(** [ORDER BY f DESC] on a non-null INT64. *)
Definition desc_Z {A} (f : A -> Z) (a b : A) : bool := Z.leb (f b) (f a).

(** One valid engine: insertion sort, which keeps ties in input order. *)
Fixpoint insert_by {A} (le : A -> A -> bool) (x : A) (ys : list A) : list A :=
  match ys with
  | [] => [x]
  | y :: ys' => if le x y then x :: ys else y :: insert_by le x ys'
  end.

Fixpoint isort {A} (le : A -> A -> bool) (xs : list A) : list A :=
  match xs with
  | [] => []
  | x :: xs' => insert_by le x (isort le xs')
  end.

(* ------------------------------------------------------------------ *)
(** ** [user_daily_base] and the cache-hit percentage *)

(** [ROUND(hits / NULLIF(count, 0) * 100, 2)] *)
Definition cache_hit_percentage (hits count : Z) : result (option Q) :=
  r <- div (Some (inject_Z hits)) (nullif0 count) ;;
  Ok (option_map (fun x => round2 (x * 100)%Q) r).

(** [SUM(CASE WHEN js.cache_hit THEN 1 ELSE 0 END)] *)
Definition cache_hit_count (g : list job) : Z :=
  sumZ (map (fun j => if cache_hit j then 1 else 0) g).

Record udb := {
  u_key : akey;
  u_query_count : Z;
  u_cache_hit_count : Z;
  u_error_count : Z;
  u_total_bytes_processed : Z;
  u_total_bytes_billed : Z;
  u_estimated_cost_usd : option Q;
  u_slot_hours : Q;
  u_cache_hit_percentage : option Q
}.

Definition user_daily_base_row (cost_per_terabyte : Q) (k : akey) (g : list job)
    : result udb :=
  let n := Z.of_nat (List.length g) in
  let bb := sumZ (map total_bytes_billed g) in
  pct <- cache_hit_percentage (cache_hit_count g) n ;;
  Ok {| u_key := k; u_query_count := n;
        u_cache_hit_count := cache_hit_count g;
        u_error_count := sumZ (map (fun j => if has_error_result j then 1 else 0) g);
        u_total_bytes_processed := sumZ (map total_bytes_processed g);
        u_total_bytes_billed := bb;
        u_estimated_cost_usd := cost_usd cost_per_terabyte (Some (inject_Z bb));
        u_slot_hours := (inject_Z (sumZ (map total_slot_ms g)) / 1000 / 3600)%Q;
        u_cache_hit_percentage := pct |}.

Definition user_daily_base (cost_per_terabyte : Q) (jobs : list job) : result (list udb) :=
  mapM (fun '(k, g) => user_daily_base_row cost_per_terabyte k g)
       (group_by akey_eqb akey_of jobs).

(** The sub-buckets of the second revision's [daily_aggregates] (one per
    date, actor, hour and weekday) and its main [SELECT], which merges them:
    [ROUND(SUM(da.cache_hit_count) / NULLIF(SUM(da.query_count), 0) * 100, 2)]. *)
Record sub_bucket := {
  sb_query_count : Z;
  sb_cache_hit_count : Z
}.

Definition sub_bucket_of (g : list job) : sub_bucket :=
  {| sb_query_count := Z.of_nat (List.length g); sb_cache_hit_count := cache_hit_count g |}.

Definition merged_cache_hit_percentage (subs : list sub_bucket) : result (option Q) :=
  cache_hit_percentage (sumZ (map sb_cache_hit_count subs)) (sumZ (map sb_query_count subs)).

(* ------------------------------------------------------------------ *)
(** ** Array elements of the summary rows *)

Record hourly_entry := {
  he_hour_of_day : Z; he_hourly_queries : Z; he_hourly_cost : option Q }.

Record weekday_entry := {
  we_day_of_week : Z; we_daily_queries : Z; we_daily_cost : option Q }.

Record dataset_entry := {
  de_dataset : string;
  de_bytes_processed : option Q;
  de_bytes_billed : option Q;
  de_dataset_cost_usd : option Q;
  de_rebuild_operations : Z
}.

Record table_entry := {
  te_table_name : string;
  te_table_id : string;
  te_dataset_name : string;
  te_bytes_processed : option Q;
  te_bytes_billed : option Q;
  te_table_cost_usd : option Q;
  te_is_rebuild_operation : option bool;
  te_rebuild_cost_usd : option Q;
  te_incremental_cost_usd : option Q;
  te_rebuild_count : Z
}.

Record query_entry := {
  qe_job_id : string;
  qe_creation_time : Z;
  qe_total_bytes_processed : Z;
  qe_query_cost_usd : option Q;
  qe_cache_hit : bool;
  qe_has_error : bool
}.

(* ------------------------------------------------------------------ *)
(** ** Time-bucketed aggregates and [query_details] *)

(** [hourly_aggregates]: [GROUP BY date, project_id, user_email,
    service_account, hour_of_day]. *)
Definition hourly_aggregates (cost_per_terabyte : Q) (jobs : list job)
    : list (akey * hourly_entry) :=
  map (fun '((k, h), g) =>
         (k, {| he_hour_of_day := h; he_hourly_queries := Z.of_nat (List.length g);
                he_hourly_cost := cost_usd cost_per_terabyte
                   (Some (inject_Z (sumZ (map total_bytes_billed g)))) |}))
      (group_by (fun '(k1, h1) '(k2, h2) => akey_eqb k1 k2 && Z.eqb h1 h2)
                (fun j => (akey_of j, hour_of_day j)) jobs).

(** [weekday_aggregates]: the same grouped by [day_of_week]. *)
Definition weekday_aggregates (cost_per_terabyte : Q) (jobs : list job)
    : list (akey * weekday_entry) :=
  map (fun '((k, d), g) =>
         (k, {| we_day_of_week := d; we_daily_queries := Z.of_nat (List.length g);
                we_daily_cost := cost_usd cost_per_terabyte
                   (Some (inject_Z (sumZ (map total_bytes_billed g)))) |}))
      (group_by (fun '(k1, d1) '(k2, d2) => akey_eqb k1 k2 && Z.eqb d1 d2)
                (fun j => (akey_of j, day_of_week j)) jobs).

(** [query_details]: one row per job with its own rounded cost. *)
Definition query_details (cost_per_terabyte : Q) (jobs : list job)
    : list (akey * query_entry) :=
  map (fun j =>
         (akey_of j,
          {| qe_job_id := job_id j; qe_creation_time := creation_time j;
             qe_total_bytes_processed := total_bytes_processed j;
             qe_query_cost_usd := cost_usd cost_per_terabyte (Some (inject_Z (total_bytes_billed j)));
             qe_cache_hit := cache_hit j; qe_has_error := has_error_result j |}))
      jobs.

(** The [STRUCT(...)] of [user_dataset_costs]. *)
Definition dataset_entry_of (dc : dataset_cost) : dataset_entry :=
  {| de_dataset := dc_dataset dc; de_bytes_processed := dc_bytes_processed dc;
     de_bytes_billed := dc_bytes_billed dc; de_dataset_cost_usd := dc_dataset_cost_usd dc;
     de_rebuild_operations := dc_rebuild_operations dc |}.

(** The [STRUCT(...)] of [user_table_costs]. *)
Definition table_entry_of (tc : table_cost) : table_entry :=
  {| te_table_name := full_table_name (tc_table tc);
     te_table_id := td_table_id (tc_table tc);
     te_dataset_name := dataset_name (tc_table tc);
     te_bytes_processed := tc_bytes_processed tc;
     te_bytes_billed := tc_bytes_billed tc;
     te_table_cost_usd := tc_table_cost_usd tc;
     te_is_rebuild_operation := tc_is_rebuild_operation tc;
     te_rebuild_cost_usd :=
       if is_true3 (tc_is_rebuild_operation tc) then tc_table_cost_usd tc else Some 0%Q;
     te_incremental_cost_usd :=
       (* [NOT NULL] is [NULL], which takes the [ELSE] branch *)
       match tc_is_rebuild_operation tc with
       | Some false => tc_table_cost_usd tc
       | _ => Some 0%Q
       end;
     te_rebuild_count := case01 (tc_is_rebuild_operation tc) |}.

(* ------------------------------------------------------------------ *)
(** ** The rollups [user_*] and [user_daily_stats] *)

Definition apply_limit {A} (limit : option nat) (xs : list A) : list A :=
  match limit with Some n => firstn n xs | None => xs end.

(** [SELECT udb.<key>, ARRAY_AGG(STRUCT(...) ORDER BY ... [LIMIT n])
     FROM user_daily_base udb JOIN rows ON <akey_join>
     GROUP BY udb.<key>]. The keys of [user_daily_base] are distinct, so the
    groups are the [udb] rows with at least one joined row. *)
Definition rollup {R E} (o : sorter) (udbs : list udb) (rkey : R -> akey)
    (le : R -> R -> bool) (limit : option nat) (mk : R -> E) (rows : list R)
    : list (akey * list E) :=
  flat_map (fun u =>
      match filter (fun r => akey_join (rkey r) (u_key u)) rows with
      | [] => []
      | m => [(u_key u, apply_limit limit (map mk (ob_sort o le m)))]
      end) udbs.

(** [LEFT JOIN rollup ON <akey_join>]: the matching arrays, or one [NULL]. *)
Definition left_join {E} (rs : list (akey * list E)) (k : akey) : list (option (list E)) :=
  match filter (fun '(k', _) => akey_join k' k) rs with
  | [] => [None]
  | ms => map (fun '(_, l) => Some l) ms
  end.

(** A row of [user_daily_stats]: the array columns are nullable. *)
Record uds := {
  uds_base : udb;
  uds_hourly_breakdown : option (list hourly_entry);
  uds_daily_breakdown : option (list weekday_entry);
  uds_dataset_costs : option (list dataset_entry);
  uds_table_costs : option (list table_entry);
  uds_recent_queries : option (list query_entry)
}.

Definition user_daily_stats (udbs : list udb)
    (uhb : list (akey * list hourly_entry)) (udb2 : list (akey * list weekday_entry))
    (udc : list (akey * list dataset_entry)) (utc : list (akey * list table_entry))
    (urq : list (akey * list query_entry)) : list uds :=
  flat_map (fun u =>
    let k := u_key u in
    flat_map (fun h =>
      flat_map (fun d =>
        flat_map (fun ds =>
          flat_map (fun t =>
            map (fun q =>
              {| uds_base := u; uds_hourly_breakdown := h; uds_daily_breakdown := d;
                 uds_dataset_costs := ds; uds_table_costs := t; uds_recent_queries := q |})
              (left_join urq k))
            (left_join utc k))
          (left_join udc k))
        (left_join udb2 k))
      (left_join uhb k)) udbs.

(* ------------------------------------------------------------------ *)
(** ** The final [SELECT] *)

(** The rows handed to the caller. BigQuery returns a [NULL] ARRAY column
    of a query result as an empty ARRAY (inside the query the two are
    distinct values); [result_array] is that translation. *)
Definition result_array {E} (a : option (list E)) : list E :=
  match a with Some l => l | None => [] end.

Record daily_actor_summary := {
  s_key : akey;
  s_query_count : Z;
  s_cache_hit_count : Z;
  s_error_count : Z;
  s_total_bytes_processed : Z;
  s_total_bytes_billed : Z;
  s_estimated_cost_usd : option Q;
  s_slot_hours : Q;
  s_cache_hit_percentage : option Q;
  s_hourly_breakdown : list hourly_entry;
  s_daily_breakdown : list weekday_entry;
  s_dataset_costs : list dataset_entry;
  s_table_costs : list table_entry;
  s_recent_queries : list query_entry
}.

Definition summary_of (r : uds) : daily_actor_summary :=
  let u := uds_base r in
  {| s_key := u_key u; s_query_count := u_query_count u;
     s_cache_hit_count := u_cache_hit_count u; s_error_count := u_error_count u;
     s_total_bytes_processed := u_total_bytes_processed u;
     s_total_bytes_billed := u_total_bytes_billed u;
     s_estimated_cost_usd := u_estimated_cost_usd u;
     s_slot_hours := u_slot_hours u;
     s_cache_hit_percentage := u_cache_hit_percentage u;
     s_hourly_breakdown := result_array (uds_hourly_breakdown r);
     s_daily_breakdown := result_array (uds_daily_breakdown r);
     s_dataset_costs := result_array (uds_dataset_costs r);
     s_table_costs := result_array (uds_table_costs r);
     s_recent_queries := result_array (uds_recent_queries r) |}.

(** [ORDER BY date DESC, estimated_cost_usd DESC] *)
Definition final_order (a b : daily_actor_summary) : bool :=
  Z.ltb (k_date (s_key b)) (k_date (s_key a))
  || (Z.eqb (k_date (s_key a)) (k_date (s_key b))
      && desc_opt (s_estimated_cost_usd a) (s_estimated_cost_usd b)).

(** The rollups of [user_daily_base]. *)
Definition user_hourly_breakdown o cpt jobs udbs :=
  rollup o udbs fst (fun a b => asc_Z he_hour_of_day (snd a) (snd b)) None snd
         (hourly_aggregates cpt jobs).

Definition user_daily_breakdown o cpt jobs udbs :=
  rollup o udbs fst (fun a b => asc_Z we_day_of_week (snd a) (snd b)) None snd
         (weekday_aggregates cpt jobs).

Definition user_dataset_costs o udbs (dcs : list dataset_cost) :=
  rollup o udbs dc_key (fun a b => desc_opt (dc_dataset_cost_usd a) (dc_dataset_cost_usd b))
         None dataset_entry_of dcs.

Definition user_table_costs o udbs (tcs : list table_cost) :=
  rollup o udbs tc_key (fun a b => desc_opt (tc_table_cost_usd a) (tc_table_cost_usd b))
         (Some 100%nat) table_entry_of tcs.

Definition user_recent_queries o cpt jobs udbs :=
  rollup o udbs fst (fun a b => desc_Z qe_creation_time (snd a) (snd b)) (Some 100%nat) snd
         (query_details cpt jobs).

(** The whole query, over the windowed [JOBS] rows. *)
Definition cost_query (o : sorter) (cost_per_terabyte : Q) (jobs : list job)
    : result (list daily_actor_summary) :=
  udbs <- user_daily_base cost_per_terabyte jobs ;;
  tcs <- table_costs cost_per_terabyte jobs ;;
  Ok (ob_sort o final_order
        (map summary_of
           (user_daily_stats udbs
              (user_hourly_breakdown o cost_per_terabyte jobs udbs)
              (user_daily_breakdown o cost_per_terabyte jobs udbs)
              (user_dataset_costs o udbs (dataset_costs tcs))
              (user_table_costs o udbs tcs)
              (user_recent_queries o cost_per_terabyte jobs udbs)))).

Definition isort_sorter : sorter := fun A le xs => isort le xs.

(** Another valid engine: the same sort over the reversed input, which
    puts ties in reverse input order. *)
Definition isort_rev_sorter : sorter := fun A le xs => isort le (rev xs).

(* ------------------------------------------------------------------ *)
(** ** The rows the dashboard reads

    An item of the dashboard's [data] carries the columns of a
    [user_stats] row ([estimated_cost_usd], ...) and a [dataset_costs]
    array of [{dataset, bytes_processed, bytes_billed, dataset_cost_usd}]
    objects, any of whose numbers may be [null]. *)

Record module_dataset_entry := {
  mde_dataset : string;
  mde_bytes_processed : option Q;
  mde_bytes_billed : option Q;
  mde_dataset_cost_usd : option Q
}.

(** [IFNULL(x, d)], and [x || d] on a nullable number. *)
Definition ifnull {A} (x : option A) (d : A) : A :=
  match x with Some v => v | None => d end.

Record monitoring_row := {
  mr_base : udb;                                  (* the columns of user_stats *)
  mr_dataset_costs : list module_dataset_entry    (* item.dataset_costs *)
}.

(* ------------------------------------------------------------------ *)
(** ** Dashboard: [updateDatasetTable] ([tables.js]) *)

(** [if (!datasetCosts[name]) datasetCosts[name] = {bytes: 0, cost: 0};
     datasetCosts[name].bytes += b; datasetCosts[name].cost += c]: the
    object as its entries in insertion order, a new key added last. *)
Fixpoint js_accumulate (name : string) (b c : Q) (acc : list (string * (Q * Q)))
    : list (string * (Q * Q)) :=
  match acc with
  | [] => [(name, (0 + b, 0 + c)%Q)]
  | (n, (b0, c0)) :: t =>
      if String.eqb n name then (n, (b0 + b, c0 + c)%Q) :: t
      else (n, (b0, c0)) :: js_accumulate name b c t
  end.

(** The [data.forEach(item => item.dataset_costs.forEach(ds => ...))]
    loop ([x || 0] on a nullable number is [IFNULL(x, 0)]). *)
Definition dataset_costs_of (data : list monitoring_row) : list (string * (Q * Q)) :=
  fold_left (fun acc item =>
               fold_left (fun acc ds =>
                            js_accumulate (mde_dataset ds) (ifnull (mde_bytes_processed ds) 0%Q)
                                          (ifnull (mde_dataset_cost_usd ds) 0%Q) acc)
                         (mr_dataset_costs item) acc)
            data [].

(** [totalCost += (item.estimated_cost_usd || 0)] *)
Definition dataset_table_total_cost (data : list monitoring_row) : Q :=
  fold_left (fun t item => (t + ifnull (u_estimated_cost_usd (mr_base item)) 0)%Q) data 0%Q.

(** [Object.entries(datasetCosts).sort((a, b) => b[1].cost - a[1].cost)
     .slice(0, 10)], with the total used for the percentage column. *)
Definition update_dataset_table (o : sorter) (data : list monitoring_row)
    : list (string * (Q * Q)) * Q :=
  (firstn 10 (ob_sort o (fun a b => Qle_bool (snd (snd b)) (snd (snd a))) (dataset_costs_of data)),
   dataset_table_total_cost data).

(* ------------------------------------------------------------------ *)
(** ** Dashboard: [createTimePatternModal] ([tables.js]) *)

Record time_bucket := { tb_key : Z; tb_queries : Z; tb_cost : Q }.

(** [const existing = list.find(h => h.hour === key);
     if (existing) { existing.queries += q; existing.cost += c; }
     else list.push({hour: key, queries: q, cost: c});] *)
Fixpoint find_accumulate (key q : Z) (c : Q) (acc : list time_bucket) : list time_bucket :=
  match acc with
  | [] => [ {| tb_key := key; tb_queries := q; tb_cost := c |} ]
  | t :: rest =>
      if Z.eqb (tb_key t) key
      then {| tb_key := tb_key t; tb_queries := tb_queries t + q; tb_cost := (tb_cost t + c)%Q |} :: rest
      else t :: find_accumulate key q c rest
  end.

(** The loop over [data]: the breakdown arrays of the query's rows are
    always arrays (an empty one is truthy), so every item sets
    [hasTimeData]; [x || 0] on a non-null count is [x] and on a nullable
    cost is [IFNULL(x, 0)]. Then [sort((a, b) => a.hour - b.hour)] and
    [sort((a, b) => a.day - b.day)]. *)
Definition time_pattern_modal (o : sorter) (data : list daily_actor_summary)
    : bool * list time_bucket * list time_bucket :=
  let '(has, hs, ds) :=
    fold_left (fun '(has, hs, ds) item =>
                 (true,
                  fold_left (fun hs e => find_accumulate (he_hour_of_day e) (he_hourly_queries e)
                                                         (ifnull (he_hourly_cost e) 0%Q) hs)
                            (s_hourly_breakdown item) hs,
                  fold_left (fun ds e => find_accumulate (we_day_of_week e) (we_daily_queries e)
                                                         (ifnull (we_daily_cost e) 0%Q) ds)
                            (s_daily_breakdown item) ds))
              data (false, [], []) in
  (has, ob_sort o (fun a b => Z.leb (tb_key a) (tb_key b)) hs,
   ob_sort o (fun a b => Z.leb (tb_key a) (tb_key b)) ds).

(* ------------------------------------------------------------------ *)
(** ** Auxiliary predicates used in the statements *)

(** The sum of [g] over the entries of key [n] of an accumulated object. *)
Definition entry_sum (g : Q * Q -> Q) (n : string) (acc : list (string * (Q * Q))) : Q :=
  sumQ (map (fun e => g (snd e)) (filter (fun e => String.eqb (fst e) n) acc)).

(** The cost of dataset [n] over the [dataset_costs] arrays of [data]
    ([NULL] costs counting 0), and likewise its processed bytes. *)
Definition dataset_cost_in (data : list monitoring_row) (n : string) : Q :=
  sumQ (map (fun ds => ifnull (mde_dataset_cost_usd ds) 0%Q)
            (filter (fun ds => String.eqb (mde_dataset ds) n) (flat_map mr_dataset_costs data))).

Definition dataset_bytes_in (data : list monitoring_row) (n : string) : Q :=
  sumQ (map (fun ds => ifnull (mde_bytes_processed ds) 0%Q)
            (filter (fun ds => String.eqb (mde_dataset ds) n) (flat_map mr_dataset_costs data))).

(** A [referenced_tables] entry whose three ids are non-null. *)
Definition complete_ref (r : table_ref) : bool :=
  match ref_project_id r, ref_dataset_id r, ref_table_id r with
  | Some _, Some _, Some _ => true
  | _, _, _ => false
  end.

(** The destination table equals [td] by dataset and table id. *)
Definition dest_matches (j : job) (td : table_detail) : bool :=
  match destination_table j with
  | Some d => opt_eqb String.eqb (ref_dataset_id d) (Some (td_dataset_id td))
              && opt_eqb String.eqb (ref_table_id d) (Some (td_table_id td))
  | None => false
  end.

(** A field of a summary merged from a rollup by key: the array of a
    rollup entry whose key joins [k], or the empty list when no entry
    does. *)
Definition merged_by_key {E} (rs : list (akey * list E)) (k : akey) (v : list E) : Prop :=
  ((forall kl, In kl rs -> akey_join (fst kl) k = false) /\ v = [])
  \/ (exists k' l, In (k', l) rs /\ akey_join k' k = true /\ v = l).

(* ------------------------------------------------------------------ *)
(** ** Sample inputs *)

Definition ref_of (p d t : string) : table_ref :=
  {| ref_project_id := Some p; ref_dataset_id := Some d; ref_table_id := Some t |}.


Definition sample_job (id : string) (email : option string) (t billed : Z) (hit : bool)
    (dest : option table_ref) (refs : list table_ref) : job :=
  {| project_id := "proj"; user_email := email; job_id := id; creation_time := t;
     total_bytes_processed := billed; total_bytes_billed := billed; total_slot_ms := 0;
     has_error_result := false; cache_hit := hit;
     destination_table := dest; referenced_tables := refs |}.




(** Two queries of one actor on one day, each billed 879609302 bytes
    (0.0039999... USD at 5 USD per TiB), reading two tables of dataset
    [p.d]. *)
Definition jobs_two_small_tables : list job :=
  [ sample_job "s1" (Some "analyst@example.com"%string) 0 879609302 false None [ref_of "p" "d" "t1"];
    sample_job "s2" (Some "analyst@example.com"%string) 60 879609302 false None [ref_of "p" "d" "t2"] ].

(** The two queries above, a service-account job of the next day that
    rebuilds [p.d.t1] from a cache hit, and a job with a [NULL] email. *)
Definition jobs_mixed : list job :=
  jobs_two_small_tables
  ++ [ sample_job "m1" (Some "etl@p.iam.gserviceaccount.com"%string) 90000 1000 true
         (Some (ref_of "p" "d" "t1")) [ref_of "p" "d" "t1"];
       sample_job "m2" None 3700 500 false None [ref_of "p" "e" "u"] ].

(** Dashboard items over the [user_daily_base] rows of [jobs_mixed]: the
    analyst read [p.d] and [p.f], the service account [p.d]; the
    [NULL]-email row has an empty array. *)
Definition dashboard_rows_mixed : list monitoring_row :=
  match user_daily_base 5 jobs_mixed with
  | Ok udbs =>
      map (fun ud => {| mr_base := fst ud; mr_dataset_costs := snd ud |})
          (combine udbs
             [ [ {| mde_dataset := "p.d"; mde_bytes_processed := Some 1759218604%Q;
                    mde_bytes_billed := Some 1759218604%Q; mde_dataset_cost_usd := Some (1 # 100)%Q |};
                 {| mde_dataset := "p.f"; mde_bytes_processed := Some 4000000000%Q;
                    mde_bytes_billed := None; mde_dataset_cost_usd := None |} ];
               [ {| mde_dataset := "p.d"; mde_bytes_processed := Some 1000%Q;
                    mde_bytes_billed := Some 1000%Q; mde_dataset_cost_usd := Some (3 # 100)%Q |} ];
               [] ])
  | Err _ => []
  end.

(* ================================================================== *)
(** * Properties *)

(** ** Generic lemmas *)

Lemma mapM_pure {A B} (f : A -> result B) (g : A -> B) (xs : list A) :
  (forall x, In x xs -> f x = Ok (g x)) -> mapM f xs = Ok (map g xs).
Proof.
  induction xs as [|x xs IH]; intros Hf; simpl; [reflexivity|].
  rewrite (Hf x (or_introl eq_refl)); simpl.
  rewrite IH; [reflexivity|]. intros y Hy; apply Hf; right; exact Hy.
Qed.


(** ** The detail array *)

Lemma detail_length (j : job) :
  List.length (referenced_tables_detail j) = List.length (filter complete_ref (referenced_tables j)).
Proof.
  unfold referenced_tables_detail.
  induction (referenced_tables j) as [|r rs IH]; simpl; [reflexivity|].
  rewrite length_app, IH; unfold detail_of, complete_ref.
  destruct (ref_project_id r), (ref_dataset_id r), (ref_table_id r); reflexivity.
Qed.

Lemma in_detail (j : job) (td : table_detail) :
  In td (referenced_tables_detail j) <->
  exists r, In r (referenced_tables j) /\ ref_project_id r = Some (td_project_id td)
            /\ ref_dataset_id r = Some (td_dataset_id td) /\ ref_table_id r = Some (td_table_id td).
Proof.
  unfold referenced_tables_detail; rewrite in_flat_map; split.
  - intros (r & Hr & Hin); exists r; split; [exact Hr|].
    unfold detail_of in Hin.
    destruct (ref_project_id r), (ref_dataset_id r), (ref_table_id r);
      simpl in Hin; try contradiction.
    destruct Hin as [<- | []]; simpl; auto.
  - intros (r & Hr & Hp & Hd & Ht); exists r; split; [exact Hr|].
    unfold detail_of; rewrite Hp, Hd, Ht; destruct td; simpl; left; reflexivity.
Qed.

(** The rows of [attribute]: one per detail entry, in order, with the
    shares computed against the detail length. *)
Definition attribution_of (j : job) (td : table_detail) : attribution :=
  let n := inject_Z (Z.of_nat (List.length (referenced_tables_detail j))) in
  {| at_table := td;
     at_is_rebuild :=
       and3 (is_table_rebuild j)
            (and3 (eq_str (dest_dataset_id j) (Some (td_dataset_id td)))
                  (eq_str (dest_table_id j) (Some (td_table_id td))));
     at_bytes_processed := Some (inject_Z (total_bytes_processed j) / n)%Q;
     at_bytes_billed := Some (inject_Z (total_bytes_billed j) / n)%Q |}.


Lemma attribute_eq (j : job) :
  attribute j = Ok (map (attribution_of j) (referenced_tables_detail j)).
Proof.
  unfold attribute.
  destruct (Nat.ltb 0 (List.length (referenced_tables_detail j))) eqn:Hn.
  - apply mapM_pure; intros td _.
    apply Nat.ltb_lt in Hn.
    unfold attribution_row, div.
    assert (Hz : Z.eqb (Z.of_nat (List.length (referenced_tables_detail j))) 0 = false)
      by (apply Z.eqb_neq; lia).
    rewrite Hz; reflexivity.
  - apply Nat.ltb_ge in Hn.
    destruct (referenced_tables_detail j); [reflexivity|simpl in Hn; lia].
Qed.


Lemma filter_all_false {A} (f : A -> bool) (l : list A) :
  (forall x, f x = false) -> filter f l = [].
Proof.
  intros Hf; induction l as [|x l IH]; simpl; [reflexivity|].
  rewrite Hf; exact IH.
Qed.

Lemma and3_false_r (a : option bool) : and3 a (Some false) = Some false.
Proof. destruct a as [[|]|]; reflexivity. Qed.

Lemma is_true3_and3_None_r (a : option bool) : is_true3 (and3 a None) = false.
Proof. destruct a as [[|]|]; reflexivity. Qed.

Lemma is_true3_and3_None_l (b : option bool) : is_true3 (and3 None b) = false.
Proof. destruct b as [[|]|]; reflexivity. Qed.

Lemma eq_str_None_r (a : option string) : eq_str a None = None.
Proof. destruct a; reflexivity. Qed.

(** The rebuild flag of one row is the dataset+table comparison with the
    destination table. *)
Lemma rebuild_flag_row (j : job) (td : table_detail) :
  In td (referenced_tables_detail j) ->
  at_is_rebuild (attribution_of j td) = Some (dest_matches j td).
Proof.
  intros Hin; unfold attribution_of, dest_matches, is_table_rebuild,
    dest_dataset_id, dest_table_id; cbn [at_is_rebuild].
  destruct (destination_table j) as [d|] eqn:Hd; [|reflexivity].
  destruct (ref_dataset_id d) as [dd|] eqn:Hdd;
    destruct (ref_table_id d) as [dt|] eqn:Hdt; cbn [opt_eqb andb eq_str].
  - destruct (String.eqb dd (td_dataset_id td)) eqn:E1;
      [|rewrite and3_false_r; reflexivity].
    destruct (String.eqb dt (td_table_id td)) eqn:E2;
      [|cbn [and3]; rewrite and3_false_r; reflexivity].
    apply String.eqb_eq in E1; apply String.eqb_eq in E2; subst dd dt.
    destruct (proj1 (in_detail j td) Hin) as (r & Hr & _ & Hrd & Hrt).
    assert (Hf : In r (filter (fun r0 => is_true3 (and3 (eq_str (ref_table_id r0) (Some (td_table_id td)))
                                                    (eq_str (ref_dataset_id r0) (Some (td_dataset_id td)))))
                       (referenced_tables j))).
    { apply filter_In; split; [exact Hr|].
      rewrite Hrd, Hrt; cbn [eq_str]; rewrite !String.eqb_refl; reflexivity. }
    destruct (filter _ (referenced_tables j)) eqn:Hl; [contradiction|].
    reflexivity.
  - rewrite filter_all_false; [cbn; rewrite andb_false_r; reflexivity|].
    intros r; rewrite eq_str_None_r; apply is_true3_and3_None_l.
  - rewrite filter_all_false; [reflexivity|].
    intros r; rewrite (eq_str_None_r (ref_dataset_id r)); apply is_true3_and3_None_r.
  - rewrite filter_all_false; [reflexivity|].
    intros r; rewrite (eq_str_None_r (ref_dataset_id r)); apply is_true3_and3_None_r.
Qed.

(** ** The Proportional Attributor: rows of [table_costs] *)

(** C10: the attributor only uses the [referenced_tables] entries whose
    project, dataset and table ids are all non-null. It divides the bytes by
    the number [n] of those complete entries. Every divisor it evaluates is
    nonzero, so it never raises. A record with no complete entry yields no
    row. *)
Theorem attribute_complete_entries (j : job) :
  let n := List.length (filter complete_ref (referenced_tables j)) in
  exists rows,
    attribute j = Ok rows
    /\ map at_table rows = referenced_tables_detail j
    /\ (forall td, In td (map at_table rows) <->
          exists r, In r (referenced_tables j)
                    /\ ref_project_id r = Some (td_project_id td)
                    /\ ref_dataset_id r = Some (td_dataset_id td)
                    /\ ref_table_id r = Some (td_table_id td))
    /\ (forall a, In a rows ->
          (0 < n)%nat
          /\ at_bytes_processed a
             = Some (inject_Z (total_bytes_processed j) / inject_Z (Z.of_nat n))%Q
          /\ at_bytes_billed a
             = Some (inject_Z (total_bytes_billed j) / inject_Z (Z.of_nat n))%Q)
    /\ (n = 0%nat -> rows = []).
Proof.
  intros n; exists (map (attribution_of j) (referenced_tables_detail j)).
  assert (Hn : List.length (referenced_tables_detail j) = n) by apply detail_length.
  assert (Htab : map at_table (map (attribution_of j) (referenced_tables_detail j))
                 = referenced_tables_detail j).
  { rewrite map_map; apply map_id. }
  split; [apply attribute_eq|].
  split; [exact Htab|].
  split; [intros td; rewrite Htab; apply in_detail|].
  split.
  - intros a Ha; apply in_map_iff in Ha; destruct Ha as (td & <- & Htd).
    split.
    + rewrite <- Hn; destruct (referenced_tables_detail j); [contradiction|simpl; lia].
    + unfold attribution_of; cbn [at_bytes_processed at_bytes_billed]; rewrite Hn; auto.
  - intros H0; rewrite <- Hn in H0.
    destruct (referenced_tables_detail j); [reflexivity|discriminate].
Qed.

(* ------------------------------------------------------------------ *)
(** ** Binary64 rounding *)





Lemma p2_le_inv (a b : Z) : (p2 a <= p2 b)%Q -> (a <= b)%Z.
Proof. intros H; apply (Qpower_le_compat_l_inv (2 # 1)); [exact H|reflexivity]. Qed.









(** The rounding model against [SpecFloat] on integer quotients: inexact
    and exact ones, ties to even in the conversion of an integer above
    [2 ^ 53], negative operands, and subnormal results. *)
Lemma round_binary64_specfloat :
  forallb (fun ab => f64_div_agrees (fst ab) (snd ab))
    [(10485760, 9); (10, 3); (1, 3); (1000, 7); (123456789012345, 11);
     (2 ^ 60 + 1, 3); (2 ^ 53 + 1, 1); (2 ^ 53 + 3, 1); (-7, 3); (7, -3); (0, 5);
     (2 ^ 63 - 1, 1); (1, 2 ^ 1023); (3, 2 ^ 1023 + 2 ^ 1000); (7, 2 ^ 1023 + 2 ^ 971)] = true.
Proof. vm_compute; reflexivity. Qed.




(** C2: each row's [is_rebuild] is TRUE exactly when the destination table
    is non-null and has the row's dataset and table id, and FALSE otherwise
    (never NULL). Every complete referenced table has a row. So the matching
    table's row is flagged, every other row is not, and nothing is flagged
    when the destination is null or matches no referenced table. *)
Theorem attribute_rebuild_flag (j : job) :
  exists rows,
    attribute j = Ok rows
    /\ (forall a, In a rows -> at_is_rebuild a = Some (dest_matches j (at_table a)))
    /\ (forall td, In td (referenced_tables_detail j) ->
          exists a, In a rows /\ at_table a = td /\ at_is_rebuild a = Some (dest_matches j td))
    /\ ((forall td, In td (referenced_tables_detail j) -> dest_matches j td = false) ->
        forall a, In a rows -> at_is_rebuild a = Some false).
Proof.
  exists (map (attribution_of j) (referenced_tables_detail j)).
  assert (Hrow : forall a, In a (map (attribution_of j) (referenced_tables_detail j)) ->
                 at_is_rebuild a = Some (dest_matches j (at_table a))).
  { intros a Ha; apply in_map_iff in Ha; destruct Ha as (td & <- & Htd).
    exact (rebuild_flag_row j td Htd). }
  split; [apply attribute_eq|].
  split; [exact Hrow|].
  split.
  - intros td Htd; exists (attribution_of j td).
    split; [apply in_map; exact Htd|].
    split; [reflexivity|exact (rebuild_flag_row j td Htd)].
  - intros Hnone a Ha; rewrite (Hrow a Ha).
    apply in_map_iff in Ha; destruct Ha as (td & <- & Htd).
    unfold attribution_of; cbn [at_table].
    rewrite (Hnone td Htd); reflexivity.
Qed.

(** ** [GROUP BY] produces non-empty groups *)

Lemma add_to_groups_nonempty {K A} (eqb : K -> K -> bool) (k : K) (x : A) gs :
  (forall kg, In kg gs -> snd kg <> []) ->
  forall kg, In kg (add_to_groups eqb k x gs) -> snd kg <> [].
Proof.
  induction gs as [|[k' xs] gs IH]; simpl; intros Hne kg Hin.
  - destruct Hin as [<- | []]; simpl; discriminate.
  - destruct (eqb k k').
    + destruct Hin as [<- | Hin]; simpl.
      * destruct xs; discriminate.
      * apply Hne; right; exact Hin.
    + destruct Hin as [<- | Hin].
      * apply (Hne (k', xs)); left; reflexivity.
      * apply IH; [intros kg' H; apply Hne; right; exact H | exact Hin].
Qed.

Lemma group_by_nonempty {K A} (eqb : K -> K -> bool) (key : A -> K) xs :
  forall kg, In kg (group_by eqb key xs) -> snd kg <> [].
Proof.
  unfold group_by.
  assert (Hgen : forall acc, (forall kg, In kg acc -> snd kg <> []) ->
            forall kg, In kg (fold_left (fun gs x => add_to_groups eqb (key x) x gs) xs acc) ->
            snd kg <> []).
  { induction xs as [|x xs IH]; simpl; intros acc Hacc.
    - exact Hacc.
    - apply IH; apply add_to_groups_nonempty; exact Hacc. }
  apply Hgen; intros kg [].
Qed.

(** ** Cache-hit percentage *)

Lemma cache_hit_percentage_pos (hits count : Z) :
  count <> 0 ->
  cache_hit_percentage hits count
  = Ok (Some (round2 (inject_Z hits / inject_Z count * 100)%Q)).
Proof.
  intros Hc; unfold cache_hit_percentage, nullif0, div.
  apply Z.eqb_neq in Hc; rewrite Hc; simpl; rewrite Hc; reflexivity.
Qed.

Lemma sumZ_app (xs ys : list Z) : sumZ (xs ++ ys) = sumZ xs + sumZ ys.
Proof. induction xs as [|x xs IH]; simpl; [reflexivity|rewrite IH; ring]. Qed.

Lemma merged_counts (groups : list (list job)) :
  sumZ (map sb_query_count (map sub_bucket_of groups)) = Z.of_nat (List.length (List.concat groups))
  /\ sumZ (map sb_cache_hit_count (map sub_bucket_of groups)) = cache_hit_count (List.concat groups).
Proof.
  induction groups as [|g gs [IH1 IH2]]; simpl; [split; reflexivity|].
  rewrite IH1, IH2, length_app, Nat2Z.inj_add; unfold cache_hit_count.
  rewrite map_app, sumZ_app; split; reflexivity.
Qed.

Lemma user_daily_base_buckets (cpt : Q) (jobs : list job) :
  exists udbs, user_daily_base cpt jobs = Ok udbs
    /\ forall u, In u udbs ->
         1 <= u_query_count u /\ exists q, u_cache_hit_percentage u = Some q.
Proof.
  unfold user_daily_base.
  set (gs := group_by akey_eqb akey_of jobs).
  assert (Hne : forall kg, In kg gs -> snd kg <> []) by apply group_by_nonempty.
  clearbody gs; induction gs as [|[k g] gs IH]; simpl.
  + exists []; split; [reflexivity|intros u []].
  + destruct IH as (us & Hus & Hall); [intros kg H; apply Hne; right; exact H|].
    assert (Hg : g <> []) by (apply (Hne (k, g)); left; reflexivity).
    assert (Hn : Z.of_nat (List.length g) <> 0)
      by (destruct g; [contradiction|simpl; lia]).
    unfold user_daily_base_row at 1; rewrite (cache_hit_percentage_pos _ _ Hn).
    simpl; rewrite Hus; simpl.
    eexists; split; [reflexivity|].
    intros u [<- | Hu]; [|apply Hall; exact Hu].
    simpl; split; [destruct g; [contradiction|simpl; lia]|eexists; reflexivity].
Qed.

(** C6: computing [cache_hit_percentage] never raises: [NULLIF] turns a
    zero divisor into [NULL] before any division is evaluated, and
    [user_daily_base] never fails. Every bucket of [user_daily_base] has a
    query count of at least 1 and a non-null percentage, so the statement
    about buckets with query count 0 holds: there are none. *)
Theorem cache_hit_percentage_zero_count :
  (forall hits count, exists v, cache_hit_percentage hits count = Ok v)
  /\ (forall cpt jobs, exists udbs, user_daily_base cpt jobs = Ok udbs
        /\ forall u, In u udbs ->
             1 <= u_query_count u
             /\ (exists q, u_cache_hit_percentage u = Some q)
             /\ (u_query_count u = 0 -> u_cache_hit_percentage u = Some 0%Q)).
Proof.
  split.
  - intros hits count; destruct (Z.eq_dec count 0) as [->|Hc].
    + exists None; reflexivity.
    + eexists; apply cache_hit_percentage_pos; exact Hc.
  - intros cpt jobs; destruct (user_daily_base_buckets cpt jobs) as (udbs & Hu & Hall).
    exists udbs; split; [exact Hu|].
    intros u Hin; destruct (Hall u Hin) as [H1 H2].
    split; [exact H1|split; [exact H2|intros H0; lia]].
Qed.

(** C3 (amended): merging sub-buckets gives
    [ROUND(SUM(cache_hit_count) / SUM(query_count) * 100, 2)], however the
    records are split. This is the percentage computed directly over all the
    records, so it is a weighted average rounded to 2 decimals. Merging
    (10 queries, 5 hits) with (100 queries, 10 hits) gives 13.64, not 30. *)
Theorem merged_cache_hit_percentage_weighted :
  (forall groups : list (list job),
     merged_cache_hit_percentage (map sub_bucket_of groups)
     = cache_hit_percentage (cache_hit_count (List.concat groups))
                            (Z.of_nat (List.length (List.concat groups))))
  /\ (forall subs : list sub_bucket,
        0 < sumZ (map sb_query_count subs) ->
        merged_cache_hit_percentage subs
        = Ok (Some (round2 (inject_Z (sumZ (map sb_cache_hit_count subs))
                            / inject_Z (sumZ (map sb_query_count subs)) * 100)%Q)))
  /\ merged_cache_hit_percentage
       [ {| sb_query_count := 10; sb_cache_hit_count := 5 |};
         {| sb_query_count := 100; sb_cache_hit_count := 10 |} ]
     = Ok (Some (1364 # 100)%Q)
  /\ ~ ((1364 # 100) == 30)%Q.
Proof.
  split; [|split; [|split]].
  - intros groups; unfold merged_cache_hit_percentage.
    destruct (merged_counts groups) as [H1 H2]; rewrite H1, H2; reflexivity.
  - intros subs Hpos; unfold merged_cache_hit_percentage.
    apply cache_hit_percentage_pos; lia.
  - vm_compute; reflexivity.
  - vm_compute; discriminate.
Qed.

Lemma merged_cache_hit_percentage_weighted_witness :
  0 < sumZ (map sb_query_count [ {| sb_query_count := 3; sb_cache_hit_count := 1 |} ])
  /\ merged_cache_hit_percentage [ {| sb_query_count := 3; sb_cache_hit_count := 1 |} ]
     = Ok (Some (round2 (inject_Z 1 / inject_Z 3 * 100)%Q)).
Proof.
  split; [vm_compute; reflexivity|].
  exact (proj1 (proj2 merged_cache_hit_percentage_weighted)
           [ {| sb_query_count := 3; sb_cache_hit_count := 1 |} ] eq_refl).
Defined.

(** C3 as stated fails on the exact equality: 1 hit out of 3 queries is
    reported as 33.33, which differs from 1 / 3 * 100. *)
Lemma merged_cache_hit_percentage_counterexample :
  ~ (forall subs : list sub_bucket,
       0 < sumZ (map sb_query_count subs) ->
       exists v, merged_cache_hit_percentage subs = Ok (Some v)
         /\ (v == inject_Z (sumZ (map sb_cache_hit_count subs))
                 / inject_Z (sumZ (map sb_query_count subs)) * 100)%Q).
Proof.
  intros H.
  destruct (H [ {| sb_query_count := 3; sb_cache_hit_count := 1 |} ]) as (v & Hv & Heq);
    [vm_compute; reflexivity|].
  vm_compute in Hv; injection Hv as <-.
  vm_compute in Heq; discriminate.
Qed.

(** ** [LIKE] and the Identity Normalizer *)

Lemma list_ascii_of_string_app (a b : string) :
  list_ascii_of_string (a ++ b) = list_ascii_of_string a ++ list_ascii_of_string b.
Proof. induction a as [|c a IH]; simpl; [reflexivity|rewrite IH; reflexivity]. Qed.

Definition no_wildcard (lit : list ascii) : bool :=
  forallb (fun c => negb (Ascii.eqb c "%"%char || Ascii.eqb c "_"%char)) lit.

Lemma like_percent_nil (p : list ascii) : like_list ("%"%char :: p) [] = like_list p [].
Proof. simpl; apply orb_false_r. Qed.

Lemma like_percent_cons (p : list ascii) (x : ascii) (t : list ascii) :
  like_list ("%"%char :: p) (x :: t) = like_list p (x :: t) || like_list ("%"%char :: p) t.
Proof. reflexivity. Qed.

Lemma like_literal (lit : list ascii) :
  no_wildcard lit = true -> forall t, like_list lit t = true <-> t = lit.
Proof.
  induction lit as [|c lit IH]; intros Hl t.
  - destruct t; simpl; split; congruence.
  - simpl in Hl; apply andb_true_iff in Hl; destruct Hl as [Hc Hl].
    apply negb_true_iff, orb_false_iff in Hc; destruct Hc as [H1 H2].
    simpl; rewrite H1, H2.
    destruct t as [|d t]; [split; congruence|].
    rewrite andb_true_iff, Ascii.eqb_eq, (IH Hl t).
    split; [intros [-> ->]; reflexivity|intros H; injection H as -> ->; auto].
Qed.

Lemma like_suffix (lit : list ascii) :
  no_wildcard lit = true ->
  forall t, like_list ("%"%char :: lit) t = true <-> exists pre, t = pre ++ lit.
Proof.
  intros Hl t; induction t as [|x t IH].
  - rewrite like_percent_nil, (like_literal lit Hl).
    split; [intros <-; exists []; reflexivity|].
    intros ([|y pre] & H); [exact H|discriminate].
  - rewrite like_percent_cons, orb_true_iff, (like_literal lit Hl), IH.
    split.
    + intros [H | (pre & ->)]; [exists []; exact H|exists (x :: pre); reflexivity].
    + intros ([|y pre] & H); [left; exact H|].
      injection H as -> ->; right; exists pre; reflexivity.
Qed.

Lemma like_any (t : list ascii) : like_list ["%"%char] t = true.
Proof.
  induction t as [|x t IH]; [reflexivity|].
  rewrite like_percent_cons, IH, orb_true_r; reflexivity.
Qed.

Lemma like_prefix (lit : list ascii) :
  no_wildcard lit = true ->
  forall t, like_list (lit ++ ["%"%char]) t = true <-> exists post, t = lit ++ post.
Proof.
  induction lit as [|c lit IH]; intros Hl t.
  - simpl app; split; [intros _; exists t; reflexivity|intros _; apply like_any].
  - simpl in Hl; apply andb_true_iff in Hl; destruct Hl as [Hc Hl].
    apply negb_true_iff, orb_false_iff in Hc; destruct Hc as [H1 H2].
    simpl app; simpl; rewrite H1, H2.
    destruct t as [|d t]; [split; [discriminate|intros (post & H); discriminate]|].
    rewrite andb_true_iff, Ascii.eqb_eq, (IH Hl t).
    split.
    + intros [-> (post & ->)]; exists post; reflexivity.
    + intros (post & H); injection H as -> ->; split; [reflexivity|exists post; reflexivity].
Qed.

Lemma string_suffix_iff (suffix s : string) :
  (exists pre, s = (pre ++ suffix)%string) <->
  (exists pre, list_ascii_of_string s = pre ++ list_ascii_of_string suffix).
Proof.
  split.
  - intros (pre & ->); exists (list_ascii_of_string pre); apply list_ascii_of_string_app.
  - intros (pre & H); exists (string_of_list_ascii pre).
    rewrite <- (string_of_list_ascii_of_string s), H.
    rewrite <- (list_ascii_of_string_of_list_ascii pre) at 1.
    rewrite <- list_ascii_of_string_app, string_of_list_ascii_of_string; reflexivity.
Qed.

Lemma string_prefix_iff (prefix s : string) :
  (exists post, s = (prefix ++ post)%string) <->
  (exists post, list_ascii_of_string s = list_ascii_of_string prefix ++ post).
Proof.
  split.
  - intros (post & ->); exists (list_ascii_of_string post); apply list_ascii_of_string_app.
  - intros (post & H); exists (string_of_list_ascii post).
    rewrite <- (string_of_list_ascii_of_string s), H.
    rewrite <- (list_ascii_of_string_of_list_ascii post) at 1.
    rewrite <- list_ascii_of_string_app, string_of_list_ascii_of_string; reflexivity.
Qed.

Lemma like_gserviceaccount (s : string) :
  like_list (list_ascii_of_string "%.gserviceaccount.com") (list_ascii_of_string s) = true
  <-> exists pre, s = (pre ++ ".gserviceaccount.com")%string.
Proof.
  rewrite string_suffix_iff.
  change (list_ascii_of_string "%.gserviceaccount.com")
    with ("%"%char :: list_ascii_of_string ".gserviceaccount.com").
  apply like_suffix; reflexivity.
Qed.

Lemma like_service_prefix (s : string) :
  like_list (list_ascii_of_string "service-%") (list_ascii_of_string s) = true
  <-> exists post, s = ("service-" ++ post)%string.
Proof.
  rewrite string_prefix_iff.
  change (list_ascii_of_string "service-%")
    with (list_ascii_of_string "service-" ++ ["%"%char]).
  apply like_prefix; reflexivity.
Qed.

(** C8: an email is classified as a service account ([service_account]
    non-null) exactly when it ends with [.gserviceaccount.com] or begins with
    [service-]; otherwise [service_account] is [NULL] (a human user). A null
    or empty email is a human user, and the dashboard's actor key for it is
    ["Unknown"]. *)
Theorem classify_actor_email :
  (forall s : string,
     let is_sa := (exists pre, s = (pre ++ ".gserviceaccount.com")%string)
                  \/ (exists post, s = ("service-" ++ post)%string) in
     (is_sa -> service_account_of (Some s) = Some s)
     /\ (~ is_sa -> service_account_of (Some s) = None))
  /\ service_account_of None = None
  /\ actor_key (service_account_of None) None = "Unknown"%string
  /\ service_account_of (Some ""%string) = None
  /\ actor_key (service_account_of (Some ""%string)) (Some ""%string) = "Unknown"%string.
Proof.
  split; [|repeat split; reflexivity].
  intros s is_sa; unfold service_account_of, sql_like, is_true3.
  destruct (like_list (list_ascii_of_string "%.gserviceaccount.com") (list_ascii_of_string s)) eqn:E1;
  destruct (like_list (list_ascii_of_string "service-%") (list_ascii_of_string s)) eqn:E2;
  split; intros H; try reflexivity; exfalso.
  - apply H; left; apply like_gserviceaccount; exact E1.
  - apply H; left; apply like_gserviceaccount; exact E1.
  - apply H; right; apply like_service_prefix; exact E2.
  - destruct H as [H | H].
    + apply like_gserviceaccount in H; congruence.
    + apply like_service_prefix in H; congruence.
Qed.

(** ** Rounding of the cost columns *)

(** C5 (code bug): on [jobs_two_small_tables] each table cost rounds to
    0.00 on its own. [dataset_costs] sums those rounded values, so the
    dataset costs 0.00. Rounding the dataset's unrounded billed bytes, as
    [table_costs] and [user_daily_base] do, gives 0.01, which is also the
    actor-day's [estimated_cost_usd]. *)
Theorem dataset_cost_rounding_divergence :
  match cost_query isort_sorter 5 jobs_two_small_tables with
  | Ok [s] =>
      match s_dataset_costs s, s_table_costs s, s_estimated_cost_usd s with
      | [de], [te1; te2], Some total =>
          match de_dataset_cost_usd de, de_bytes_billed de,
                te_table_cost_usd te1, te_table_cost_usd te2 with
          | Some c, Some b, Some c1, Some c2 =>
              (c1 == 0)%Q /\ (c2 == 0)%Q /\ (c == 0)%Q
              /\ cost_usd 5 (Some b) = Some (round2 (b / inject_Z tib * 5))%Q
              /\ (round2 (b / inject_Z tib * 5) == 1 # 100)%Q
              /\ (total == 1 # 100)%Q
          | _, _, _, _ => False
          end
      | _, _, _ => False
      end
  | _ => False
  end.
Proof. vm_compute; repeat split; reflexivity. Qed.

(** ** Valid [ORDER BY] engines *)

Lemma insert_by_perm {A} (le : A -> A -> bool) (x : A) (ys : list A) :
  Permutation (insert_by le x ys) (x :: ys).
Proof.
  induction ys as [|y ys IH]; simpl; [reflexivity|].
  destruct (le x y); [reflexivity|].
  rewrite IH; apply perm_swap.
Qed.

Lemma isort_perm {A} (le : A -> A -> bool) (xs : list A) : Permutation (isort le xs) xs.
Proof.
  induction xs as [|x xs IH]; simpl; [reflexivity|].
  rewrite insert_by_perm, IH; reflexivity.
Qed.

Lemma insert_by_sorted {A} (le : A -> A -> bool) (x : A) (ys : list A) :
  (forall a b, le a b = true \/ le b a = true) ->
  Sorted (fun a b => le a b = true) ys ->
  Sorted (fun a b => le a b = true) (insert_by le x ys).
Proof.
  intros Htot; induction ys as [|y ys IH]; intros Hs; simpl.
  - repeat constructor.
  - destruct (le x y) eqn:Exy.
    + constructor; [exact Hs|constructor; exact Exy].
    + assert (Eyx : le y x = true) by (destruct (Htot x y); congruence).
      apply Sorted_inv in Hs; destruct Hs as [Hs Hhd].
      constructor; [apply IH; exact Hs|].
      destruct ys as [|y' ys']; simpl; [constructor; exact Eyx|].
      destruct (le x y'); constructor; [exact Eyx|].
      apply HdRel_inv in Hhd; exact Hhd.
Qed.

Lemma isort_sorted {A} (le : A -> A -> bool) (xs : list A) :
  (forall a b, le a b = true \/ le b a = true) ->
  Sorted (fun a b => le a b = true) (isort le xs).
Proof.
  intros Htot; induction xs as [|x xs IH]; simpl; [constructor|].
  apply insert_by_sorted; assumption.
Qed.

Lemma isort_sorter_valid : valid_sorter isort_sorter.
Proof.
  split; intros A le xs; [apply isort_perm|intros Htot; apply isort_sorted; exact Htot].
Qed.

Lemma isort_rev_sorter_valid : valid_sorter isort_rev_sorter.
Proof.
  split; intros A le xs.
  - unfold isort_rev_sorter; rewrite isort_perm; symmetry; apply Permutation_rev.
  - intros Htot; apply isort_sorted; exact Htot.
Qed.

Lemma StronglySorted_app_rel {A} (R : A -> A -> Prop) (l1 l2 : list A) :
  StronglySorted R (l1 ++ l2) -> forall a b, In a l1 -> In b l2 -> R a b.
Proof.
  induction l1 as [|x l1 IH]; cbn; intros Hs a b Ha Hb; [destruct Ha|].
  apply StronglySorted_inv in Hs; destruct Hs as [Hs Hall].
  destruct Ha as [<-|Ha]; [|exact (IH Hs a b Ha Hb)].
  rewrite Forall_forall in Hall; apply Hall, in_or_app; right; exact Hb.
Qed.

Lemma desc_opt_trans (x y z : option Q) :
  desc_opt x y = true -> desc_opt y z = true -> desc_opt x z = true.
Proof.
  destruct x as [a|], y as [b|], z as [c|]; simpl; auto; try discriminate.
  rewrite !Qle_bool_iff; intros H1 H2; apply (Qle_trans _ b); assumption.
Qed.

Lemma desc_opt_total (x y : option Q) : desc_opt x y = true \/ desc_opt y x = true.
Proof.
  destruct x as [a|], y as [b|]; simpl; auto.
  destruct (Qlt_le_dec a b) as [H|H].
  - right; apply Qle_bool_iff, Qlt_le_weak; exact H.
  - left; apply Qle_bool_iff; exact H.
Qed.

Lemma Sorted_map_rel {A B} (R : B -> B -> Prop) (f : A -> B) (l : list A) :
  Sorted (fun a b => R (f a) (f b)) l -> Sorted R (map f l).
Proof.
  induction 1 as [|x l Hs IH Hhd]; simpl; constructor; [exact IH|].
  destruct Hhd; simpl; constructor; assumption.
Qed.

Lemma Sorted_firstn {A} (R : A -> A -> Prop) (n : nat) (l : list A) :
  Sorted R l -> Sorted R (firstn n l).
Proof.
  revert l; induction n as [|n IH]; intros l Hs; simpl; [constructor|].
  destruct l as [|x l]; [constructor|].
  apply Sorted_inv in Hs; destruct Hs as [Hs Hhd].
  constructor; [apply IH; exact Hs|].
  destruct n, l; simpl; try constructor.
  apply HdRel_inv in Hhd; exact Hhd.
Qed.

(** ** Rollups and the assembly *)

Lemma in_rollup {R E} (o : sorter) udbs (rkey : R -> akey) le limit (mk : R -> E) rows k l :
  In (k, l) (rollup o udbs rkey le limit mk rows) ->
  exists u, In u udbs /\ k = u_key u
    /\ filter (fun r => akey_join (rkey r) k) rows <> []
    /\ l = apply_limit limit (map mk (ob_sort o le (filter (fun r => akey_join (rkey r) k) rows))).
Proof.
  unfold rollup; rewrite in_flat_map; intros (u & Hu & Hin).
  destruct (filter (fun r => akey_join (rkey r) (u_key u)) rows) as [|x xs] eqn:Hm;
    [contradiction|].
  destruct Hin as [Hin|[]]; injection Hin as <- <-.
  exists u; rewrite Hm; split; [exact Hu|split; [reflexivity|split; [discriminate|reflexivity]]].
Qed.

Lemma rollup_has_entry {R E} (o : sorter) udbs (rkey : R -> akey) le limit (mk : R -> E) rows u :
  In u udbs -> filter (fun r => akey_join (rkey r) (u_key u)) rows <> [] ->
  exists l, In (u_key u, l) (rollup o udbs rkey le limit mk rows).
Proof.
  intros Hu Hne; unfold rollup.
  destruct (filter (fun r => akey_join (rkey r) (u_key u)) rows) as [|x xs] eqn:Hm;
    [contradiction|].
  eexists; apply in_flat_map; exists u; split; [exact Hu|].
  rewrite Hm; left; reflexivity.
Qed.

Lemma in_left_join {E} (rs : list (akey * list E)) k v :
  In v (left_join rs k) ->
  (v = None /\ forall kl, In kl rs -> akey_join (fst kl) k = false)
  \/ (exists k' l, v = Some l /\ In (k', l) rs /\ akey_join k' k = true).
Proof.
  unfold left_join.
  destruct (filter (fun '(k', _) => akey_join k' k) rs) as [|x xs] eqn:Hf; intros Hin.
  - destruct Hin as [<-|[]]; left; split; [reflexivity|].
    intros [k' l] Hkl; simpl.
    destruct (akey_join k' k) eqn:Ej; [|reflexivity].
    assert (Hx : In (k', l) (filter (fun '(k', _) => akey_join k' k) rs))
      by (apply filter_In; split; assumption).
    rewrite Hf in Hx; contradiction.
  - right; rewrite <- Hf in Hin; apply in_map_iff in Hin.
    destruct Hin as ([k' l] & <- & Hx); apply filter_In in Hx; destruct Hx as [Hx Hj].
    exists k', l; split; [reflexivity|split; assumption].
Qed.

Lemma in_user_daily_stats udbs uhb udb2 udc utc urq r :
  In r (user_daily_stats udbs uhb udb2 udc utc urq) ->
  In (uds_base r) udbs
  /\ In (uds_hourly_breakdown r) (left_join uhb (u_key (uds_base r)))
  /\ In (uds_daily_breakdown r) (left_join udb2 (u_key (uds_base r)))
  /\ In (uds_dataset_costs r) (left_join udc (u_key (uds_base r)))
  /\ In (uds_table_costs r) (left_join utc (u_key (uds_base r)))
  /\ In (uds_recent_queries r) (left_join urq (u_key (uds_base r))).
Proof.
  unfold user_daily_stats; rewrite in_flat_map; intros (u & Hu & H).
  apply in_flat_map in H; destruct H as (h & Hh & H).
  apply in_flat_map in H; destruct H as (d & Hd & H).
  apply in_flat_map in H; destruct H as (ds & Hds & H).
  apply in_flat_map in H; destruct H as (t & Ht & H).
  apply in_map_iff in H; destruct H as (q & <- & Hq); simpl.
  repeat split; assumption.
Qed.

Lemma left_join_merged {E} (rs : list (akey * list E)) k v :
  In v (left_join rs k) -> merged_by_key rs k (result_array v).
Proof.
  intros Hin; destruct (in_left_join rs k v Hin) as [[-> Hnone] | (k' & l & -> & Hkl & Hj)].
  - left; split; [exact Hnone|reflexivity].
  - right; exists k', l; split; [exact Hkl|split; [exact Hj|reflexivity]].
Qed.

(** C7: in every assembled summary, each of the five rollup fields is the
    array of a rollup entry for the row's key, or the empty list when the
    rollup has no entry for that key. It is never null or missing: inside the
    query the unmatched [LEFT JOIN] column is [NULL], and the query result
    returns it as an empty array. The scalar fields come from
    [user_daily_base] itself. *)
Theorem assemble_missing_rollup_empty udbs uhb udb2 udc utc urq :
  Forall (fun r =>
      let s := summary_of r in
      merged_by_key uhb (s_key s) (s_hourly_breakdown s)
      /\ merged_by_key udb2 (s_key s) (s_daily_breakdown s)
      /\ merged_by_key udc (s_key s) (s_dataset_costs s)
      /\ merged_by_key utc (s_key s) (s_table_costs s)
      /\ merged_by_key urq (s_key s) (s_recent_queries s))
    (user_daily_stats udbs uhb udb2 udc utc urq).
Proof.
  apply Forall_forall; intros r Hr.
  destruct (in_user_daily_stats _ _ _ _ _ _ r Hr) as (_ & H1 & H2 & H3 & H4 & H5).
  cbn zeta; unfold summary_of; cbn [s_key s_hourly_breakdown s_daily_breakdown
    s_dataset_costs s_table_costs s_recent_queries].
  repeat split; apply left_join_merged; assumption.
Qed.

(** C9 (amended): in every run, each actor-day's [dataset_costs] and
    [table_costs] are sorted by descending cost ([NULL] last). They hold the
    actor-day's rows in some order. [table_costs] is the first 100 of the
    actor-day's table rows sorted by descending cost, so no table left out
    costs more than a table kept. The order among equal costs is whatever
    the engine chose. *)
Theorem rollup_order_by_cost (o : sorter) (Ho : valid_sorter o) udbs dcs tcs :
  (forall k l, In (k, l) (user_dataset_costs o udbs dcs) ->
     Sorted (fun a b => desc_opt (de_dataset_cost_usd a) (de_dataset_cost_usd b) = true) l
     /\ Permutation l (map dataset_entry_of (filter (fun dc => akey_join (dc_key dc) k) dcs)))
  /\ (forall k l, In (k, l) (user_table_costs o udbs tcs) ->
     Sorted (fun a b => desc_opt (te_table_cost_usd a) (te_table_cost_usd b) = true) l
     /\ exists full, Permutation full (map table_entry_of (filter (fun tc => akey_join (tc_key tc) k) tcs))
                     /\ Sorted (fun a b => desc_opt (te_table_cost_usd a) (te_table_cost_usd b) = true) full
                     /\ l = firstn 100 full
                     /\ forall a b, In a l -> In b (skipn 100 full) ->
                          desc_opt (te_table_cost_usd a) (te_table_cost_usd b) = true).
Proof.
  destruct Ho as [Hperm Hsorted]; split.
  - intros k l Hin; apply in_rollup in Hin; destruct Hin as (u & _ & _ & _ & ->); cbn [apply_limit].
    split.
    + apply Sorted_map_rel; unfold ob_sort; apply Hsorted.
      intros a b; apply desc_opt_total.
    + apply Permutation_map; unfold ob_sort; apply Hperm.
  - intros k l Hin; apply in_rollup in Hin; destruct Hin as (u & _ & _ & _ & ->); cbn [apply_limit].
    set (full := map table_entry_of
                   (ob_sort o (fun a b => desc_opt (tc_table_cost_usd a) (tc_table_cost_usd b))
                      (filter (fun tc => akey_join (tc_key tc) k) tcs))).
    assert (Hs : Sorted (fun a b => desc_opt (te_table_cost_usd a) (te_table_cost_usd b) = true) full).
    { apply Sorted_map_rel; unfold ob_sort; apply Hsorted.
      intros a b; apply desc_opt_total. }
    split; [apply Sorted_firstn; exact Hs|].
    exists full; split; [apply Permutation_map; unfold ob_sort; apply Hperm|].
    split; [exact Hs|split; [reflexivity|]].
    intros a b Ha Hb.
    apply (StronglySorted_app_rel (fun a b => desc_opt (te_table_cost_usd a) (te_table_cost_usd b) = true)
             (firstn 100 full) (skipn 100 full)); [|exact Ha|exact Hb].
    rewrite firstn_skipn; apply Sorted_StronglySorted; [|exact Hs].
    intros x y z; apply desc_opt_trans.
Qed.

(** The rollups over the base rows and table rows of [jobs_mixed]. *)
Lemma rollup_order_by_cost_witness :
  let udbs := match user_daily_base 5 jobs_mixed with Ok u => u | Err _ => [] end in
  let tcs := match table_costs 5 jobs_mixed with Ok t => t | Err _ => [] end in
  let dcs := dataset_costs tcs in
  valid_sorter isort_sorter
  /\ List.length (user_table_costs isort_sorter udbs tcs) = 2%nat
  /\ List.length (user_dataset_costs isort_sorter udbs dcs) = 2%nat
  /\ ((forall k l, In (k, l) (user_dataset_costs isort_sorter udbs dcs) ->
     Sorted (fun a b => desc_opt (de_dataset_cost_usd a) (de_dataset_cost_usd b) = true) l
     /\ Permutation l (map dataset_entry_of (filter (fun dc => akey_join (dc_key dc) k) dcs)))
  /\ (forall k l, In (k, l) (user_table_costs isort_sorter udbs tcs) ->
     Sorted (fun a b => desc_opt (te_table_cost_usd a) (te_table_cost_usd b) = true) l
     /\ exists full, Permutation full (map table_entry_of (filter (fun tc => akey_join (tc_key tc) k) tcs))
                     /\ Sorted (fun a b => desc_opt (te_table_cost_usd a) (te_table_cost_usd b) = true) full
                     /\ l = firstn 100 full
                     /\ forall a b, In a l -> In b (skipn 100 full) ->
                          desc_opt (te_table_cost_usd a) (te_table_cost_usd b) = true)).
Proof.
  intros udbs tcs dcs.
  split; [exact isort_sorter_valid|].
  split; [vm_compute; reflexivity|].
  split; [vm_compute; reflexivity|].
  exact (rollup_order_by_cost isort_sorter isort_sorter_valid udbs dcs tcs).
Defined.

(** C9 as stated fails: two valid engines run the query on the same input.
    The two tables of [jobs_two_small_tables] have equal cost, and the runs
    list them in opposite orders. *)
Lemma table_cost_order_counterexample :
  valid_sorter isort_sorter /\ valid_sorter isort_rev_sorter /\
  match cost_query isort_sorter 5 jobs_two_small_tables,
        cost_query isort_rev_sorter 5 jobs_two_small_tables with
  | Ok [s1], Ok [s2] =>
      map te_table_name (s_table_costs s1) = ["p.d.t1"; "p.d.t2"]%string
      /\ map te_table_name (s_table_costs s2) = ["p.d.t2"; "p.d.t1"]%string
      /\ map te_table_cost_usd (s_table_costs s1) = map te_table_cost_usd (s_table_costs s2)
  | _, _ => False
  end.
Proof.
  split; [exact isort_sorter_valid|split; [exact isort_rev_sorter_valid|]].
  vm_compute; repeat split; reflexivity.
Qed.

Lemma akey_join_eq (a b : akey) : akey_join a b = true -> a = b.
Proof.
  destruct a as [d1 p1 e1 s1], b as [d2 p2 e2 s2]; unfold akey_join; cbn.
  intros H; apply andb_prop in H; destruct H as [H Hs].
  apply andb_prop in H; destruct H as [H He].
  apply andb_prop in H; destruct H as [Hd Hp].
  apply Z.eqb_eq in Hd; apply String.eqb_eq in Hp; subst.
  destruct e1 as [e1|], e2 as [e2|]; try discriminate; cbn in He.
  destruct (String.eqb e1 e2) eqn:Ee; [apply String.eqb_eq in Ee; subst|discriminate].
  destruct s1 as [s1|], s2 as [s2|]; try discriminate; [|reflexivity].
  cbn in Hs; apply String.eqb_eq in Hs; subst; reflexivity.
Qed.

Lemma akey_join_refl (k : akey) : k_user_email k <> None -> akey_join k k = true.
Proof.
  destruct k as [d p [e|] [s|]]; cbn; intros H; try congruence;
    unfold akey_join; cbn; rewrite Z.eqb_refl, !String.eqb_refl; reflexivity.
Qed.

Lemma akey_join_null_r (a b : akey) : k_user_email b = None -> akey_join a b = false.
Proof.
  destruct a as [d1 p1 e1 s1], b as [d2 p2 e2 s2]; cbn; intros ->; unfold akey_join; cbn.
  destruct e1; rewrite andb_false_r; cbn; reflexivity.
Qed.

Lemma table_costs_ok (cpt : Q) (jobs : list job) : exists tcs, table_costs cpt jobs = Ok tcs.
Proof.
  unfold table_costs, table_cost_rows.
  rewrite (mapM_pure _ (fun j => map (fun a => (j, a)) (map (attribution_of j) (referenced_tables_detail j))));
    [eexists; reflexivity|].
  intros j _; rewrite attribute_eq; reflexivity.
Qed.

Lemma in_ob_sort (o : sorter) (Ho : valid_sorter o) {A} (le : A -> A -> bool) xs x :
  In x (ob_sort o le xs) -> In x xs.
Proof.
  destruct Ho as [Hperm _]; intros H; unfold ob_sort in H.
  exact (Permutation_in _ (Hperm A le xs) H).
Qed.





(* ------------------------------------------------------------------ *)
(** ** [GROUP BY] as a partition *)

Lemma filter_map_comm {A B} (f : B -> A) (p : A -> bool) (l : list B) :
  filter p (map f l) = map f (filter (fun b => p (f b)) l).
Proof.
  induction l as [|b l IH]; cbn; [reflexivity|].
  destruct (p (f b)); cbn; rewrite IH; reflexivity.
Qed.


Section GroupBySpec.
Context {K A : Type} (eqb : K -> K -> bool) (key : A -> K).
Hypothesis eqb_iff : forall a b, eqb a b = true <-> a = b.

Lemma gb_eqb_refl (k : K) : eqb k k = true.
Proof. apply eqb_iff; reflexivity. Qed.

Lemma gb_eqb_false (a b : K) : a <> b -> eqb a b = false.
Proof. intros H; destruct (eqb a b) eqn:E; [apply eqb_iff in E; contradiction|reflexivity]. Qed.

Lemma gb_existsb_In (k : K) (ks : list K) : existsb (eqb k) ks = true <-> In k ks.
Proof.
  rewrite existsb_exists; split.
  - intros (k' & Hin & Hk); apply eqb_iff in Hk; subst; exact Hin.
  - intros Hin; exists k; split; [exact Hin|apply gb_eqb_refl].
Qed.

Lemma add_to_groups_hit (ks : list K) (f : K -> list A) (kx : K) (x : A) :
  NoDup ks -> In kx ks ->
  add_to_groups eqb kx x (map (fun k => (k, f k)) ks)
  = map (fun k => (k, f k ++ (if eqb kx k then [x] else []))) ks.
Proof.
  induction ks as [|k ks IH]; intros Hnd Hin; [destruct Hin|].
  apply NoDup_cons_iff in Hnd; destruct Hnd as [Hk Hnd].
  cbn [map add_to_groups]; destruct (eqb kx k) eqn:E.
  - apply eqb_iff in E; subst k; f_equal.
    apply map_ext_in; intros k' Hk'.
    rewrite gb_eqb_false, app_nil_r; [reflexivity|].
    intros ->; contradiction.
  - destruct Hin as [->|Hin]; [rewrite gb_eqb_refl in E; discriminate|].
    rewrite app_nil_r; f_equal; apply IH; assumption.
Qed.

Lemma add_to_groups_miss (ks : list K) (f : K -> list A) (kx : K) (x : A) :
  ~ In kx ks ->
  add_to_groups eqb kx x (map (fun k => (k, f k)) ks)
  = map (fun k => (k, f k)) ks ++ [(kx, [x])].
Proof.
  induction ks as [|k ks IH]; intros Hin; [reflexivity|].
  cbn [map add_to_groups]; destruct (eqb kx k) eqn:E.
  - apply eqb_iff in E; subst k; exfalso; apply Hin; left; reflexivity.
  - cbn [app]; f_equal; apply IH; intros H; apply Hin; right; exact H.
Qed.

(** [group_by] is the list of the distinct keys, each paired with the
    rows that have it, in input order. *)
Lemma group_by_spec (xs : list A) :
  group_by eqb key xs
  = map (fun k => (k, filter (fun y => eqb (key y) k) xs)) (keys_first eqb key xs)
  /\ NoDup (keys_first eqb key xs)
  /\ (forall k, In k (keys_first eqb key xs) <-> exists y, In y xs /\ key y = k).
Proof.
  induction xs as [|x xs IH] using rev_ind.
  - split; [reflexivity|split; [constructor|]].
    intros k; split; [intros []|intros (y & [] & _)].
  - destruct IH as (Hg & Hnd & Hk).
    unfold group_by, keys_first in *; rewrite !fold_left_app; cbn [fold_left].
    rewrite Hg.
    assert (Hf : forall k, filter (fun y => eqb (key y) k) (xs ++ [x])
                 = filter (fun y => eqb (key y) k) xs ++ (if eqb (key x) k then [x] else [])).
    { intros k; rewrite filter_app; cbn [filter]; destruct (eqb (key x) k); reflexivity. }
    set (ks := fold_left (fun ks x => if existsb (eqb (key x)) ks then ks else ks ++ [key x]) xs [])
      in *.
    destruct (existsb (eqb (key x)) ks) eqn:Ex.
    + apply gb_existsb_In in Ex.
      rewrite add_to_groups_hit by assumption.
      split; [apply map_ext; intros k; rewrite Hf; reflexivity|split; [exact Hnd|]].
      intros k; rewrite Hk; split.
      * intros (y & Hy & <-); exists y; split; [apply in_or_app; left; exact Hy|reflexivity].
      * intros (y & Hy & <-); apply in_app_or in Hy; destruct Hy as [Hy|[<-|[]]].
        -- exists y; split; [exact Hy|reflexivity].
        -- apply Hk; exact Ex.
    + assert (Hnot : ~ In (key x) ks) by (intros H; apply gb_existsb_In in H; congruence).
      rewrite add_to_groups_miss by exact Hnot.
      split; [|split].
      * rewrite map_app; cbn [map]; f_equal.
        -- apply map_ext_in; intros k Hkin; rewrite Hf.
           rewrite gb_eqb_false, app_nil_r; [reflexivity|].
           intros Heq; rewrite Heq in Hnot; contradiction.
        -- rewrite Hf, gb_eqb_refl.
           destruct (filter (fun y => eqb (key y) (key x)) xs) as [|y ys] eqn:Hfl;
             [reflexivity|exfalso].
           assert (Hy : In y (filter (fun y => eqb (key y) (key x)) xs))
             by (rewrite Hfl; left; reflexivity).
           apply filter_In in Hy; destruct Hy as [Hy Hyk]; apply eqb_iff in Hyk.
           apply Hnot, Hk; exists y; split; assumption.
      * apply (Permutation_NoDup (Permutation_cons_append _ _)); constructor; assumption.
      * intros k; rewrite in_app_iff, Hk; split.
        -- intros [(y & Hy & <-) | [<- | []]].
           ++ exists y; split; [apply in_or_app; left; exact Hy|reflexivity].
           ++ exists x; split; [apply in_or_app; right; left; reflexivity|reflexivity].
        -- intros (y & Hy & <-); apply in_app_or in Hy; destruct Hy as [Hy|[<-|[]]].
           ++ left; exists y; split; [exact Hy|reflexivity].
           ++ right; left; reflexivity.
Qed.

Lemma group_by_In (xs : list A) (k : K) (g : list A) :
  In (k, g) (group_by eqb key xs)
  <-> (exists y, In y xs /\ key y = k) /\ g = filter (fun y => eqb (key y) k) xs.
Proof.
  destruct (group_by_spec xs) as (Hg & _ & Hk); rewrite Hg, in_map_iff; split.
  - intros (k' & Heq & Hk'); injection Heq as <- <-; split; [apply Hk; exact Hk'|reflexivity].
  - intros [Hex ->]; exists k; split; [reflexivity|apply Hk; exact Hex].
Qed.

Lemma group_by_keys_NoDup (xs : list A) : NoDup (map fst (group_by eqb key xs)).
Proof.
  destruct (group_by_spec xs) as (Hg & Hnd & _); rewrite Hg, map_map; cbn.
  rewrite map_id; exact Hnd.
Qed.

Lemma filter_or_perm (p q : A -> bool) (xs : list A) :
  (forall y, p y = true -> q y = false) ->
  Permutation (filter (fun y => p y || q y) xs) (filter p xs ++ filter q xs).
Proof.
  intros Hd; induction xs as [|y ys IH]; [reflexivity|]; cbn [filter].
  destruct (p y) eqn:Ep.
  - rewrite (Hd y Ep); cbn [orb app]; apply perm_skip; exact IH.
  - destruct (q y); cbn [orb].
    + rewrite IH; apply Permutation_middle.
    + exact IH.
Qed.

Lemma flat_map_filter_keys (ks : list K) (xs : list A) :
  NoDup ks ->
  Permutation (flat_map (fun k => filter (fun y => eqb (key y) k) xs) ks)
              (filter (fun y => existsb (eqb (key y)) ks) xs).
Proof.
  induction ks as [|k ks IH]; intros Hnd; cbn [flat_map existsb].
  - induction xs as [|y ys IHx]; cbn; [reflexivity|exact IHx].
  - apply NoDup_cons_iff in Hnd; destruct Hnd as [Hk Hnd].
    rewrite IH by exact Hnd; symmetry; apply filter_or_perm.
    intros y Hy; apply eqb_iff in Hy; subst k.
    destruct (existsb (eqb (key y)) ks) eqn:E; [|reflexivity].
    apply gb_existsb_In in E; contradiction.
Qed.

(** The groups whose key satisfies [p] hold exactly the rows whose key
    satisfies [p]. *)
Lemma group_by_filter_perm (xs : list A) (p : K -> bool) :
  Permutation (flat_map snd (filter (fun kg => p (fst kg)) (group_by eqb key xs)))
              (filter (fun y => p (key y)) xs).
Proof.
  destruct (group_by_spec xs) as (Hg & Hnd & Hk); rewrite Hg.
  rewrite filter_map_comm; cbn [fst].
  rewrite flat_map_concat_map, map_map; cbn [snd]; rewrite <- flat_map_concat_map.
  rewrite flat_map_filter_keys by (apply NoDup_filter; exact Hnd).
  erewrite filter_ext_in; [reflexivity|].
  intros y Hy; cbn beta.
  destruct (p (key y)) eqn:Ep.
  - apply gb_existsb_In, filter_In; split; [apply Hk; exists y; split; auto|exact Ep].
  - destruct (existsb (eqb (key y)) (filter p (keys_first eqb key xs))) eqn:E; [|reflexivity].
    apply gb_existsb_In, filter_In in E; destruct E as [_ E]; congruence.
Qed.

Lemma group_by_perm (xs : list A) : Permutation (flat_map snd (group_by eqb key xs)) xs.
Proof.
  pose proof (group_by_filter_perm xs (fun _ => true)) as H.
  rewrite filter_true, filter_true in H; exact H.
Qed.

End GroupBySpec.

(* ------------------------------------------------------------------ *)
(** ** Keys, [mapM] and the rows of [user_daily_base] *)

Lemma opt_eqb_string_iff (a b : option string) : opt_eqb String.eqb a b = true <-> a = b.
Proof.
  destruct a as [x|], b as [y|]; cbn; split; intros H; try congruence.
  - apply String.eqb_eq in H; subst; reflexivity.
  - injection H as ->; apply String.eqb_refl.
Qed.

Lemma akey_eqb_iff (a b : akey) : akey_eqb a b = true <-> a = b.
Proof.
  destruct a as [d1 p1 e1 s1], b as [d2 p2 e2 s2]; unfold akey_eqb; cbn.
  rewrite !andb_true_iff, Z.eqb_eq, String.eqb_eq, !opt_eqb_string_iff; split.
  - intros [[[-> ->] ->] ->]; reflexivity.
  - intros H; injection H as -> -> -> ->; auto.
Qed.

Lemma akey_pair_eqb_iff {B} (eqb : B -> B -> bool) (Hb : forall a b, eqb a b = true <-> a = b)
    (x y : akey * B) :
  (let '(k1, h1) := x in let '(k2, h2) := y in akey_eqb k1 k2 && eqb h1 h2) = true <-> x = y.
Proof.
  destruct x as [k1 h1], y as [k2 h2]; rewrite andb_true_iff, akey_eqb_iff, Hb; split.
  - intros [-> ->]; reflexivity.
  - intros H; injection H as -> ->; auto.
Qed.

Lemma akey_join_eqb (a k : akey) : k_user_email k <> None -> akey_join a k = akey_eqb a k.
Proof.
  destruct a as [d1 p1 e1 s1], k as [d2 p2 [e2|] s2]; cbn; intros H; [|congruence].
  unfold akey_join, akey_eqb; cbn; destruct e1 as [e1|]; cbn; [|reflexivity].
  destruct (String.eqb e1 e2); reflexivity.
Qed.

Lemma mapM_Forall2 {A B} (f : A -> result B) (xs : list A) (ys : list B) :
  mapM f xs = Ok ys -> Forall2 (fun x y => f x = Ok y) xs ys.
Proof.
  revert ys; induction xs as [|x xs IH]; intros ys H; cbn in H.
  - injection H as <-; constructor.
  - destruct (f x) as [y|m] eqn:Ef; cbn in H; [|discriminate].
    destruct (mapM f xs) as [ys'|m] eqn:Er; cbn in H; [|discriminate].
    injection H as <-; constructor; [exact Ef|apply IH; reflexivity].
Qed.

Lemma Forall2_map_eq {A B C} (f : A -> C) (g : B -> C) (P : A -> B -> Prop) xs ys :
  (forall x y, P x y -> f x = g y) -> Forall2 P xs ys -> map f xs = map g ys.
Proof. intros H; induction 1; cbn; [reflexivity|f_equal; auto]. Qed.

Lemma user_daily_base_row_ok (cpt : Q) (k : akey) (g : list job) (u : udb) :
  user_daily_base_row cpt k g = Ok u ->
  u_key u = k /\ u_query_count u = Z.of_nat (List.length g)
  /\ u_cache_hit_count u = cache_hit_count g
  /\ u_error_count u = sumZ (map (fun j => if has_error_result j then 1 else 0) g)
  /\ u_total_bytes_processed u = sumZ (map total_bytes_processed g)
  /\ u_total_bytes_billed u = sumZ (map total_bytes_billed g)
  /\ cache_hit_percentage (cache_hit_count g) (Z.of_nat (List.length g))
     = Ok (u_cache_hit_percentage u).
Proof.
  unfold user_daily_base_row.
  destruct (cache_hit_percentage (cache_hit_count g) (Z.of_nat (List.length g))) as [p|m] eqn:E;
    cbn; intros H; [|discriminate].
  injection H as <-; cbn; repeat split; reflexivity.
Qed.

Lemma user_daily_base_rows (cpt : Q) (jobs : list job) (udbs : list udb) :
  user_daily_base cpt jobs = Ok udbs ->
  Forall2 (fun kg u => user_daily_base_row cpt (fst kg) (snd kg) = Ok u)
          (group_by akey_eqb akey_of jobs) udbs.
Proof.
  unfold user_daily_base; intros H; apply mapM_Forall2 in H.
  induction H as [|[k g] u kgs us Hx _ IH]; constructor; [exact Hx|exact IH].
Qed.

Lemma user_daily_base_keys (cpt : Q) (jobs : list job) (udbs : list udb) :
  user_daily_base cpt jobs = Ok udbs ->
  map u_key udbs = map fst (group_by akey_eqb akey_of jobs).
Proof.
  intros H; symmetry; refine (Forall2_map_eq _ _ _ _ _ _ (user_daily_base_rows _ _ _ H)).
  intros kg u Hr; apply user_daily_base_row_ok in Hr; symmetry; apply Hr.
Qed.

Lemma Forall2_In_r {A B} (P : A -> B -> Prop) xs ys y :
  Forall2 P xs ys -> In y ys -> exists x, In x xs /\ P x y.
Proof.
  induction 1 as [|x y' xs ys Hxy _ IH]; intros Hin; [destruct Hin|].
  destruct Hin as [<-|Hin]; [exists x; split; [left; reflexivity|exact Hxy]|].
  destruct (IH Hin) as (x' & Hx' & Hp); exists x'; split; [right; exact Hx'|exact Hp].
Qed.

(** The row of [user_daily_base] for a key holds the jobs with that key. *)
Lemma user_daily_base_In (cpt : Q) (jobs : list job) (udbs : list udb) (u : udb) :
  user_daily_base cpt jobs = Ok udbs -> In u udbs ->
  user_daily_base_row cpt (u_key u) (filter (fun j => akey_eqb (akey_of j) (u_key u)) jobs) = Ok u
  /\ exists j, In j jobs /\ akey_of j = u_key u.
Proof.
  intros H Hu.
  destruct (Forall2_In_r _ _ _ _ (user_daily_base_rows _ _ _ H) Hu) as ([k g] & Hkg & Hrow).
  cbn in Hrow; pose proof (proj1 (user_daily_base_row_ok _ _ _ _ Hrow)) as Hk.
  apply (group_by_In akey_eqb akey_of akey_eqb_iff) in Hkg; destruct Hkg as [Hex ->].
  rewrite Hk; split; [exact Hrow|exact Hex].
Qed.

(* ------------------------------------------------------------------ *)
(** ** The rows of the final [SELECT] *)

Lemma NoDup_map_filter {A B} (proj : A -> B) (keep : A -> bool) (rows : list A) :
  NoDup (map proj rows) -> NoDup (map proj (filter keep rows)).
Proof.
  intros Hnd; induction rows as [|x rows IH]; [constructor|].
  cbn in Hnd; apply NoDup_cons_iff in Hnd; destruct Hnd as [Hx Hnd]; cbn.
  destruct (keep x); cbn; [constructor|]; auto.
  intros Hin; apply Hx; apply in_map_iff in Hin; destruct Hin as (y & Hy & Hin).
  apply filter_In in Hin; apply in_map_iff; exists y; split; [exact Hy|apply Hin].
Qed.

Lemma rollup_cons {R E} (o : sorter) u us (rkey : R -> akey) le limit (mk : R -> E) rows :
  rollup o (u :: us) rkey le limit mk rows
  = match filter (fun r => akey_join (rkey r) (u_key u)) rows with
    | [] => []
    | m => [(u_key u, apply_limit limit (map mk (ob_sort o le m)))]
    end ++ rollup o us rkey le limit mk rows.
Proof. reflexivity. Qed.

Lemma rollup_keys_NoDup {R E} (o : sorter) udbs (rkey : R -> akey) le limit (mk : R -> E) rows :
  NoDup (map u_key udbs) -> NoDup (map fst (rollup o udbs rkey le limit mk rows)).
Proof.
  induction udbs as [|u us IH]; intros Hnd; [constructor|].
  apply NoDup_cons_iff in Hnd; destruct Hnd as [Hu Hnd].
  rewrite rollup_cons.
  destruct (filter (fun r => akey_join (rkey r) (u_key u)) rows) as [|x xs]; cbn [app map fst];
    [apply IH; exact Hnd|].
  constructor; [|apply IH; exact Hnd].
  intros Hin; apply in_map_iff in Hin; destruct Hin as ([k l] & Hk & Hin); cbn in Hk; subst k.
  apply in_rollup in Hin; destruct Hin as (u' & Hu' & Hk & _).
  apply Hu; rewrite Hk; apply in_map; exact Hu'.
Qed.

Lemma left_join_single {E} (rs : list (akey * list E)) (k : akey) :
  NoDup (map fst rs) -> exists v, left_join rs k = [v].
Proof.
  intros Hnd; unfold left_join.
  pose proof (NoDup_map_filter fst (fun '(k', _) => akey_join k' k) rs Hnd) as Hnd'.
  destruct (filter (fun '(k', _) => akey_join k' k) rs) as [|[k1 l1] [|[k2 l2] t]] eqn:Hf.
  - exists None; reflexivity.
  - exists (Some l1); reflexivity.
  - exfalso.
    assert (H1 : In (k1, l1) (filter (fun '(k', _) => akey_join k' k) rs)) by (rewrite Hf; left; reflexivity).
    assert (H2 : In (k2, l2) (filter (fun '(k', _) => akey_join k' k) rs))
      by (rewrite Hf; right; left; reflexivity).
    apply filter_In in H1, H2; destruct H1 as [_ H1], H2 as [_ H2];
    apply akey_join_eq in H1, H2; subst k1 k2.
    cbn in Hnd'; apply NoDup_cons_iff in Hnd'; destruct Hnd' as [Hn _]; apply Hn; left; reflexivity.
Qed.

Lemma user_daily_stats_base udbs uhb udb2 udc utc urq :
  NoDup (map fst uhb) -> NoDup (map fst udb2) -> NoDup (map fst udc) ->
  NoDup (map fst utc) -> NoDup (map fst urq) ->
  map uds_base (user_daily_stats udbs uhb udb2 udc utc urq) = udbs.
Proof.
  intros H1 H2 H3 H4 H5; unfold user_daily_stats.
  induction udbs as [|u us IH]; [reflexivity|]; cbn [flat_map].
  destruct (left_join_single uhb (u_key u) H1) as [v1 ->].
  destruct (left_join_single udb2 (u_key u) H2) as [v2 ->].
  destruct (left_join_single udc (u_key u) H3) as [v3 ->].
  destruct (left_join_single utc (u_key u) H4) as [v4 ->].
  destruct (left_join_single urq (u_key u) H5) as [v5 ->].
  cbn [flat_map map app uds_base]; rewrite IH; reflexivity.
Qed.

Lemma cost_query_ok (o : sorter) (cpt : Q) (jobs : list job) :
  exists out, cost_query o cpt jobs = Ok out.
Proof.
  destruct (user_daily_base_buckets cpt jobs) as (udbs & Hudbs & _).
  destruct (table_costs_ok cpt jobs) as [tcs Htcs].
  unfold cost_query; rewrite Hudbs, Htcs; eexists; reflexivity.
Qed.

Lemma cost_query_eq (o : sorter) (cpt : Q) (jobs : list job) (out : list daily_actor_summary) :
  cost_query o cpt jobs = Ok out ->
  exists udbs tcs, user_daily_base cpt jobs = Ok udbs /\ table_costs cpt jobs = Ok tcs
  /\ out = ob_sort o final_order
        (map summary_of
           (user_daily_stats udbs
              (user_hourly_breakdown o cpt jobs udbs)
              (user_daily_breakdown o cpt jobs udbs)
              (user_dataset_costs o udbs (dataset_costs tcs))
              (user_table_costs o udbs tcs)
              (user_recent_queries o cpt jobs udbs))).
Proof.
  unfold cost_query.
  destruct (user_daily_base cpt jobs) as [udbs|m]; cbn; [|discriminate].
  destruct (table_costs cpt jobs) as [tcs|m]; cbn; [|discriminate].
  intros H; injection H as <-; exists udbs, tcs; auto.
Qed.

(** Every run has one [user_daily_stats] row per row of [user_daily_base]:
    the [LEFT JOIN]s neither drop nor duplicate rows. *)
Lemma cost_query_rows (o : sorter) (Ho : valid_sorter o) (cpt : Q) (jobs : list job)
    (out : list daily_actor_summary) :
  cost_query o cpt jobs = Ok out ->
  exists udbs rs, user_daily_base cpt jobs = Ok udbs
  /\ Permutation out (map summary_of rs) /\ map uds_base rs = udbs
  /\ (forall r, In r rs -> In r (user_daily_stats udbs
              (user_hourly_breakdown o cpt jobs udbs)
              (user_daily_breakdown o cpt jobs udbs)
              (user_dataset_costs o udbs (dataset_costs (match table_costs cpt jobs with
                                                          | Ok t => t | Err _ => [] end)))
              (user_table_costs o udbs (match table_costs cpt jobs with Ok t => t | Err _ => [] end))
              (user_recent_queries o cpt jobs udbs))).
Proof.
  intros H; apply cost_query_eq in H; destruct H as (udbs & tcs & Hu & Ht & ->).
  assert (Hnd : NoDup (map u_key udbs)).
  { rewrite (user_daily_base_keys _ _ _ Hu).
    apply (group_by_keys_NoDup akey_eqb akey_of akey_eqb_iff). }
  eexists udbs, _; split; [exact Hu|split; [unfold ob_sort; apply (proj1 Ho)|split]].
  - apply user_daily_stats_base; apply rollup_keys_NoDup; exact Hnd.
  - rewrite Ht; intros r Hr; exact Hr.
Qed.

Lemma final_order_total (a b : daily_actor_summary) :
  final_order a b = true \/ final_order b a = true.
Proof.
  unfold final_order.
  destruct (Z.lt_trichotomy (k_date (s_key a)) (k_date (s_key b))) as [Hl|[He|Hl]].
  - right; apply Z.ltb_lt in Hl; rewrite Hl; reflexivity.
  - rewrite He, Z.ltb_irrefl, Z.eqb_refl; cbn.
    apply desc_opt_total.
  - left; apply Z.ltb_lt in Hl; rewrite Hl; reflexivity.
Qed.

Lemma sumZ_perm (xs ys : list Z) : Permutation xs ys -> sumZ xs = sumZ ys.
Proof. induction 1; cbn; lia. Qed.

Lemma sumZ_map_flat_map {K A} (f : A -> Z) (gs : list (K * list A)) :
  sumZ (map f (flat_map snd gs)) = sumZ (map (fun kg => sumZ (map f (snd kg))) gs).
Proof.
  induction gs as [|kg gs IH]; cbn; [reflexivity|].
  rewrite map_app, sumZ_app, IH; reflexivity.
Qed.

Lemma length_sumZ {A} (l : list A) : Z.of_nat (List.length l) = sumZ (map (fun _ => 1) l).
Proof. induction l as [|x l IH]; cbn [List.length map sumZ]; [reflexivity|lia]. Qed.

Lemma count01_bounds {A} (b : A -> bool) (l : list A) :
  0 <= sumZ (map (fun x => if b x then 1 else 0) l) <= Z.of_nat (List.length l).
Proof.
  induction l as [|x l IH]; cbn [List.length map sumZ]; [lia|].
  destruct (b x); lia.
Qed.

(** A sum over all jobs equals the sum of its per-group sums. *)
Lemma group_by_sumZ (f : job -> Z) (jobs : list job) :
  sumZ (map (fun kg => sumZ (map f (snd kg))) (group_by akey_eqb akey_of jobs))
  = sumZ (map f jobs).
Proof.
  rewrite <- sumZ_map_flat_map; apply sumZ_perm, Permutation_map.
  apply (group_by_perm akey_eqb akey_of akey_eqb_iff).
Qed.

Lemma user_daily_base_sumZ (cpt : Q) (jobs : list job) (udbs : list udb)
    (h : udb -> Z) (f : job -> Z) :
  (forall k g u, user_daily_base_row cpt k g = Ok u -> h u = sumZ (map f g)) ->
  user_daily_base cpt jobs = Ok udbs -> sumZ (map h udbs) = sumZ (map f jobs).
Proof.
  intros Hf H; rewrite <- group_by_sumZ; f_equal; symmetry.
  refine (Forall2_map_eq _ _ _ _ _ _ (user_daily_base_rows _ _ _ H)).
  intros [k g] u Hr; symmetry; exact (Hf _ _ _ Hr).
Qed.

(** A column of the output rows is, up to order, the column of [user_daily_base]. *)
Lemma cost_query_column {B} (o : sorter) (Ho : valid_sorter o) (cpt : Q) (jobs : list job)
    (out : list daily_actor_summary) (f : daily_actor_summary -> B) (g : udb -> B) :
  (forall r, f (summary_of r) = g (uds_base r)) ->
  cost_query o cpt jobs = Ok out ->
  exists udbs, user_daily_base cpt jobs = Ok udbs /\ Permutation (map f out) (map g udbs).
Proof.
  intros Hfg H; destruct (cost_query_rows o Ho cpt jobs out H) as (udbs & rs & Hu & Hp & Hb & _).
  exists udbs; split; [exact Hu|].
  rewrite (Permutation_map f Hp), map_map, <- Hb, map_map.
  erewrite map_ext; [reflexivity|exact Hfg].
Qed.

Lemma cost_query_In (o : sorter) (Ho : valid_sorter o) (cpt : Q) (jobs : list job)
    (out : list daily_actor_summary) (s : daily_actor_summary) :
  cost_query o cpt jobs = Ok out -> In s out ->
  exists udbs r, user_daily_base cpt jobs = Ok udbs /\ In (uds_base r) udbs /\ s = summary_of r.
Proof.
  intros H Hs; destruct (cost_query_rows o Ho cpt jobs out H) as (udbs & rs & Hu & Hp & Hb & _).
  apply (Permutation_in _ Hp), in_map_iff in Hs; destruct Hs as (r & <- & Hr).
  exists udbs, r; split; [exact Hu|split; [|reflexivity]].
  rewrite <- Hb; apply in_map; exact Hr.
Qed.

Lemma round2_bounds (x : Q) : (0 <= x <= 100)%Q -> (0 <= round2 x <= 100)%Q.
Proof.
  intros [H0 H1]; unfold round2, round_half_away.
  assert (Hle : Qle_bool 0 (x * 100) = true) by (apply Qle_bool_iff; lra).
  rewrite Hle.
  assert (Hz0 : 0 <= Qfloor (x * 100 + (1 # 2))).
  { change 0 with (Qfloor 0); apply Qfloor_resp_le; lra. }
  assert (Hz1 : Qfloor (x * 100 + (1 # 2)) <= 10000).
  { change 10000 with (Qfloor (10000 + (1 # 2))); apply Qfloor_resp_le; lra. }
  rewrite Zle_Qle in Hz0, Hz1; change (inject_Z 0) with 0%Q in Hz0; split.
  - apply Qle_shift_div_l; [lra|]; rewrite Qmult_0_l; exact Hz0.
  - apply Qle_shift_div_r; [lra|]; exact Hz1.
Qed.

Lemma cache_hit_percentage_bounds (g : list job) (pct : option Q) :
  g <> [] -> cache_hit_percentage (cache_hit_count g) (Z.of_nat (List.length g)) = Ok pct ->
  exists p, pct = Some p /\ (0 <= p <= 100)%Q.
Proof.
  intros Hg H; assert (Hn : Z.of_nat (List.length g) <> 0)
    by (destruct g; [congruence|cbn [List.length]; lia]).
  rewrite cache_hit_percentage_pos in H by exact Hn; injection H as <-.
  eexists; split; [reflexivity|]; apply round2_bounds.
  pose proof (count01_bounds cache_hit g) as Hb; fold (cache_hit_count g) in Hb.
  assert (Hn0 : (0 < inject_Z (Z.of_nat (List.length g)))%Q)
    by (change 0%Q with (inject_Z 0); rewrite <- Zlt_Qlt; lia).
  destruct Hb as [Hb0 Hb1]; rewrite Zle_Qle in Hb0, Hb1;
    change (inject_Z 0) with 0%Q in Hb0; split.
  - apply Qmult_le_0_compat; [|lra]. apply Qle_shift_div_l; [exact Hn0|lra].
  - assert (Hq : (inject_Z (cache_hit_count g) / inject_Z (Z.of_nat (List.length g)) <= 1)%Q)
      by (apply Qle_shift_div_r; [exact Hn0|lra]).
    assert (Hq0 : (0 <= inject_Z (cache_hit_count g) / inject_Z (Z.of_nat (List.length g)))%Q)
      by (apply Qle_shift_div_l; [exact Hn0|lra]).
    nra.
Qed.

Lemma cost_query_column_sum (o : sorter) (Ho : valid_sorter o) (cpt : Q) (jobs : list job)
    (out : list daily_actor_summary) (f : daily_actor_summary -> Z) (g : udb -> Z) (h : job -> Z) :
  (forall r, f (summary_of r) = g (uds_base r)) ->
  (forall k gr u, user_daily_base_row cpt k gr = Ok u -> g u = sumZ (map h gr)) ->
  cost_query o cpt jobs = Ok out -> sumZ (map f out) = sumZ (map h jobs).
Proof.
  intros Hfg Hg H; destruct (cost_query_column o Ho cpt jobs out f g Hfg H) as (udbs & Hu & Hp).
  rewrite (sumZ_perm _ _ Hp); exact (user_daily_base_sumZ cpt jobs udbs g h Hg Hu).
Qed.

(** X1: for every valid [ORDER BY] engine the query succeeds and returns
    exactly one row per [(date, project_id, user_email, service_account)]
    key of the input jobs, with no key repeated and no other key, sorted by
    [date DESC, estimated_cost_usd DESC]. *)
Theorem cost_query_one_row_per_actor_day (o : sorter) (Ho : valid_sorter o) (cpt : Q)
    (jobs : list job) :
  exists out, cost_query o cpt jobs = Ok out
  /\ NoDup (map s_key out)
  /\ (forall k, In k (map s_key out) <-> exists j, In j jobs /\ akey_of j = k)
  /\ Sorted (fun a b => final_order a b = true) out.
Proof.
  destruct (cost_query_ok o cpt jobs) as [out H]; exists out; split; [exact H|].
  destruct (cost_query_column o Ho cpt jobs out s_key u_key (fun _ => eq_refl) H)
    as (udbs & Hu & Hp).
  rewrite (user_daily_base_keys _ _ _ Hu) in Hp.
  split; [|split].
  - eapply Permutation_NoDup; [symmetry; exact Hp|].
    apply (group_by_keys_NoDup akey_eqb akey_of akey_eqb_iff).
  - intros k; split; intros Hk.
    + apply (Permutation_in _ Hp), in_map_iff in Hk; destruct Hk as ([k' g] & Hk' & Hkg).
      cbn in Hk'; subst k'.
      apply (group_by_In akey_eqb akey_of akey_eqb_iff) in Hkg; apply Hkg.
    + apply (Permutation_in _ (Permutation_sym Hp)), in_map_iff.
      exists (k, filter (fun y => akey_eqb (akey_of y) k) jobs); split; [reflexivity|].
      apply (group_by_In akey_eqb akey_of akey_eqb_iff); split; [exact Hk|reflexivity].
  - apply cost_query_eq in H; destruct H as (udbs' & tcs & _ & _ & ->).
    unfold ob_sort; apply (proj2 Ho); exact final_order_total.
Qed.

(** X2: the output rows partition the jobs: summed over all rows, the
    query, cache-hit and error counts and the processed and billed bytes
    equal the totals over the input jobs. *)
Theorem cost_query_conserves_totals (o : sorter) (Ho : valid_sorter o) (cpt : Q)
    (jobs : list job) :
  exists out, cost_query o cpt jobs = Ok out
  /\ sumZ (map s_query_count out) = Z.of_nat (List.length jobs)
  /\ sumZ (map s_cache_hit_count out) = cache_hit_count jobs
  /\ sumZ (map s_error_count out) = sumZ (map (fun j => if has_error_result j then 1 else 0) jobs)
  /\ sumZ (map s_total_bytes_processed out) = sumZ (map total_bytes_processed jobs)
  /\ sumZ (map s_total_bytes_billed out) = sumZ (map total_bytes_billed jobs).
Proof.
  destruct (cost_query_ok o cpt jobs) as [out H]; exists out; split; [exact H|].
  rewrite length_sumZ; unfold cache_hit_count.
  repeat split; (eapply cost_query_column_sum; [exact Ho| |
      intros k gr u Hr; apply user_daily_base_row_ok in Hr;
      destruct Hr as (_ & Hq & Hc & He & Hbp & Hbb & _)|exact H]);
    [intros r; reflexivity|rewrite Hq; apply length_sumZ
    |intros r; reflexivity|exact Hc
    |intros r; reflexivity|exact He
    |intros r; reflexivity|exact Hbp
    |intros r; reflexivity|exact Hbb].
Qed.

(** X3: every output row counts at least one job; its cache-hit and error
    counts lie between 0 and its query count; its cache-hit percentage is
    never [NULL] and lies between 0 and 100. *)
Theorem cost_query_row_bounds (o : sorter) (Ho : valid_sorter o) (cpt : Q) (jobs : list job) :
  exists out, cost_query o cpt jobs = Ok out
  /\ forall s, In s out ->
       1 <= s_query_count s
       /\ 0 <= s_cache_hit_count s <= s_query_count s
       /\ 0 <= s_error_count s <= s_query_count s
       /\ exists p, s_cache_hit_percentage s = Some p /\ (0 <= p <= 100)%Q.
Proof.
  destruct (cost_query_ok o cpt jobs) as [out H]; exists out; split; [exact H|].
  intros s Hs; destruct (cost_query_In o Ho cpt jobs out s H Hs) as (udbs & r & Hu & Hr & ->).
  destruct (user_daily_base_In cpt jobs udbs _ Hu Hr) as [Hrow (j & Hj & Hk)].
  set (g := filter (fun j => akey_eqb (akey_of j) (u_key (uds_base r))) jobs) in Hrow.
  assert (Hg : g <> []).
  { intros Hg; assert (Hin : In j g).
    { apply filter_In; split; [exact Hj|]; apply akey_eqb_iff; exact Hk. }
    rewrite Hg in Hin; destruct Hin. }
  apply user_daily_base_row_ok in Hrow; destruct Hrow as (_ & Hq & Hc & He & _ & _ & Hp).
  unfold summary_of; cbn [s_query_count s_cache_hit_count s_error_count s_cache_hit_percentage].
  rewrite Hq, Hc, He.
  pose proof (count01_bounds cache_hit g) as Hb1; fold (cache_hit_count g) in Hb1.
  pose proof (count01_bounds has_error_result g) as Hb2.
  assert (Hn : (1 <= List.length g)%nat) by (destruct g; [congruence|cbn; lia]).
  split; [lia|split; [lia|split; [lia|]]].
  exact (cache_hit_percentage_bounds g _ Hg Hp).
Qed.

Lemma cost_query_one_row_per_actor_day_witness :
  valid_sorter isort_sorter /\
  exists out, cost_query isort_sorter 5 jobs_mixed = Ok out
  /\ NoDup (map s_key out)
  /\ (forall k, In k (map s_key out) <-> exists j, In j jobs_mixed /\ akey_of j = k)
  /\ Sorted (fun a b => final_order a b = true) out.
Proof.
  split; [exact isort_sorter_valid|].
  exact (cost_query_one_row_per_actor_day isort_sorter isort_sorter_valid 5 jobs_mixed).
Defined.

Lemma cost_query_conserves_totals_witness :
  valid_sorter isort_sorter /\
  exists out, cost_query isort_sorter 5 jobs_mixed = Ok out
  /\ sumZ (map s_query_count out) = Z.of_nat (List.length jobs_mixed)
  /\ sumZ (map s_cache_hit_count out) = cache_hit_count jobs_mixed
  /\ sumZ (map s_error_count out)
     = sumZ (map (fun j => if has_error_result j then 1 else 0) jobs_mixed)
  /\ sumZ (map s_total_bytes_processed out) = sumZ (map total_bytes_processed jobs_mixed)
  /\ sumZ (map s_total_bytes_billed out) = sumZ (map total_bytes_billed jobs_mixed).
Proof.
  split; [exact isort_sorter_valid|].
  exact (cost_query_conserves_totals isort_sorter isort_sorter_valid 5 jobs_mixed).
Defined.

Lemma cost_query_row_bounds_witness :
  valid_sorter isort_sorter /\
  exists out, cost_query isort_sorter 5 jobs_mixed = Ok out
  /\ forall s, In s out ->
       1 <= s_query_count s
       /\ 0 <= s_cache_hit_count s <= s_query_count s
       /\ 0 <= s_error_count s <= s_query_count s
       /\ exists p, s_cache_hit_percentage s = Some p /\ (0 <= p <= 100)%Q.
Proof.
  split; [exact isort_sorter_valid|].
  exact (cost_query_row_bounds isort_sorter isort_sorter_valid 5 jobs_mixed).
Defined.

(* ------------------------------------------------------------------ *)
(** ** The array columns of the output rows *)

Lemma ob_sort_nil (o : sorter) (Ho : valid_sorter o) {A} (le : A -> A -> bool) :
  ob_sort o le [] = [].
Proof. apply Permutation_nil, Permutation_sym, (proj1 Ho). Qed.

(** The array a rollup contributes to a row of [user_daily_base], once
    [result_array] has turned a [NULL] into an empty array. *)
Lemma rollup_array {R E} (o : sorter) (Ho : valid_sorter o) udbs (rkey : R -> akey) le limit
    (mk : R -> E) rows u v :
  In u udbs -> In v (left_join (rollup o udbs rkey le limit mk rows) (u_key u)) ->
  result_array v
  = apply_limit limit (map mk (ob_sort o le (filter (fun r => akey_join (rkey r) (u_key u)) rows))).
Proof.
  intros Hu Hv; destruct (in_left_join _ _ _ Hv) as [[-> Hnone] | (k' & l & -> & Hkl & Hj)].
  - destruct (filter (fun r => akey_join (rkey r) (u_key u)) rows) as [|x xs] eqn:Hf.
    + rewrite (ob_sort_nil o Ho); destruct limit as [[|n]|]; reflexivity.
    + exfalso.
      assert (Hx : In x (filter (fun r => akey_join (rkey r) (u_key u)) rows)) by (rewrite Hf; left; reflexivity).
      apply filter_In in Hx; destruct Hx as [_ Hx].
      destruct (rollup_has_entry o udbs rkey le limit mk rows u Hu) as [l Hl];
        [rewrite Hf; discriminate|].
      specialize (Hnone _ Hl); cbn [fst] in Hnone.
      destruct (k_user_email (u_key u)) eqn:He.
      * rewrite akey_join_refl in Hnone by congruence; discriminate.
      * rewrite akey_join_null_r in Hx by exact He; discriminate.
  - apply akey_join_eq in Hj; subst k'.
    apply in_rollup in Hkl; destruct Hkl as (u' & _ & _ & _ & ->); reflexivity.
Qed.

(** Every output row: its base row in [user_daily_base] and its five arrays,
    each the sorted (and possibly truncated) rows of its rollup that carry
    the row's key. *)
Lemma cost_query_summary (o : sorter) (Ho : valid_sorter o) (cpt : Q) (jobs : list job)
    (out : list daily_actor_summary) (s : daily_actor_summary) :
  cost_query o cpt jobs = Ok out -> In s out ->
  exists udbs tcs r, user_daily_base cpt jobs = Ok udbs /\ table_costs cpt jobs = Ok tcs
  /\ In (uds_base r) udbs /\ s = summary_of r
  /\ s_hourly_breakdown s
     = map snd (ob_sort o (fun a b => asc_Z he_hour_of_day (snd a) (snd b))
                  (filter (fun x => akey_join (fst x) (s_key s)) (hourly_aggregates cpt jobs)))
  /\ s_daily_breakdown s
     = map snd (ob_sort o (fun a b => asc_Z we_day_of_week (snd a) (snd b))
                  (filter (fun x => akey_join (fst x) (s_key s)) (weekday_aggregates cpt jobs)))
  /\ s_dataset_costs s
     = map dataset_entry_of
         (ob_sort o (fun a b => desc_opt (dc_dataset_cost_usd a) (dc_dataset_cost_usd b))
            (filter (fun dc => akey_join (dc_key dc) (s_key s)) (dataset_costs tcs)))
  /\ s_table_costs s
     = firstn 100 (map table_entry_of
         (ob_sort o (fun a b => desc_opt (tc_table_cost_usd a) (tc_table_cost_usd b))
            (filter (fun tc => akey_join (tc_key tc) (s_key s)) tcs)))
  /\ s_recent_queries s
     = firstn 100 (map snd (ob_sort o (fun a b => desc_Z qe_creation_time (snd a) (snd b))
            (filter (fun x => akey_join (fst x) (s_key s)) (query_details cpt jobs)))).
Proof.
  intros H Hs; apply cost_query_eq in H; destruct H as (udbs & tcs & Hu & Ht & ->).
  apply (in_ob_sort o Ho), in_map_iff in Hs; destruct Hs as (r & <- & Hr).
  destruct (in_user_daily_stats _ _ _ _ _ _ r Hr) as (Hb & H1 & H2 & H3 & H4 & H5).
  exists udbs, tcs, r; split; [exact Hu|split; [exact Ht|split; [exact Hb|split; [reflexivity|]]]].
  unfold summary_of; cbn [s_key s_hourly_breakdown s_daily_breakdown s_dataset_costs
    s_table_costs s_recent_queries].
  split; [|split; [|split; [|split]]].
  - exact (rollup_array o Ho _ _ _ _ _ _ _ _ Hb H1).
  - exact (rollup_array o Ho _ _ _ _ _ _ _ _ Hb H2).
  - exact (rollup_array o Ho _ _ _ _ _ _ _ _ Hb H3).
  - exact (rollup_array o Ho _ _ _ _ _ _ _ _ Hb H4).
  - exact (rollup_array o Ho _ _ _ _ _ _ _ _ Hb H5).
Qed.

Lemma table_detail_eqb_iff (a b : table_detail) : table_detail_eqb a b = true <-> a = b.
Proof.
  destruct a as [p1 d1 t1], b as [p2 d2 t2]; unfold table_detail_eqb; cbn.
  rewrite !andb_true_iff, !String.eqb_eq; split.
  - intros [[-> ->] ->]; reflexivity.
  - intros H; injection H as -> -> ->; auto.
Qed.

(** For a [GROUP BY] on an [akey] and one more column: the boolean key
    equality of the goal's [group_by] decides equality. *)
Ltac pair_eqb_iff H eqb :=
  assert (H : forall a b, eqb a b = true <-> a = b)
    by (intros [k1 h1] [k2 h2]; cbn;
        rewrite andb_true_iff, akey_eqb_iff;
        first [rewrite Z.eqb_eq | rewrite String.eqb_eq | rewrite table_detail_eqb_iff];
        split; [intros [-> ->]; reflexivity|intros Heq; injection Heq as -> ->; auto]).

Ltac pair_group_by_In H :=
  match goal with
  | |- context [group_by ?eqb _ _] => pair_eqb_iff H eqb
  | _ : context [group_by ?eqb _ _] |- _ => pair_eqb_iff H eqb
  end.

Lemma hourly_aggregates_In (cpt : Q) (jobs : list job) (j : job) :
  In j jobs -> exists e, In (akey_of j, e) (hourly_aggregates cpt jobs).
Proof.
  intros Hj; unfold hourly_aggregates.
  eexists; apply in_map_iff.
  exists ((akey_of j, hour_of_day j),
          filter (fun y => akey_eqb (akey_of y) (akey_of j) && Z.eqb (hour_of_day y) (hour_of_day j))
                 jobs).
  split; [reflexivity|].
  pair_group_by_In Hiff; apply (group_by_In _ _ Hiff).
  split; [exists j; split; [exact Hj|reflexivity]|reflexivity].
Qed.

(** The arrays of a row with a [NULL] [user_email] (shared by the dashboard's views). *)
Lemma cost_query_null_email_shape (o : sorter) (Ho : valid_sorter o) (cpt : Q)
    (jobs : list job) :
  exists out, cost_query o cpt jobs = Ok out
  /\ forall s, In s out ->
       (k_user_email (s_key s) = None <-> s_hourly_breakdown s = [])
       /\ (k_user_email (s_key s) = None ->
           s_daily_breakdown s = [] /\ s_dataset_costs s = [] /\ s_table_costs s = []
           /\ s_recent_queries s = []).
Proof.
  destruct (cost_query_ok o cpt jobs) as [out H]; exists out; split; [exact H|].
  intros s Hs.
  destruct (cost_query_summary o Ho cpt jobs out s H Hs)
    as (udbs & tcs & r & Hu & Ht & Hb & Hsr & H1 & H2 & H3 & H4 & H5).
  rewrite H1, H2, H3, H4, H5.
  assert (Hnull : k_user_email (s_key s) = None -> forall {R} (rkey : R -> akey) (rows : list R),
             filter (fun x => akey_join (rkey x) (s_key s)) rows = []).
  { intros He R rkey rows; apply filter_all_false; intros x; apply akey_join_null_r; exact He. }
  split.
  - split.
    + intros He; rewrite (Hnull He); rewrite (ob_sort_nil o Ho); reflexivity.
    + intros Hnil; destruct (k_user_email (s_key s)) as [e|] eqn:He; [exfalso|reflexivity].
      destruct (user_daily_base_In cpt jobs udbs _ Hu Hb) as [_ (j & Hj & Hk)].
      destruct (hourly_aggregates_In cpt jobs j Hj) as [x Hx].
      assert (Hin : In (akey_of j, x)
                      (filter (fun x => akey_join (fst x) (s_key s)) (hourly_aggregates cpt jobs))).
      { apply filter_In; split; [exact Hx|]; cbn [fst].
        rewrite Hsr, Hk; unfold summary_of; cbn [s_key]; apply akey_join_refl.
        rewrite <- Hk; subst s; unfold summary_of in He; cbn in He; rewrite <- Hk in He; congruence. }
      apply (Permutation_in _ (Permutation_sym (proj1 Ho _ (fun a b => asc_Z he_hour_of_day (snd a) (snd b)) _))) in Hin.
      unfold ob_sort in Hnil; apply (in_map snd) in Hin; rewrite Hnil in Hin; destruct Hin.
  - intros He; rewrite !(Hnull He), !(ob_sort_nil o Ho); repeat split.
Qed.

(** X4: the arrays of a row are empty exactly when its [user_email] is
    [NULL]: every rollup joins on [x.user_email = udb.user_email], which is
    never TRUE for a [NULL] email, so such a row keeps its counts but loses
    all five arrays; with an email the hourly breakdown is never empty. *)
Theorem cost_query_null_email_arrays (o : sorter) (Ho : valid_sorter o) (cpt : Q)
    (jobs : list job) :
  exists out, cost_query o cpt jobs = Ok out
  /\ forall s, In s out ->
       (k_user_email (s_key s) = None <-> s_hourly_breakdown s = [])
       /\ (k_user_email (s_key s) = None ->
           s_daily_breakdown s = [] /\ s_dataset_costs s = [] /\ s_table_costs s = []
           /\ s_recent_queries s = []).
Proof. exact (cost_query_null_email_shape o Ho cpt jobs). Qed.

Lemma cost_query_null_email_arrays_witness :
  valid_sorter isort_sorter /\
  exists out, cost_query isort_sorter 5 jobs_mixed = Ok out
  /\ forall s, In s out ->
       (k_user_email (s_key s) = None <-> s_hourly_breakdown s = [])
       /\ (k_user_email (s_key s) = None ->
           s_daily_breakdown s = [] /\ s_dataset_costs s = [] /\ s_table_costs s = []
           /\ s_recent_queries s = []).
Proof.
  split; [exact isort_sorter_valid|].
  exact (cost_query_null_email_arrays isort_sorter isort_sorter_valid 5 jobs_mixed).
Defined.

Lemma filter_join_groups {K E} (F : (akey * K) * list job -> akey * E)
    (gs : list ((akey * K) * list job)) (k : akey) :
  k_user_email k <> None -> (forall kg, fst (F kg) = fst (fst kg)) ->
  filter (fun x => akey_join (fst x) k) (map F gs)
  = map F (filter (fun kg => akey_eqb (fst (fst kg)) k) gs).
Proof.
  intros He HF; rewrite filter_map_comm; f_equal; apply filter_ext; intros kg.
  rewrite HF; apply akey_join_eqb; exact He.
Qed.

Lemma NoDup_snd_fst {K B C} (k : K) (l : list ((K * B) * C)) :
  NoDup (map fst l) -> (forall x, In x l -> fst (fst x) = k) ->
  NoDup (map (fun x => snd (fst x)) l).
Proof.
  induction l as [|x l IH]; cbn; intros Hnd Hk; [constructor|].
  apply NoDup_cons_iff in Hnd; destruct Hnd as [Hx Hnd]; constructor.
  - intros Hin; apply in_map_iff in Hin; destruct Hin as (y & Hy & Hin).
    apply Hx, in_map_iff; exists y; split; [|exact Hin].
    pose proof (Hk _ (or_intror Hin)) as Hky; pose proof (Hk _ (or_introl eq_refl)) as Hkx.
    destruct x as [[kx bx] cx], y as [[ky b_y] cy]; cbn in *; subst; reflexivity.
  - apply IH; [exact Hnd|intros y Hy; apply Hk; right; exact Hy].
Qed.

(** The groups of a [GROUP BY key, column] that carry a given key. *)
Lemma sub_groups (sub : job -> Z) (jobs : list job) (k : akey) :
  let gb := group_by (fun '(k1, h1) '(k2, h2) => akey_eqb k1 k2 && Z.eqb h1 h2)
                     (fun j => (akey_of j, sub j)) jobs in
  let sel := filter (fun kg => akey_eqb (fst (fst kg)) k) gb in
  NoDup (map (fun kg => snd (fst kg)) sel)
  /\ (forall kg, In kg sel ->
        fst (fst kg) = k /\ exists y, In y jobs /\ akey_of y = k /\ sub y = snd (fst kg))
  /\ Permutation (flat_map snd sel) (filter (fun y => akey_eqb (akey_of y) k) jobs).
Proof.
  pair_group_by_In Hiff; intros gb sel.
  assert (Hsel : forall kg, In kg sel ->
        fst (fst kg) = k /\ exists y, In y jobs /\ akey_of y = k /\ sub y = snd (fst kg)).
  { intros [[k' h] g] Hkg; apply filter_In in Hkg; destruct Hkg as [Hin Hp].
    apply akey_eqb_iff in Hp; cbn in Hp |- *; subst k'.
    apply (group_by_In _ _ Hiff) in Hin; destruct Hin as [(y & Hy & Hky) _].
    injection Hky as Hk1 Hk2; split; [reflexivity|exists y; auto]. }
  split; [|split; [exact Hsel|]].
  - apply (NoDup_snd_fst k); [apply NoDup_map_filter, (group_by_keys_NoDup _ _ Hiff)|].
    intros x Hx; apply Hsel; exact Hx.
  - exact (group_by_filter_perm _ _ Hiff jobs (fun kh => akey_eqb (fst kh) k)).
Qed.

Lemma sumZ_ob_sort {A B} (o : sorter) (Ho : valid_sorter o) (le : A -> A -> bool)
    (f : B -> Z) (g : A -> B) (l : list A) :
  sumZ (map f (map g (ob_sort o le l))) = sumZ (map (fun x => f (g x)) l).
Proof.
  rewrite map_map; apply sumZ_perm, Permutation_map, (proj1 Ho).
Qed.

Lemma hour_of_day_range (j : job) : 0 <= hour_of_day j <= 23.
Proof.
  unfold hour_of_day.
  pose proof (Z.mod_pos_bound (creation_time j) 86400 ltac:(lia)) as Hm.
  split; [apply Z.div_pos; lia|].
  apply Z.lt_succ_r, Z.div_lt_upper_bound; lia.
Qed.

Lemma filter_key_query_count (cpt : Q) (jobs : list job) (udbs : list udb) (u : udb) :
  user_daily_base cpt jobs = Ok udbs -> In u udbs ->
  u_query_count u = Z.of_nat (List.length (filter (fun j => akey_eqb (akey_of j) (u_key u)) jobs))
  /\ u_estimated_cost_usd u
     = cost_usd cpt (Some (inject_Z (sumZ (map total_bytes_billed
                                         (filter (fun j => akey_eqb (akey_of j) (u_key u)) jobs))))).
Proof.
  intros Hu Hb; destruct (user_daily_base_In cpt jobs udbs u Hu Hb) as [Hrow _].
  pose proof (user_daily_base_row_ok _ _ _ _ Hrow) as (_ & Hq & _).
  split; [exact Hq|].
  unfold user_daily_base_row in Hrow.
  destruct (cache_hit_percentage _ _) as [pct|m]; cbn in Hrow; [|discriminate].
  injection Hrow as <-; reflexivity.
Qed.

(** The hourly breakdown of a row (shared by the dashboard's views). *)
Lemma cost_query_hourly_shape (o : sorter) (Ho : valid_sorter o) (cpt : Q)
    (jobs : list job) :
  exists out, cost_query o cpt jobs = Ok out
  /\ forall s, In s out -> k_user_email (s_key s) <> None ->
       Sorted (fun a b => asc_Z he_hour_of_day a b = true) (s_hourly_breakdown s)
       /\ NoDup (map he_hour_of_day (s_hourly_breakdown s))
       /\ Forall (fun e => 0 <= he_hour_of_day e <= 23) (s_hourly_breakdown s)
       /\ sumZ (map he_hourly_queries (s_hourly_breakdown s)) = s_query_count s.
Proof.
  destruct (cost_query_ok o cpt jobs) as [out H]; exists out; split; [exact H|].
  intros s Hs He.
  destruct (cost_query_summary o Ho cpt jobs out s H Hs)
    as (udbs & tcs & r & Hu & _ & Hb & Hsr & H1 & _).
  assert (Hk : s_key s = u_key (uds_base r)) by (rewrite Hsr; reflexivity).
  assert (Hq : s_query_count s = u_query_count (uds_base r)) by (rewrite Hsr; reflexivity).
  rewrite H1; unfold hourly_aggregates.
  rewrite filter_join_groups by (exact He || (intros [[? ?] ?]; reflexivity)).
  destruct (sub_groups hour_of_day jobs (s_key s)) as (Hnd & Hsel & Hperm).
  cbv zeta in Hnd, Hsel, Hperm.
  split; [|split; [|split]].
  - apply Sorted_map_rel; unfold ob_sort; apply (proj2 Ho).
    intros a b; unfold asc_Z; destruct (Z.leb_spec (he_hour_of_day (snd a)) (he_hour_of_day (snd b)));
      [left; reflexivity|right; apply Z.leb_le; lia].
  - eapply Permutation_NoDup; [|exact Hnd].
    rewrite !map_map; symmetry; etransitivity; [apply Permutation_map, (proj1 Ho)|].
    rewrite map_map; apply Permutation_refl'; apply map_ext; intros [[k' h] g]; reflexivity.
  - apply Forall_forall; intros e Hin.
    apply in_map_iff in Hin; destruct Hin as (x & <- & Hin).
    apply (in_ob_sort o Ho), in_map_iff in Hin; destruct Hin as ([[k' h] g] & <- & Hin).
    destruct (Hsel _ Hin) as (_ & y & _ & _ & Hy); cbn in Hy |- *; subst h.
    apply hour_of_day_range.
  - rewrite sumZ_ob_sort by exact Ho.
    transitivity (sumZ (map (fun _ => 1) (flat_map snd
                     (filter (fun kg => akey_eqb (fst (fst kg)) (s_key s))
                        (group_by (fun '(k1, h1) '(k2, h2) => akey_eqb k1 k2 && Z.eqb h1 h2)
                           (fun j => (akey_of j, hour_of_day j)) jobs))))).
    + rewrite sumZ_map_flat_map, map_map; f_equal; apply map_ext; intros [[k' h] g]; cbn.
      apply length_sumZ.
    + rewrite (sumZ_perm _ _ (Permutation_map _ Hperm)), <- length_sumZ, Hq, Hk.
      symmetry; apply (filter_key_query_count cpt jobs udbs _ Hu Hb).
Qed.

(** X5: with a non-[NULL] email, a row's hourly breakdown lists each hour
    of the day (0 to 23) at most once, in ascending order, and its
    per-hour query counts add up to the row's query count. *)
Theorem cost_query_hourly_breakdown (o : sorter) (Ho : valid_sorter o) (cpt : Q)
    (jobs : list job) :
  exists out, cost_query o cpt jobs = Ok out
  /\ forall s, In s out -> k_user_email (s_key s) <> None ->
       Sorted (fun a b => asc_Z he_hour_of_day a b = true) (s_hourly_breakdown s)
       /\ NoDup (map he_hour_of_day (s_hourly_breakdown s))
       /\ Forall (fun e => 0 <= he_hour_of_day e <= 23) (s_hourly_breakdown s)
       /\ sumZ (map he_hourly_queries (s_hourly_breakdown s)) = s_query_count s.
Proof. exact (cost_query_hourly_shape o Ho cpt jobs). Qed.

Lemma cost_query_hourly_breakdown_witness :
  valid_sorter isort_sorter /\
  exists out, cost_query isort_sorter 5 jobs_mixed = Ok out
  /\ forall s, In s out -> k_user_email (s_key s) <> None ->
       Sorted (fun a b => asc_Z he_hour_of_day a b = true) (s_hourly_breakdown s)
       /\ NoDup (map he_hour_of_day (s_hourly_breakdown s))
       /\ Forall (fun e => 0 <= he_hour_of_day e <= 23) (s_hourly_breakdown s)
       /\ sumZ (map he_hourly_queries (s_hourly_breakdown s)) = s_query_count s.
Proof.
  split; [exact isort_sorter_valid|].
  exact (cost_query_hourly_breakdown isort_sorter isort_sorter_valid 5 jobs_mixed).
Defined.

Lemma NoDup_const_single {A B} (f : A -> B) (c : B) (l : list A) :
  NoDup (map f l) -> (forall x, In x l -> f x = c) -> l <> [] -> exists x, l = [x].
Proof.
  intros Hnd Hc Hne; destruct l as [|x [|y t]]; [congruence|exists x; reflexivity|exfalso].
  cbn in Hnd; apply NoDup_cons_iff in Hnd; destruct Hnd as [Hx _]; apply Hx.
  rewrite (Hc x (or_introl eq_refl)), <- (Hc y (or_intror (or_introl eq_refl))); left; reflexivity.
Qed.

Lemma ob_sort_single (o : sorter) (Ho : valid_sorter o) {A} (le : A -> A -> bool) (x : A) :
  ob_sort o le [x] = [x].
Proof. apply Permutation_length_1_inv, Permutation_sym, (proj1 Ho). Qed.

(** The weekday breakdown of a row (shared by the dashboard's views). *)
Lemma cost_query_daily_shape (o : sorter) (Ho : valid_sorter o) (cpt : Q)
    (jobs : list job) :
  exists out, cost_query o cpt jobs = Ok out
  /\ forall s, In s out -> k_user_email (s_key s) <> None ->
       s_daily_breakdown s
       = [ {| we_day_of_week := (k_date (s_key s) + 4) mod 7 + 1;
              we_daily_queries := s_query_count s;
              we_daily_cost := s_estimated_cost_usd s |} ].
Proof.
  destruct (cost_query_ok o cpt jobs) as [out H]; exists out; split; [exact H|].
  intros s Hs He.
  destruct (cost_query_summary o Ho cpt jobs out s H Hs)
    as (udbs & tcs & r & Hu & _ & Hb & Hsr & _ & H2 & _).
  assert (Hk : s_key s = u_key (uds_base r)) by (rewrite Hsr; reflexivity).
  assert (Hq : s_query_count s = u_query_count (uds_base r)) by (rewrite Hsr; reflexivity).
  assert (Hc : s_estimated_cost_usd s = u_estimated_cost_usd (uds_base r)) by (rewrite Hsr; reflexivity).
  destruct (filter_key_query_count cpt jobs udbs _ Hu Hb) as [Hq' Hc'].
  destruct (user_daily_base_In cpt jobs udbs _ Hu Hb) as [_ (j & Hj & Hkj)].
  rewrite <- Hk in Hq', Hc', Hkj.
  rewrite H2; unfold weekday_aggregates.
  rewrite filter_join_groups by (exact He || (intros [[? ?] ?]; reflexivity)).
  destruct (sub_groups day_of_week jobs (s_key s)) as (Hnd & Hsel & Hperm).
  cbv zeta in Hnd, Hsel, Hperm.
  set (sel := filter (fun kg => akey_eqb (fst (fst kg)) (s_key s))
                (group_by (fun '(k1, h1) '(k2, h2) => akey_eqb k1 k2 && Z.eqb h1 h2)
                   (fun j => (akey_of j, day_of_week j)) jobs)) in *.
  assert (Hday : forall kg, In kg sel -> snd (fst kg) = (k_date (s_key s) + 4) mod 7 + 1).
  { intros kg Hkg; destruct (Hsel kg Hkg) as (_ & y & _ & Hy & <-).
    unfold day_of_week; rewrite <- Hy; reflexivity. }
  assert (Hne : sel <> []).
  { intros Hnil; rewrite Hnil in Hperm; cbn in Hperm.
    apply Permutation_nil in Hperm.
    assert (Hin : In j (filter (fun y => akey_eqb (akey_of y) (s_key s)) jobs))
      by (apply filter_In; split; [exact Hj|apply akey_eqb_iff; exact Hkj]).
    rewrite Hperm in Hin; destruct Hin. }
  destruct (NoDup_const_single _ _ sel Hnd Hday Hne) as [[[k' d] g] Hone].
  assert (Hin1 : In (k', d, g) sel) by (rewrite Hone; left; reflexivity).
  pose proof (Hsel _ Hin1) as [Hk' _]; pose proof (Hday _ Hin1) as Hd.
  cbn in Hk', Hd; subst k' d.
  rewrite Hone in Hperm |- *; cbn in Hperm; rewrite app_nil_r in Hperm.
  cbn [map]; rewrite (ob_sort_single o Ho); cbn [map snd].
  rewrite Hq, Hq', Hc, Hc', (Permutation_length Hperm).
  rewrite (sumZ_perm _ _ (Permutation_map total_bytes_billed Hperm)); reflexivity.
Qed.

(** X6: with a non-[NULL] email, a row's weekday breakdown holds exactly
    one entry: all jobs of a row share its date, so [GROUP BY ...,
    day_of_week] yields one group, whose weekday is that of the row's date
    and whose query count and cost are the row's own. *)
Theorem cost_query_daily_breakdown_single (o : sorter) (Ho : valid_sorter o) (cpt : Q)
    (jobs : list job) :
  exists out, cost_query o cpt jobs = Ok out
  /\ forall s, In s out -> k_user_email (s_key s) <> None ->
       s_daily_breakdown s
       = [ {| we_day_of_week := (k_date (s_key s) + 4) mod 7 + 1;
              we_daily_queries := s_query_count s;
              we_daily_cost := s_estimated_cost_usd s |} ].
Proof. exact (cost_query_daily_shape o Ho cpt jobs). Qed.

Lemma cost_query_daily_breakdown_single_witness :
  valid_sorter isort_sorter /\
  exists out, cost_query isort_sorter 5 jobs_mixed = Ok out
  /\ forall s, In s out -> k_user_email (s_key s) <> None ->
       s_daily_breakdown s
       = [ {| we_day_of_week := (k_date (s_key s) + 4) mod 7 + 1;
              we_daily_queries := s_query_count s;
              we_daily_cost := s_estimated_cost_usd s |} ].
Proof.
  split; [exact isort_sorter_valid|].
  exact (cost_query_daily_breakdown_single isort_sorter isort_sorter_valid 5 jobs_mixed).
Defined.

Lemma query_details_filter_perm (o : sorter) (Ho : valid_sorter o) (cpt : Q) (jobs : list job)
    (k : akey) le :
  k_user_email k <> None ->
  Permutation (map snd (ob_sort o le (filter (fun x => akey_join (fst x) k) (query_details cpt jobs))))
              (map snd (query_details cpt (filter (fun j => akey_eqb (akey_of j) k) jobs))).
Proof.
  intros He; etransitivity; [apply Permutation_map, (proj1 Ho)|].
  unfold query_details; rewrite filter_map_comm; apply Permutation_refl'; f_equal; f_equal.
  apply filter_ext; intros j; cbn [fst]; apply akey_join_eqb; exact He.
Qed.

(** X7: with a non-[NULL] email, a row's [recent_queries] holds queries of
    that row's own jobs, newest first, [min(100, query_count)] of them, and
    every job of the row left out is no newer than any job listed. *)
Theorem cost_query_recent_queries_top (o : sorter) (Ho : valid_sorter o) (cpt : Q)
    (jobs : list job) :
  exists out, cost_query o cpt jobs = Ok out
  /\ forall s, In s out -> k_user_email (s_key s) <> None ->
       Sorted (fun a b => desc_Z qe_creation_time a b = true) (s_recent_queries s)
       /\ Z.of_nat (List.length (s_recent_queries s)) = Z.min 100 (s_query_count s)
       /\ (forall e, In e (s_recent_queries s) ->
             exists j, In j jobs /\ akey_of j = s_key s
                       /\ qe_job_id e = job_id j /\ qe_creation_time e = creation_time j)
       /\ (forall j, In j jobs -> akey_of j = s_key s ->
             ~ In (job_id j) (map qe_job_id (s_recent_queries s)) ->
             forall e, In e (s_recent_queries s) -> creation_time j <= qe_creation_time e).
Proof.
  destruct (cost_query_ok o cpt jobs) as [out H]; exists out; split; [exact H|].
  intros s Hs He.
  destruct (cost_query_summary o Ho cpt jobs out s H Hs)
    as (udbs & tcs & r & Hu & _ & Hb & Hsr & _ & _ & _ & _ & H5).
  assert (Hk : s_key s = u_key (uds_base r)) by (rewrite Hsr; reflexivity).
  assert (Hq : s_query_count s = u_query_count (uds_base r)) by (rewrite Hsr; reflexivity).
  destruct (filter_key_query_count cpt jobs udbs _ Hu Hb) as [Hq' _].
  rewrite <- Hk in Hq'; rewrite Hq, Hq'; rewrite H5.
  set (le := fun a b : akey * query_entry => desc_Z qe_creation_time (snd a) (snd b)).
  set (M := map snd (ob_sort o le (filter (fun x => akey_join (fst x) (s_key s)) (query_details cpt jobs)))).
  set (F := filter (fun j => akey_eqb (akey_of j) (s_key s)) jobs).
  assert (HM : Permutation M (map snd (query_details cpt F)))
    by (apply query_details_filter_perm; [exact Ho|exact He]).
  assert (HsM : Sorted (fun a b => desc_Z qe_creation_time a b = true) M).
  { apply Sorted_map_rel; unfold ob_sort; apply (proj2 Ho).
    intros a b; unfold le, desc_Z.
    destruct (Z.leb_spec (qe_creation_time (snd b)) (qe_creation_time (snd a)));
      [left; reflexivity|right; apply Z.leb_le; lia]. }
  assert (HinM : forall e, In e M -> exists j, In j F /\ e = snd (akey_of j, {|
             qe_job_id := job_id j; qe_creation_time := creation_time j;
             qe_total_bytes_processed := total_bytes_processed j;
             qe_query_cost_usd := cost_usd cpt (Some (inject_Z (total_bytes_billed j)));
             qe_cache_hit := cache_hit j; qe_has_error := has_error_result j |})).
  { intros e Hin; apply (Permutation_in _ HM) in Hin; unfold query_details in Hin.
    rewrite map_map in Hin; apply in_map_iff in Hin; destruct Hin as (j & <- & Hj).
    exists j; split; [exact Hj|reflexivity]. }
  split; [|split; [|split]].
  - apply Sorted_firstn; exact HsM.
  - rewrite length_firstn, (Permutation_length HM); unfold query_details.
    rewrite !length_map, Nat2Z.inj_min; reflexivity.
  - intros e Hin.
    assert (HinM' : In e M)
      by (rewrite <- (firstn_skipn 100 M); apply in_or_app; left; exact Hin).
    destruct (HinM e HinM') as (j & Hj & ->); apply filter_In in Hj; destruct Hj as [Hj Hkj].
    exists j; split; [exact Hj|split; [apply akey_eqb_iff; exact Hkj|split; reflexivity]].
  - intros j Hj Hkj Hnot e He'.
    set (ej := {| qe_job_id := job_id j; qe_creation_time := creation_time j;
                  qe_total_bytes_processed := total_bytes_processed j;
                  qe_query_cost_usd := cost_usd cpt (Some (inject_Z (total_bytes_billed j)));
                  qe_cache_hit := cache_hit j; qe_has_error := has_error_result j |}).
    assert (Hej : In ej M).
    { apply (Permutation_in _ (Permutation_sym HM)); unfold query_details; rewrite map_map.
      apply in_map_iff; exists j; split; [reflexivity|].
      apply filter_In; split; [exact Hj|apply akey_eqb_iff; exact Hkj]. }
    rewrite <- (firstn_skipn 100 M) in Hej; apply in_app_or in Hej.
    destruct Hej as [Hej|Hej].
    + exfalso; apply Hnot; change (job_id j) with (qe_job_id ej); apply in_map; exact Hej.
    + assert (Hss : StronglySorted (fun a b => desc_Z qe_creation_time a b = true)
                      (firstn 100 M ++ skipn 100 M)).
      { rewrite firstn_skipn; apply Sorted_StronglySorted; [|exact HsM].
        intros a b c Hab Hbc; unfold desc_Z in *; apply Z.leb_le in Hab, Hbc; apply Z.leb_le; lia. }
      pose proof (StronglySorted_app_rel _ _ _ Hss e ej He' Hej) as Hr.
      unfold desc_Z in Hr; apply Z.leb_le in Hr; exact Hr.
Qed.

Lemma cost_query_recent_queries_top_witness :
  valid_sorter isort_sorter /\
  exists out, cost_query isort_sorter 5 jobs_mixed = Ok out
  /\ forall s, In s out -> k_user_email (s_key s) <> None ->
       Sorted (fun a b => desc_Z qe_creation_time a b = true) (s_recent_queries s)
       /\ Z.of_nat (List.length (s_recent_queries s)) = Z.min 100 (s_query_count s)
       /\ (forall e, In e (s_recent_queries s) ->
             exists j, In j jobs_mixed /\ akey_of j = s_key s
                       /\ qe_job_id e = job_id j /\ qe_creation_time e = creation_time j)
       /\ (forall j, In j jobs_mixed -> akey_of j = s_key s ->
             ~ In (job_id j) (map qe_job_id (s_recent_queries s)) ->
             forall e, In e (s_recent_queries s) -> creation_time j <= qe_creation_time e).
Proof.
  split; [exact isort_sorter_valid|].
  exact (cost_query_recent_queries_top isort_sorter isort_sorter_valid 5 jobs_mixed).
Defined.

Lemma table_cost_rows_eq (jobs : list job) :
  table_cost_rows jobs
  = Ok (List.concat (map (fun j => map (fun a => (j, a)) (map (attribution_of j) (referenced_tables_detail j)))
                         jobs)).
Proof.
  unfold table_cost_rows.
  rewrite (mapM_pure _ (fun j => map (fun a => (j, a)) (map (attribution_of j) (referenced_tables_detail j))));
    [reflexivity|].
  intros j _; rewrite attribute_eq; reflexivity.
Qed.

Lemma logical_or_somes (xs : list (option bool)) :
  (forall x, In x xs -> exists b, x = Some b) -> xs <> [] -> exists b, logical_or xs = Some b.
Proof.
  intros Hs Hne; unfold logical_or.
  destruct xs as [|x xs]; [congruence|].
  destruct (Hs x (or_introl eq_refl)) as [b ->]; cbn; eexists; reflexivity.
Qed.

Lemma sum_opt_somes (xs : list (option Q)) :
  (forall x, In x xs -> exists q, x = Some q) -> xs <> [] -> exists q, sum_opt xs = Some q.
Proof.
  intros Hs Hne; unfold sum_opt.
  destruct xs as [|x xs]; [congruence|].
  destruct (Hs x (or_introl eq_refl)) as [q ->]; cbn; eexists; reflexivity.
Qed.

(** Every [table_costs] row has a non-[NULL] rebuild flag and cost: each
    of its per-job rows carries a flag and a share of the billed bytes. *)
Lemma table_costs_defined (cpt : Q) (jobs : list job) (tcs : list table_cost) (tc : table_cost) :
  table_costs cpt jobs = Ok tcs -> In tc tcs ->
  (exists b, tc_is_rebuild_operation tc = Some b) /\ exists c, tc_table_cost_usd tc = Some c.
Proof.
  unfold table_costs; rewrite table_cost_rows_eq; cbn [bind].
  intros H Htc; injection H as <-.
  apply in_map_iff in Htc; destruct Htc as ([[k td] g] & <- & Hin).
  pose proof (group_by_nonempty _ _ _ _ Hin) as Hne; cbn [snd] in Hne.
  pair_group_by_In Hiff.
  apply (group_by_In _ _ Hiff) in Hin; destruct Hin as [_ Hg].
  assert (Hrows : forall ja, In ja g ->
             exists j td', In td' (referenced_tables_detail j) /\ ja = (j, attribution_of j td')).
  { intros ja Hja; rewrite Hg in Hja; apply filter_In in Hja; destruct Hja as [Hja _].
    apply in_concat in Hja; destruct Hja as (l & Hl & Hja).
    apply in_map_iff in Hl; destruct Hl as (j & <- & _).
    rewrite map_map in Hja; apply in_map_iff in Hja; destruct Hja as (td' & <- & Htd).
    exists j, td'; split; [exact Htd|reflexivity]. }
  split.
  - apply logical_or_somes; [|destruct g; [congruence|discriminate]].
    intros x Hx; apply in_map_iff in Hx; destruct Hx as ([j a] & <- & Hja).
    destruct (Hrows _ Hja) as (j' & td' & Htd & Heq); injection Heq as -> ->.
    rewrite rebuild_flag_row by exact Htd; eexists; reflexivity.
  - destruct (sum_opt_somes (map (fun '(_, a) => at_bytes_billed a) g)) as [q Hq].
    + intros x Hx; apply in_map_iff in Hx; destruct Hx as ([j a] & <- & Hja).
      destruct (Hrows _ Hja) as (j' & td' & Htd & Heq); injection Heq as -> ->.
      eexists; reflexivity.
    + destruct g; [congruence|discriminate].
    + cbn [tc_table_cost_usd]; rewrite Hq; eexists; reflexivity.
Qed.

(** X8: every entry of a row's [table_costs] array has a non-[NULL] cost
    and a non-[NULL] rebuild flag, so the [CASE] columns split the cost
    exactly: a rebuild puts all of it in [rebuild_cost_usd] and counts 1,
    an incremental read puts all of it in [incremental_cost_usd] and
    counts 0. *)
Theorem cost_query_table_entry_split (o : sorter) (Ho : valid_sorter o) (cpt : Q)
    (jobs : list job) :
  exists out, cost_query o cpt jobs = Ok out
  /\ forall s te, In s out -> In te (s_table_costs s) ->
       exists b c, te_is_rebuild_operation te = Some b /\ te_table_cost_usd te = Some c
       /\ (if b then te_rebuild_cost_usd te = Some c /\ te_incremental_cost_usd te = Some 0%Q
                     /\ te_rebuild_count te = 1
           else te_rebuild_cost_usd te = Some 0%Q /\ te_incremental_cost_usd te = Some c
                /\ te_rebuild_count te = 0).
Proof.
  destruct (cost_query_ok o cpt jobs) as [out H]; exists out; split; [exact H|].
  intros s te Hs Hte.
  destruct (cost_query_summary o Ho cpt jobs out s H Hs)
    as (udbs & tcs & r & Hu & Ht & Hb & Hsr & _ & _ & _ & H4 & _).
  rewrite H4 in Hte.
  assert (Hin : In te (map table_entry_of
                  (ob_sort o (fun a b => desc_opt (tc_table_cost_usd a) (tc_table_cost_usd b))
                     (filter (fun tc => akey_join (tc_key tc) (s_key s)) tcs))))
    by (rewrite <- (firstn_skipn 100 (map _ _)); apply in_or_app; left; exact Hte).
  apply in_map_iff in Hin; destruct Hin as (tc & <- & Hin).
  apply (in_ob_sort o Ho), filter_In in Hin; destruct Hin as [Hin _].
  destruct (table_costs_defined cpt jobs tcs tc Ht Hin) as [[b Hfl] [c Hc]].
  exists b, c; unfold table_entry_of, case01, is_true3; cbn -[full_table_name dataset_name].
  rewrite Hfl, Hc; split; [reflexivity|split; [reflexivity|]].
  destruct b; repeat split.
Qed.

Lemma cost_query_table_entry_split_witness :
  valid_sorter isort_sorter /\
  exists out, cost_query isort_sorter 5 jobs_mixed = Ok out
  /\ forall s te, In s out -> In te (s_table_costs s) ->
       exists b c, te_is_rebuild_operation te = Some b /\ te_table_cost_usd te = Some c
       /\ (if b then te_rebuild_cost_usd te = Some c /\ te_incremental_cost_usd te = Some 0%Q
                     /\ te_rebuild_count te = 1
           else te_rebuild_cost_usd te = Some 0%Q /\ te_incremental_cost_usd te = Some c
                /\ te_rebuild_count te = 0).
Proof.
  split; [exact isort_sorter_valid|].
  exact (cost_query_table_entry_split isort_sorter isort_sorter_valid 5 jobs_mixed).
Defined.

(* ------------------------------------------------------------------ *)
(** ** Helpers on filters, prefixes and the base rows *)

Lemma Forall2_filter {A B} (R : A -> B -> Prop) (p : A -> bool) (q : B -> bool) xs ys :
  Forall2 R xs ys -> (forall x y, R x y -> p x = q y) -> Forall2 R (filter p xs) (filter q ys).
Proof.
  induction 1 as [|x y xs ys Hxy _ IH]; intros Hpq; cbn; [constructor|].
  rewrite (Hpq x y Hxy); destruct (q y); [constructor; [exact Hxy|]|]; apply IH; exact Hpq.
Qed.

(** A column of [user_daily_base] summed over the rows whose key satisfies
    [P] is the job column summed over the jobs whose key satisfies [P]. *)
Lemma user_daily_base_filter_sumZ (cpt : Q) (jobs : list job) (udbs : list udb)
    (P : akey -> bool) (h : udb -> Z) (f : job -> Z) :
  (forall k g u, user_daily_base_row cpt k g = Ok u -> h u = sumZ (map f g)) ->
  user_daily_base cpt jobs = Ok udbs ->
  sumZ (map h (filter (fun u => P (u_key u)) udbs)) = sumZ (map f (filter (fun j => P (akey_of j)) jobs)).
Proof.
  intros Hf H.
  assert (H2 : Forall2 (fun kg u => user_daily_base_row cpt (fst kg) (snd kg) = Ok u)
                 (filter (fun kg => P (fst kg)) (group_by akey_eqb akey_of jobs))
                 (filter (fun u => P (u_key u)) udbs)).
  { apply Forall2_filter; [exact (user_daily_base_rows _ _ _ H)|].
    intros kg u Hr; apply user_daily_base_row_ok in Hr; rewrite (proj1 Hr); reflexivity. }
  rewrite <- (Forall2_map_eq (fun kg => sumZ (map f (snd kg))) h _ _ _ (fun kg u Hr => eq_sym (Hf _ _ _ Hr)) H2).
  rewrite <- sumZ_map_flat_map; apply sumZ_perm, Permutation_map.
  exact (group_by_filter_perm akey_eqb akey_of akey_eqb_iff jobs P).
Qed.


Lemma NoDup_firstn_keep {A} (n : nat) (l : list A) : NoDup l -> NoDup (firstn n l).
Proof.
  intros H; rewrite <- (firstn_skipn n l) in H; exact (NoDup_app_remove_r _ _ H).
Qed.


Lemma in_firstn_keep {A} (n : nat) (l : list A) (x : A) : In x (firstn n l) -> In x l.
Proof. intros H; rewrite <- (firstn_skipn n l); apply in_or_app; left; exact H. Qed.



Section DatasetTable.

Variable g : Q * Q -> Q.
Hypothesis g_add : forall x y z w, (g ((x + z)%Q, (y + w)%Q) == g (x, y) + g (z, w))%Q.
Hypothesis g_zero : (g (0%Q, 0%Q) == 0)%Q.

Lemma js_accumulate_entry_sum name b c acc n :
  (entry_sum g n (js_accumulate name b c acc)
   == entry_sum g n acc + (if String.eqb name n then g (b, c) else 0))%Q.
Proof.
  unfold entry_sum; induction acc as [|[n0 [b0 c0]] t IH]; cbn [js_accumulate].
  - cbn [filter fst snd]; destruct (String.eqb name n); cbn [map sumQ snd].
    + pose proof (g_add 0 0 b c); rewrite g_zero in H; lra.
    + lra.
  - destruct (String.eqb n0 name) eqn:E0.
    + apply String.eqb_eq in E0; subst n0; cbn [filter fst].
      destruct (String.eqb name n); cbn [map sumQ snd]; [|lra].
      pose proof (g_add b0 c0 b c); lra.
    + cbn [filter fst]; destruct (String.eqb n0 n); cbn [map sumQ snd]; [|exact IH].
      rewrite IH; lra.
Qed.

Lemma fold_accumulate_entry_sum (xs : list module_dataset_entry) acc n :
  (entry_sum g n (fold_left (fun acc ds =>
                      js_accumulate (mde_dataset ds) (ifnull (mde_bytes_processed ds) 0%Q)
                                    (ifnull (mde_dataset_cost_usd ds) 0%Q) acc) xs acc)
   == entry_sum g n acc
      + sumQ (map (fun ds => g (ifnull (mde_bytes_processed ds) 0%Q, ifnull (mde_dataset_cost_usd ds) 0%Q))
                  (filter (fun ds => String.eqb (mde_dataset ds) n) xs)))%Q.
Proof.
  revert acc; induction xs as [|x xs IH]; intros acc; cbn [fold_left filter].
  - cbn; lra.
  - rewrite IH, js_accumulate_entry_sum.
    destruct (String.eqb (mde_dataset x) n); cbn [map sumQ]; lra.
Qed.

End DatasetTable.

Lemma js_accumulate_keys name b c acc m :
  In m (map fst (js_accumulate name b c acc)) <-> m = name \/ In m (map fst acc).
Proof.
  induction acc as [|[n0 [b0 c0]] t IH]; cbn [js_accumulate].
  - cbn; split; [intros [->|[]]; auto|intros [->|[]]; auto].
  - destruct (String.eqb n0 name) eqn:E0.
    + apply String.eqb_eq in E0; subst n0; cbn; split; [intros [->|H]; auto|intros [->|[->|H]]; auto].
    + cbn [map fst]; cbn [In]; rewrite IH; tauto.
Qed.

Lemma js_accumulate_NoDup name b c acc :
  NoDup (map fst acc) -> NoDup (map fst (js_accumulate name b c acc)).
Proof.
  induction acc as [|[n0 [b0 c0]] t IH]; cbn [js_accumulate]; intros H.
  - cbn; constructor; [intros []|constructor].
  - destruct (String.eqb n0 name) eqn:E0; [exact H|].
    cbn [map fst] in *; apply NoDup_cons_iff in H; destruct H as [Hn Ht].
    constructor; [|exact (IH Ht)].
    rewrite js_accumulate_keys; intros [->|Hin]; [rewrite String.eqb_refl in E0; discriminate|exact (Hn Hin)].
Qed.

Lemma fold_accumulate_keys_NoDup (xs : list module_dataset_entry) acc :
  let R := fold_left (fun acc ds =>
              js_accumulate (mde_dataset ds) (ifnull (mde_bytes_processed ds) 0%Q)
                            (ifnull (mde_dataset_cost_usd ds) 0%Q) acc) xs acc in
  (NoDup (map fst acc) -> NoDup (map fst R))
  /\ forall m, In m (map fst R) <-> In m (map fst acc) \/ In m (map mde_dataset xs).
Proof.
  revert acc; induction xs as [|x xs IH]; intros acc; cbn [fold_left map].
  - split; [auto|intros m; cbn; tauto].
  - destruct (IH (js_accumulate (mde_dataset x) (ifnull (mde_bytes_processed x) 0%Q)
                                (ifnull (mde_dataset_cost_usd x) 0%Q) acc)) as [H1 H2].
    split; [intros H; apply H1, js_accumulate_NoDup, H|].
    intros m; rewrite H2, js_accumulate_keys; cbn [In]; split; intros H; intuition (subst; auto).
Qed.

Lemma dataset_costs_of_flat (data : list monitoring_row) :
  dataset_costs_of data
  = fold_left (fun acc ds =>
                 js_accumulate (mde_dataset ds) (ifnull (mde_bytes_processed ds) 0%Q)
                               (ifnull (mde_dataset_cost_usd ds) 0%Q) acc)
              (flat_map mr_dataset_costs data) [].
Proof.
  unfold dataset_costs_of; generalize (@nil (string * (Q * Q))) as acc.
  induction data as [|r data IH]; intros acc; cbn [fold_left flat_map]; [reflexivity|].
  rewrite fold_left_app; apply IH.
Qed.

Lemma filter_none_in {A} (f : A -> bool) (l : list A) :
  (forall x, In x l -> f x = false) -> filter f l = [].
Proof.
  induction l as [|x l IH]; intros Hf; cbn; [reflexivity|].
  rewrite (Hf x (or_introl eq_refl)); apply IH; intros y Hy; apply Hf; right; exact Hy.
Qed.

Lemma entry_sum_unique (h : Q * Q -> Q) (acc : list (string * (Q * Q))) n v :
  NoDup (map fst acc) -> In (n, v) acc -> (entry_sum h n acc == h v)%Q.
Proof.
  unfold entry_sum; induction acc as [|[n0 v0] t IH]; intros Hnd Hin; [destruct Hin|].
  cbn [map fst] in Hnd; apply NoDup_cons_iff in Hnd; destruct Hnd as [Hn Ht].
  destruct Hin as [Heq|Hin].
  - injection Heq as -> ->; cbn [filter fst]; rewrite String.eqb_refl; cbn [map sumQ snd].
    assert (H0 : filter (fun e => String.eqb (fst e) n) t = []).
    { apply filter_none_in; intros [m w] Hm; cbn; apply String.eqb_neq.
      intros ->; apply Hn, (in_map fst _ _ Hm). }
    rewrite H0; cbn; lra.
  - cbn [filter fst]; destruct (String.eqb n0 n) eqn:E.
    + apply String.eqb_eq in E; subst n0; exfalso; apply Hn, (in_map fst _ _ Hin).
    + exact (IH Ht Hin).
Qed.

Lemma fold_left_Qsum {A} (f : A -> Q) (xs : list A) (t : Q) :
  (fold_left (fun t x => t + f x) xs t == t + sumQ (map f xs))%Q.
Proof.
  revert t; induction xs as [|x xs IH]; intros t; cbn; [lra|rewrite IH; lra].
Qed.

Lemma cost_desc_total (a b : string * (Q * Q)) :
  Qle_bool (snd (snd b)) (snd (snd a)) = true \/ Qle_bool (snd (snd a)) (snd (snd b)) = true.
Proof.
  rewrite !Qle_bool_iff; destruct (Qlt_le_dec (snd (snd a)) (snd (snd b))) as [H|H]; [right|left];
    [apply Qlt_le_weak|]; exact H.
Qed.

(** X9: the dashboard's dataset table shows at most ten datasets, each
    once, most expensive first; each shown dataset appears in the data and
    its cost and processed bytes are the sums over all [dataset_costs]
    entries of that name; a dataset of the data left out costs no more
    than any shown one; the total used for the percentages is the sum of
    the rows' estimated costs. *)
Theorem update_dataset_table_top (o : sorter) (Ho : valid_sorter o) (data : list monitoring_row) :
  let shown := fst (update_dataset_table o data) in
  (List.length shown <= 10)%nat
  /\ NoDup (map fst shown)
  /\ Sorted (fun a b => Qle_bool (snd (snd b)) (snd (snd a)) = true) shown
  /\ (forall n b c, In (n, (b, c)) shown ->
        In n (map mde_dataset (flat_map mr_dataset_costs data))
        /\ (c == dataset_cost_in data n)%Q /\ (b == dataset_bytes_in data n)%Q)
  /\ (forall n, In n (map mde_dataset (flat_map mr_dataset_costs data)) -> ~ In n (map fst shown) ->
        forall e, In e shown -> (dataset_cost_in data n <= snd (snd e))%Q)
  /\ (snd (update_dataset_table o data)
      == sumQ (map (fun item => ifnull (u_estimated_cost_usd (mr_base item)) 0%Q) data))%Q.
Proof.
  cbv zeta; unfold update_dataset_table; cbn [fst snd].
  set (le := fun a b : string * (Q * Q) => Qle_bool (snd (snd b)) (snd (snd a))).
  set (dc := dataset_costs_of data).
  set (S := ob_sort o le dc).
  set (all := flat_map mr_dataset_costs data).
  assert (HdcF : dc = fold_left (fun acc ds =>
                 js_accumulate (mde_dataset ds) (ifnull (mde_bytes_processed ds) 0%Q)
                               (ifnull (mde_dataset_cost_usd ds) 0%Q) acc) all [])
    by apply dataset_costs_of_flat.
  destruct (fold_accumulate_keys_NoDup all []) as [Hnd Hkeys]; rewrite <- HdcF in Hnd, Hkeys.
  specialize (Hnd (NoDup_nil _)).
  assert (HP : Permutation S dc) by apply (proj1 Ho).
  assert (Hsum : forall (h : Q * Q -> Q),
            (forall x y z w, (h ((x + z)%Q, (y + w)%Q) == h (x, y) + h (z, w))%Q) ->
            (h (0%Q, 0%Q) == 0)%Q ->
            forall n v, In (n, v) dc ->
            (h v == sumQ (map (fun ds => h (ifnull (mde_bytes_processed ds) 0%Q,
                                            ifnull (mde_dataset_cost_usd ds) 0%Q))
                              (filter (fun ds => String.eqb (mde_dataset ds) n) all)))%Q).
  { intros h Ha H0 n v Hin; rewrite <- (entry_sum_unique h dc n v Hnd Hin), HdcF.
    rewrite (fold_accumulate_entry_sum h Ha H0); unfold entry_sum; cbn; lra. }
  assert (Hcost : forall n v, In (n, v) dc -> (snd v == dataset_cost_in data n)%Q).
  { intros n v Hin; rewrite (Hsum snd) with (n := n) by (try exact Hin; intros; cbn; reflexivity).
    unfold dataset_cost_in; fold all; reflexivity. }
  assert (Hbytes : forall n v, In (n, v) dc -> (fst v == dataset_bytes_in data n)%Q).
  { intros n v Hin; rewrite (Hsum fst) with (n := n) by (try exact Hin; intros; cbn; reflexivity).
    unfold dataset_bytes_in; fold all; reflexivity. }
  assert (Hsorted : Sorted (fun a b => le a b = true) S)
    by (unfold S, ob_sort; apply (proj2 Ho); exact cost_desc_total).
  split; [apply firstn_le_length|split; [|split; [|split; [|split]]]].
  - rewrite <- firstn_map; apply NoDup_firstn_keep.
    eapply Permutation_NoDup; [symmetry; apply Permutation_map, HP|exact Hnd].
  - apply Sorted_firstn; exact Hsorted.
  - intros n b c Hin; apply in_firstn_keep, (Permutation_in _ HP) in Hin.
    split; [|split; [exact (Hcost n (b, c) Hin)|exact (Hbytes n (b, c) Hin)]].
    assert (Hk : In n (map fst dc)) by (apply (in_map fst) in Hin; exact Hin).
    apply Hkeys in Hk; destruct Hk as [[]|Hk]; exact Hk.
  - intros n Hn Hnot e He.
    assert (Hk : In n (map fst dc)) by (apply Hkeys; right; exact Hn).
    apply in_map_iff in Hk; destruct Hk as ([n' v] & Hn' & Hin); cbn in Hn'; subst n'.
    assert (HinS : In (n, v) S) by (apply (Permutation_in _ (Permutation_sym HP)); exact Hin).
    rewrite <- (firstn_skipn 10 S) in HinS; apply in_app_or in HinS.
    destruct HinS as [HinS|HinS]; [exfalso; apply Hnot, (in_map fst _ _ HinS)|].
    assert (Hss : StronglySorted (fun a b => le a b = true) (firstn 10 S ++ skipn 10 S)).
    { rewrite firstn_skipn; apply Sorted_StronglySorted; [|exact Hsorted].
      intros x y z; unfold le; rewrite !Qle_bool_iff; intros Hxy Hyz; eapply Qle_trans; eassumption. }
    pose proof (StronglySorted_app_rel _ _ _ Hss e (n, v) He HinS) as Hev.
    unfold le in Hev; apply Qle_bool_iff in Hev; cbn [snd] in Hev.
    rewrite <- (Hcost n v Hin); exact Hev.
  - unfold dataset_table_total_cost.
    rewrite (fold_left_Qsum (fun item => ifnull (u_estimated_cost_usd (mr_base item)) 0%Q)); lra.
Qed.

Lemma update_dataset_table_top_witness :
  valid_sorter isort_sorter /\
  let shown := fst (update_dataset_table isort_sorter dashboard_rows_mixed) in
  (List.length shown <= 10)%nat
  /\ NoDup (map fst shown)
  /\ Sorted (fun a b => Qle_bool (snd (snd b)) (snd (snd a)) = true) shown
  /\ (forall n b c, In (n, (b, c)) shown ->
        In n (map mde_dataset (flat_map mr_dataset_costs dashboard_rows_mixed))
        /\ (c == dataset_cost_in dashboard_rows_mixed n)%Q
        /\ (b == dataset_bytes_in dashboard_rows_mixed n)%Q)
  /\ (forall n, In n (map mde_dataset (flat_map mr_dataset_costs dashboard_rows_mixed)) ->
        ~ In n (map fst shown) ->
        forall e, In e shown -> (dataset_cost_in dashboard_rows_mixed n <= snd (snd e))%Q)
  /\ (snd (update_dataset_table isort_sorter dashboard_rows_mixed)
      == sumQ (map (fun item => ifnull (u_estimated_cost_usd (mr_base item)) 0%Q) dashboard_rows_mixed))%Q.
Proof.
  split; [exact isort_sorter_valid|].
  exact (update_dataset_table_top isort_sorter isort_sorter_valid dashboard_rows_mixed).
Defined.

Lemma find_accumulate_sum key q c acc :
  sumZ (map tb_queries (find_accumulate key q c acc)) = sumZ (map tb_queries acc) + q.
Proof.
  induction acc as [|t rest IH]; cbn [find_accumulate]; [cbn; lia|].
  destruct (Z.eqb (tb_key t) key); cbn [map sumZ tb_queries]; [lia|rewrite IH; lia].
Qed.

Lemma find_accumulate_keys key q c acc x :
  In x (map tb_key (find_accumulate key q c acc)) <-> x = key \/ In x (map tb_key acc).
Proof.
  induction acc as [|t rest IH]; cbn [find_accumulate].
  - cbn; split; [intros [<-|[]]; auto|intros [->|[]]; auto].
  - destruct (Z.eqb (tb_key t) key) eqn:E.
    + apply Z.eqb_eq in E; cbn [map tb_key In]; rewrite E; split; [intros [<-|H]; auto|intros [->|[->|H]]; auto].
    + cbn [map In]; rewrite IH; split; intros H; intuition (subst; auto).
Qed.

Lemma find_accumulate_NoDup key q c acc :
  NoDup (map tb_key acc) -> NoDup (map tb_key (find_accumulate key q c acc)).
Proof.
  induction acc as [|t rest IH]; cbn [find_accumulate]; intros H.
  - cbn; constructor; [intros []|constructor].
  - destruct (Z.eqb (tb_key t) key) eqn:E; [exact H|].
    cbn [map] in *; apply NoDup_cons_iff in H; destruct H as [Hn Ht].
    constructor; [|exact (IH Ht)].
    rewrite find_accumulate_keys; intros [Hk|Hin]; [rewrite Hk, Z.eqb_refl in E; discriminate|exact (Hn Hin)].
Qed.

Lemma fold_find_accumulate {E} (kf qf : E -> Z) (cf : E -> Q) (es : list E) acc :
  let R := fold_left (fun acc e => find_accumulate (kf e) (qf e) (cf e) acc) es acc in
  sumZ (map tb_queries R) = sumZ (map tb_queries acc) + sumZ (map qf es)
  /\ (NoDup (map tb_key acc) -> NoDup (map tb_key R))
  /\ forall x, In x (map tb_key R) <-> In x (map tb_key acc) \/ In x (map kf es).
Proof.
  revert acc; induction es as [|e es IH]; intros acc; cbn [fold_left map sumZ].
  - split; [lia|split; [auto|intros x; cbn; tauto]].
  - destruct (IH (find_accumulate (kf e) (qf e) (cf e) acc)) as (H1 & H2 & H3).
    split; [rewrite H1, find_accumulate_sum; lia|split].
    + intros H; apply H2, find_accumulate_NoDup, H.
    + intros x; rewrite H3, find_accumulate_keys; cbn [In]; split; intros H; intuition (subst; auto).
Qed.

Lemma time_pattern_fold (data : list daily_actor_summary) has0 hs0 ds0 :
  fold_left (fun '(has, hs, ds) item =>
               (true,
                fold_left (fun hs e => find_accumulate (he_hour_of_day e) (he_hourly_queries e)
                                                       (ifnull (he_hourly_cost e) 0%Q) hs)
                          (s_hourly_breakdown item) hs,
                fold_left (fun ds e => find_accumulate (we_day_of_week e) (we_daily_queries e)
                                                       (ifnull (we_daily_cost e) 0%Q) ds)
                          (s_daily_breakdown item) ds))
            data (has0, hs0, ds0)
  = (match data with [] => has0 | _ :: _ => true end,
     fold_left (fun hs e => find_accumulate (he_hour_of_day e) (he_hourly_queries e)
                                            (ifnull (he_hourly_cost e) 0%Q) hs)
               (flat_map s_hourly_breakdown data) hs0,
     fold_left (fun ds e => find_accumulate (we_day_of_week e) (we_daily_queries e)
                                            (ifnull (we_daily_cost e) 0%Q) ds)
               (flat_map s_daily_breakdown data) ds0).
Proof.
  revert has0 hs0 ds0; induction data as [|item data IH]; intros has0 hs0 ds0; [reflexivity|].
  cbn [fold_left flat_map]; rewrite IH, !fold_left_app; destruct data; reflexivity.
Qed.

Lemma sumZ_flat_map_gen {A B} (f : A -> Z) (sel : B -> list A) (l : list B) :
  sumZ (map f (flat_map sel l)) = sumZ (map (fun b => sumZ (map f (sel b))) l).
Proof.
  induction l as [|b l IH]; cbn; [reflexivity|]; rewrite map_app, sumZ_app, IH; reflexivity.
Qed.

Lemma sumZ_if_filter {A} (p : A -> bool) (h : A -> Z) (l : list A) :
  sumZ (map (fun x => if p x then h x else 0) l) = sumZ (map h (filter p l)).
Proof. induction l as [|x l IH]; cbn; [reflexivity|]; destruct (p x); cbn; lia. Qed.

Lemma sumZ_map_ext_in {A} (f g : A -> Z) (l : list A) :
  (forall x, In x l -> f x = g x) -> sumZ (map f l) = sumZ (map g l).
Proof. intros H; rewrite (map_ext_in f g l H); reflexivity. Qed.

(** The query's rows cover the jobs with a non-[NULL] [user_email]: their
    [query_count]s sum to the number of such jobs. *)
Lemma cost_query_email_count (o : sorter) (Ho : valid_sorter o) (cpt : Q) (jobs : list job)
    (out : list daily_actor_summary) :
  cost_query o cpt jobs = Ok out ->
  sumZ (map (fun s => match k_user_email (s_key s) with Some _ => s_query_count s | None => 0 end) out)
  = Z.of_nat (List.length (filter (fun j => match user_email j with Some _ => true | None => false end) jobs)).
Proof.
  intros H.
  set (P := fun k : akey => match k_user_email k with Some _ => true | None => false end).
  destruct (cost_query_column o Ho cpt jobs out
              (fun s => match k_user_email (s_key s) with Some _ => s_query_count s | None => 0 end)
              (fun u => if P (u_key u) then u_query_count u else 0)) as (udbs & Hu & Hp);
    [intros r; unfold P; cbn; destruct (k_user_email (u_key (uds_base r))); reflexivity|exact H|].
  rewrite (sumZ_perm _ _ Hp), sumZ_if_filter, length_sumZ.
  change (fun j => match user_email j with Some _ => true | None => false end)
    with (fun j => P (akey_of j)).
  apply (user_daily_base_filter_sumZ cpt jobs udbs P); [|exact Hu].
  intros k gr u Hr; apply user_daily_base_row_ok in Hr; destruct Hr as (_ & Hq & _).
  rewrite Hq; apply length_sumZ.
Qed.

Lemma cost_query_nil_iff (o : sorter) (Ho : valid_sorter o) (cpt : Q) (jobs : list job)
    (out : list daily_actor_summary) :
  cost_query o cpt jobs = Ok out -> (out = [] <-> jobs = []).
Proof.
  intros H; destruct (cost_query_column o Ho cpt jobs out (fun _ => tt) (fun _ => tt) (fun r => eq_refl) H)
    as (udbs & Hu & Hp).
  apply Permutation_length in Hp; rewrite !length_map in Hp.
  pose proof (user_daily_base_keys _ _ _ Hu) as Hk.
  destruct jobs as [|j js]; split; intros Hnil; try reflexivity.
  - destruct out; [reflexivity|]; destruct udbs; [discriminate|discriminate Hk].
  - exfalso; subst out; destruct udbs; [|discriminate].
    assert (Hin : In (akey_of j, filter (fun y => akey_eqb (akey_of y) (akey_of j)) (j :: js))
                     (group_by akey_eqb akey_of (j :: js))).
    { apply (group_by_In akey_eqb akey_of akey_eqb_iff); split; [|reflexivity].
      exists j; split; [left; reflexivity|reflexivity]. }
    destruct (group_by akey_eqb akey_of (j :: js)); [destruct Hin|discriminate].
  - discriminate.
Qed.

(** X10: the dashboard's time-pattern modal over the query's rows: it
    reports time data exactly when there are jobs; its hourly buckets are
    distinct hours of [0, 23] in ascending order and its weekday buckets
    distinct days of [1, 7] in ascending order; both count, in total, the
    jobs with a non-[NULL] [user_email]. *)
Theorem time_pattern_modal_totals (o : sorter) (Ho : valid_sorter o) (cpt : Q) (jobs : list job) :
  exists out, cost_query o cpt jobs = Ok out
  /\ match time_pattern_modal o out with
     | (has, hourly, daily) =>
         (has = true <-> jobs <> [])
         /\ Sorted (fun a b => Z.leb (tb_key a) (tb_key b) = true) hourly
         /\ NoDup (map tb_key hourly)
         /\ Forall (fun b => 0 <= tb_key b <= 23) hourly
         /\ sumZ (map tb_queries hourly)
            = Z.of_nat (List.length (filter (fun j => match user_email j with Some _ => true | None => false end) jobs))
         /\ Sorted (fun a b => Z.leb (tb_key a) (tb_key b) = true) daily
         /\ NoDup (map tb_key daily)
         /\ Forall (fun b => 1 <= tb_key b <= 7) daily
         /\ sumZ (map tb_queries daily)
            = Z.of_nat (List.length (filter (fun j => match user_email j with Some _ => true | None => false end) jobs))
     end.
Proof.
  destruct (cost_query_ok o cpt jobs) as [out H]; exists out; split; [exact H|].
  destruct (cost_query_null_email_shape o Ho cpt jobs) as (out1 & H1 & Hnull).
  destruct (cost_query_hourly_shape o Ho cpt jobs) as (out2 & H2 & Hhour).
  destruct (cost_query_daily_shape o Ho cpt jobs) as (out3 & H3 & Hday).
  rewrite H in H1, H2, H3; injection H1 as <-; injection H2 as <-; injection H3 as <-.
  unfold time_pattern_modal; rewrite time_pattern_fold.
  set (le := fun a b : time_bucket => Z.leb (tb_key a) (tb_key b)).
  assert (Htot : forall a b, le a b = true \/ le b a = true).
  { intros a b; unfold le; destruct (Z.le_ge_cases (tb_key a) (tb_key b)) as [Hab|Hab];
      [left|right]; apply Z.leb_le; lia. }
  destruct (fold_find_accumulate he_hour_of_day he_hourly_queries (fun e => ifnull (he_hourly_cost e) 0%Q)
              (flat_map s_hourly_breakdown out) []) as (Hs1 & Hn1 & Hk1).
  destruct (fold_find_accumulate we_day_of_week we_daily_queries (fun e => ifnull (we_daily_cost e) 0%Q)
              (flat_map s_daily_breakdown out) []) as (Hs2 & Hn2 & Hk2).
  cbv zeta in Hs1, Hn1, Hk1, Hs2, Hn2, Hk2.
  set (hs := fold_left _ (flat_map s_hourly_breakdown out) []) in *.
  set (ds := fold_left _ (flat_map s_daily_breakdown out) []) in *.
  assert (Php : Permutation (ob_sort o le hs) hs) by apply (proj1 Ho).
  assert (Pdp : Permutation (ob_sort o le ds) ds) by apply (proj1 Ho).
  assert (Hcount := cost_query_email_count o Ho cpt jobs out H).
  split; [|split; [|split; [|split; [|split; [|split; [|split; [|split]]]]]]].
  - rewrite <- (cost_query_nil_iff o Ho cpt jobs out H).
    destruct out; split; intros Hx; [discriminate|exfalso; apply Hx; reflexivity|intros Hy; discriminate|reflexivity].
  - unfold ob_sort; apply (proj2 Ho), Htot.
  - eapply Permutation_NoDup; [symmetry; apply Permutation_map, Php|apply Hn1; constructor].
  - apply Forall_forall; intros b Hb.
    assert (Hx : In (tb_key b) (map tb_key hs)) by (apply in_map, (Permutation_in _ Php), Hb).
    apply Hk1 in Hx; destruct Hx as [[]|Hx].
    apply in_map_iff in Hx; destruct Hx as (e & He & Hin); apply in_flat_map in Hin.
    destruct Hin as (s & Hs & Hin).
    destruct (k_user_email (s_key s)) eqn:Em.
    + destruct (Hhour s Hs ltac:(rewrite Em; discriminate)) as (_ & _ & Hr & _).
      rewrite Forall_forall in Hr; rewrite <- He; apply Hr, Hin.
    + rewrite (proj1 (proj1 (Hnull s Hs)) Em) in Hin; destruct Hin.
  - rewrite (sumZ_perm _ _ (Permutation_map tb_queries Php)), Hs1, sumZ_flat_map_gen, <- Hcount.
    cbn [map sumZ]; rewrite Z.add_0_l; apply sumZ_map_ext_in; intros s Hs.
    destruct (k_user_email (s_key s)) eqn:Em.
    + apply (Hhour s Hs); rewrite Em; discriminate.
    + rewrite (proj1 (proj1 (Hnull s Hs)) Em); reflexivity.
  - unfold ob_sort; apply (proj2 Ho), Htot.
  - eapply Permutation_NoDup; [symmetry; apply Permutation_map, Pdp|apply Hn2; constructor].
  - apply Forall_forall; intros b Hb.
    assert (Hx : In (tb_key b) (map tb_key ds)) by (apply in_map, (Permutation_in _ Pdp), Hb).
    apply Hk2 in Hx; destruct Hx as [[]|Hx].
    apply in_map_iff in Hx; destruct Hx as (e & He & Hin); apply in_flat_map in Hin.
    destruct Hin as (s & Hs & Hin).
    destruct (k_user_email (s_key s)) eqn:Em.
    + rewrite (Hday s Hs ltac:(rewrite Em; discriminate)) in Hin.
      destruct Hin as [<-|[]]; cbn [we_day_of_week] in He; rewrite <- He.
      pose proof (Z.mod_pos_bound (k_date (s_key s) + 4) 7 ltac:(lia)); lia.
    + rewrite (proj1 (proj2 (Hnull s Hs) Em)) in Hin; destruct Hin.
  - rewrite (sumZ_perm _ _ (Permutation_map tb_queries Pdp)), Hs2, sumZ_flat_map_gen, <- Hcount.
    cbn [map sumZ]; rewrite Z.add_0_l; apply sumZ_map_ext_in; intros s Hs.
    destruct (k_user_email (s_key s)) eqn:Em.
    + rewrite (Hday s Hs ltac:(rewrite Em; discriminate)); cbn; lia.
    + rewrite (proj1 (proj2 (Hnull s Hs) Em)); reflexivity.
Qed.

Lemma time_pattern_modal_totals_witness :
  valid_sorter isort_sorter /\
  exists out, cost_query isort_sorter 5 jobs_mixed = Ok out
  /\ match time_pattern_modal isort_sorter out with
     | (has, hourly, daily) =>
         (has = true <-> jobs_mixed <> [])
         /\ Sorted (fun a b => Z.leb (tb_key a) (tb_key b) = true) hourly
         /\ NoDup (map tb_key hourly)
         /\ Forall (fun b => 0 <= tb_key b <= 23) hourly
         /\ sumZ (map tb_queries hourly)
            = Z.of_nat (List.length (filter (fun j => match user_email j with Some _ => true | None => false end) jobs_mixed))
         /\ Sorted (fun a b => Z.leb (tb_key a) (tb_key b) = true) daily
         /\ NoDup (map tb_key daily)
         /\ Forall (fun b => 1 <= tb_key b <= 7) daily
         /\ sumZ (map tb_queries daily)
            = Z.of_nat (List.length (filter (fun j => match user_email j with Some _ => true | None => false end) jobs_mixed))
     end.
Proof.
  split; [exact isort_sorter_valid|].
  exact (time_pattern_modal_totals isort_sorter isort_sorter_valid 5 jobs_mixed).
Defined.

(* ------------------------------------------------------------------ *)
(** ** The arrays of an actor-day summary *)




